(** * libregf key item: a shallow embedding of [libregf_key_item.c]

    The functions of [libregf/libregf_key_item.c] are written here as Rocq
    functions over explicit state: the key item, the tree node and the cache
    of the hive bins list are passed in and handed back.  An [int] result of
    the C code is kept as the integer it is (1, 0 or -1). *)

From Stdlib Require Import ZArith List Lia Bool Strings.Byte.
From Stdlib Require Strings.String.
From coqutil Require Import Byte Word.LittleEndianList.
Import ListNotations.
Import String.StringSyntax.
Delimit Scope string_scope with string.
Local Open Scope Z_scope.

(** ** Integers of the C code *)

Definition UINT32_MAX : Z := 0xffffffff.

(** [SSIZE_MAX] of an LP64 platform. *)
Definition SSIZE_MAX : Z := 0x7fffffffffffffff.

(** The cast [(uint32_t) x], and unsigned 32-bit arithmetic: the value
    modulo 2^32. *)
Definition uint32 (x : Z) : Z := x mod 2 ^ 32.

(** [byte_stream_copy_to_uint32_little_endian] and its 16-bit sibling, on the
    bytes they read. *)
Definition byte_stream_copy_to_uint32_little_endian (b0 b1 b2 b3 : byte) : Z :=
  le_combine [b0; b1; b2; b3].

Definition byte_stream_copy_to_uint16_little_endian (b0 b1 : byte) : Z :=
  le_combine [b0; b1].

(** ** What a call can do

    A function of the C code returns an [int]; the model adds the two ways
    in which a call has no [int] to give: the code reads past the end of a
    buffer (undefined behaviour in C), or the recursion budget that the model
    gives to the sub keys walk is used up. *)
Inductive outcome : Type :=
| Return (result : Z)
| BufferOverread
| DepthExhausted.

(** ** The hive bins list (the cell store)

    Modelled from the spec: [libregf_hive_bins_list.c] is not part of the
    sources at hand.  The store hands out a pointer to a cell that lives in a
    cached hive bin; what the pointer shows depends on the state of the
    cache, and a later fetch may change that state.  Probing the index of
    bins reads no cell and leaves the cache as it is. *)
Record libregf_hive_bins_list : Type := {
  cache : Type;
  libregf_hive_bin_cell : Type;
  (* [hive_bins_list->io_handle], by its [ascii_codepage]; [None] is NULL *)
  io_handle : option Z;
  (* [Some cell] when the call returns 1 *)
  libregf_hive_bins_list_get_cell_at_offset :
    cache -> Z -> option libregf_hive_bin_cell * cache;
  (* [hive_bin_cell->data], [hive_bin_cell->size] being its length *)
  hive_bin_cell_data : cache -> libregf_hive_bin_cell -> list byte;
  (* 1 when the offset lies in a bin, 0 when it does not, -1 on error *)
  libregf_hive_bins_list_get_index_at_offset : Z -> Z
}.

(** The cells of a hive file, by offset: what the store serves. *)
Definition hive_cells : Type := Z -> option (list byte).

(** A store serves a hive when a fetch succeeds exactly on the cells of the
    hive and the pointer it returns shows the cell in the cache state that
    the fetch leaves behind.  Nothing is promised about older pointers. *)
Definition serves (hive_bins_list : libregf_hive_bins_list)
    (cells : hive_cells) : Prop :=
  forall (c : cache hive_bins_list) (offset : Z),
    match libregf_hive_bins_list_get_cell_at_offset hive_bins_list c offset with
    | (Some cell, c') =>
        cells offset = Some (hive_bin_cell_data hive_bins_list c' cell)
    | (None, _) => cells offset = None
    end.

(** A store that never evicts: the pointer is the cell itself. *)
Definition never_evicting (codepage : option Z) (cells : hive_cells)
    (index_at_offset : Z -> Z) : libregf_hive_bins_list :=
  {| cache := unit;
     libregf_hive_bin_cell := list byte;
     io_handle := codepage;
     libregf_hive_bins_list_get_cell_at_offset := fun c offset =>
       (cells offset, c);
     hive_bin_cell_data := fun _ cell => cell;
     libregf_hive_bins_list_get_index_at_offset := index_at_offset |}.

(** A store with a cache of one slot: every fetch overwrites the slot, and
    every pointer ever handed out points at that slot. *)
Definition single_slot (codepage : option Z) (cells : hive_cells)
    (index_at_offset : Z -> Z) : libregf_hive_bins_list :=
  {| cache := list byte;
     libregf_hive_bin_cell := unit;
     io_handle := codepage;
     libregf_hive_bins_list_get_cell_at_offset := fun c offset =>
       match cells offset with
       | Some data => (Some tt, data)
       | None => (None, c)
       end;
     hive_bin_cell_data := fun c _ => c;
     libregf_hive_bins_list_get_index_at_offset := index_at_offset |}.

(** A store that never evicts and keeps the list of the offsets fetched,
    latest first. *)
Definition recording (codepage : option Z) (cells : hive_cells)
    (index_at_offset : Z -> Z) : libregf_hive_bins_list :=
  {| cache := list Z;
     libregf_hive_bin_cell := list byte;
     io_handle := codepage;
     libregf_hive_bins_list_get_cell_at_offset := fun c offset =>
       (cells offset, offset :: c);
     hive_bin_cell_data := fun _ cell => cell;
     libregf_hive_bins_list_get_index_at_offset := index_at_offset |}.

(** ** Data ranges, lists and tree nodes of libfdata

    Modelled from the spec: libfdata is an external library.  A list element
    and a sub node are both a data range (file index, offset, size, flags);
    appending puts the range last.  A call on a NULL list fails. *)
Record data_range : Type := {
  range_file_index : Z;
  range_offset : Z;
  range_size : Z;
  range_flags : Z
}.

Definition libfdata_list : Type := list data_range.

Definition libfdata_list_initialize (values : option libfdata_list)
    : option libfdata_list :=
  match values with
  | Some _ => None
  | None => Some []
  end.

Definition libfdata_list_append_element (values : option libfdata_list)
    (element_file_index element_offset element_size element_flags : Z)
    : option libfdata_list :=
  match values with
  | Some elements =>
      Some (elements ++ [ {| range_file_index := element_file_index;
                             range_offset := element_offset;
                             range_size := element_size;
                             range_flags := element_flags |} ])
  | None => None
  end.

(** Modelled from the spec: libfcache is an external library; a cache is
    kept by its number of entries. *)
Definition libfcache_cache_initialize (values_cache : option Z)
    (maximum_cache_entries : Z) : option Z :=
  match values_cache with
  | Some _ => None
  | None => Some maximum_cache_entries
  end.

(** ** The named key and the security key

    Modelled from the spec: [libregf_named_key.h] and
    [libregf_security_key.h] are not part of the sources at hand; the fields
    are those that the key item reads. *)
Module NamedKey.
Record t : Type := {
  name_hash : Z;
  name : list byte;
  flags : Z;
  last_written_time : Z;
  number_of_sub_keys : Z;
  sub_keys_list_offset : Z;
  number_of_values : Z;
  values_list_offset : Z;
  security_key_offset : Z;
  class_name_offset : Z;
  class_name_size : Z
}.
End NamedKey.

Module SecurityKey.
Record t : Type := {
  security_descriptor : option (list byte);
  security_descriptor_size : Z
}.
End SecurityKey.

(** ** The key item *)

(** Modelled from the spec: the constant is declared in
    [libregf_definitions.h]; the item flags hold this one bit. *)
Definition LIBREGF_KEY_ITEM_FLAG_IS_CORRUPTED : Z := 0x01.

Record libregf_key_item : Type := {
  named_key : option NamedKey.t;
  class_name : option (list byte);
  class_name_size : Z;
  security_descriptor : option (list byte);
  security_descriptor_size : Z;
  values_list : option libfdata_list;
  values_cache : option Z;
  item_flags : Z
}.

(** The key item after [memory_set( key_item, 0, sizeof( ... ) )]. *)
Definition zeroed_key_item : libregf_key_item :=
  {| named_key := None; class_name := None; class_name_size := 0;
     security_descriptor := None; security_descriptor_size := 0;
     values_list := None; values_cache := None; item_flags := 0 |}.

Definition set_named_key (k : libregf_key_item) (v : option NamedKey.t) :=
  {| named_key := v; class_name := class_name k;
     class_name_size := class_name_size k;
     security_descriptor := security_descriptor k;
     security_descriptor_size := security_descriptor_size k;
     values_list := values_list k; values_cache := values_cache k;
     item_flags := item_flags k |}.

Definition set_class_name (k : libregf_key_item) (v : option (list byte))
    (size : Z) :=
  {| named_key := named_key k; class_name := v; class_name_size := size;
     security_descriptor := security_descriptor k;
     security_descriptor_size := security_descriptor_size k;
     values_list := values_list k; values_cache := values_cache k;
     item_flags := item_flags k |}.

Definition set_security_descriptor (k : libregf_key_item)
    (v : option (list byte)) (size : Z) :=
  {| named_key := named_key k; class_name := class_name k;
     class_name_size := class_name_size k;
     security_descriptor := v; security_descriptor_size := size;
     values_list := values_list k; values_cache := values_cache k;
     item_flags := item_flags k |}.

Definition set_values_list (k : libregf_key_item) (v : option libfdata_list) :=
  {| named_key := named_key k; class_name := class_name k;
     class_name_size := class_name_size k;
     security_descriptor := security_descriptor k;
     security_descriptor_size := security_descriptor_size k;
     values_list := v; values_cache := values_cache k;
     item_flags := item_flags k |}.

Definition set_values_cache (k : libregf_key_item) (v : option Z) :=
  {| named_key := named_key k; class_name := class_name k;
     class_name_size := class_name_size k;
     security_descriptor := security_descriptor k;
     security_descriptor_size := security_descriptor_size k;
     values_list := values_list k; values_cache := v;
     item_flags := item_flags k |}.

Definition set_item_flags (k : libregf_key_item) (v : Z) :=
  {| named_key := named_key k; class_name := class_name k;
     class_name_size := class_name_size k;
     security_descriptor := security_descriptor k;
     security_descriptor_size := security_descriptor_size k;
     values_list := values_list k; values_cache := values_cache k;
     item_flags := v |}.

(** [key_item->item_flags |= LIBREGF_KEY_ITEM_FLAG_IS_CORRUPTED] *)
Definition mark_corrupted (k : libregf_key_item) : libregf_key_item :=
  set_item_flags k (Z.lor (item_flags k) LIBREGF_KEY_ITEM_FLAG_IS_CORRUPTED).

Definition is_corrupted (k : libregf_key_item) : bool :=
  Z.testbit (item_flags k) 0.

(** ** The tree node

    Modelled from the spec: the tree of libfdata is external.  A node keeps
    the data range of its sub nodes once it is set, the sub nodes appended to
    it, and the key item installed as its value. *)
Record libfdata_tree_node : Type := {
  sub_nodes_data_range : option data_range;
  sub_nodes : list data_range;
  node_value : option libregf_key_item
}.

Definition libfdata_tree_node_sub_nodes_data_range_is_set
    (node : libfdata_tree_node) : Z :=
  match sub_nodes_data_range node with
  | Some _ => 1
  | None => 0
  end.

Definition libfdata_tree_node_set_sub_nodes_data_range
    (node : libfdata_tree_node)
    (sub_nodes_file_index sub_nodes_offset sub_nodes_size sub_nodes_flags : Z)
    : libfdata_tree_node :=
  {| sub_nodes_data_range :=
       Some {| range_file_index := sub_nodes_file_index;
               range_offset := sub_nodes_offset;
               range_size := sub_nodes_size;
               range_flags := sub_nodes_flags |};
     sub_nodes := sub_nodes node;
     node_value := node_value node |}.

Definition libfdata_tree_node_append_sub_node (node : libfdata_tree_node)
    (sub_node_file_index sub_node_offset sub_node_size sub_node_flags : Z)
    : libfdata_tree_node :=
  {| sub_nodes_data_range := sub_nodes_data_range node;
     sub_nodes :=
       sub_nodes node ++ [ {| range_file_index := sub_node_file_index;
                              range_offset := sub_node_offset;
                              range_size := sub_node_size;
                              range_flags := sub_node_flags |} ];
     node_value := node_value node |}.

Definition libfdata_tree_node_set_node_value (node : libfdata_tree_node)
    (key_item : libregf_key_item) : libfdata_tree_node :=
  {| sub_nodes_data_range := sub_nodes_data_range node;
     sub_nodes := sub_nodes node;
     node_value := Some key_item |}.

(** ** The functions of [libregf_key_item.c]

    The decoders of the named key and of the security key, the free
    functions of the sub objects and the size of the values cache belong to
    other files; they are taken as they come.  Memory allocation is taken to
    succeed, and the pointers that the callers always pass (the key item, the
    hive bins list, the tree node, the data of a fetched cell) are taken to
    be non-NULL. *)
Section KeyItem.

Variable libregf_named_key_read_data :
  list byte -> Z -> Z -> option NamedKey.t.
Variable libregf_security_key_read_data : list byte -> option SecurityKey.t.
Variable libregf_named_key_free : NamedKey.t -> Z.
Variable libregf_security_key_free : SecurityKey.t -> Z.
Variable libfdata_list_free : libfdata_list -> Z.
Variable libfcache_cache_free : Z -> Z.
Variable LIBREGF_MAXIMUM_CACHE_ENTRIES_VALUES : Z.

(** [key_item] is the argument of type [libregf_key_item_t **]: [None] is
    a NULL argument, [Some None] a pointer to a pointer that is NULL.  The
    result carries what the pointer variable holds afterwards. *)
Definition libregf_key_item_initialize
    (key_item : option (option libregf_key_item))
    : Z * option (option libregf_key_item) :=
  match key_item with
  | None => (-1, None)
  | Some (Some _) => (-1, key_item)
  | Some None => (1, Some (Some zeroed_key_item))
  end.

Definition libregf_key_item_free
    (key_item : option (option libregf_key_item))
    : Z * option (option libregf_key_item) :=
  match key_item with
  | None => (-1, None)
  | Some None => (1, Some None)
  | Some (Some item) =>
      let result := 1 in
      let result :=
        match named_key item with
        | Some named_key =>
            if negb (libregf_named_key_free named_key =? 1) then -1
            else result
        | None => result
        end in
      (* class_name and security_descriptor go through memory_free *)
      let result :=
        match values_list item with
        | Some values_list =>
            if negb (libfdata_list_free values_list =? 1) then -1
            else result
        | None => result
        end in
      let result :=
        match values_cache item with
        | Some values_cache =>
            if negb (libfcache_cache_free values_cache =? 1) then -1
            else result
        | None => result
        end in
      (result, Some None)
  end.

Definition libregf_key_item_read_class_name_data
    (key_item : libregf_key_item) (data : list byte) (class_name_size : Z)
    : Z * libregf_key_item :=
  let data_size := Z.of_nat (length data) in
  match class_name key_item with
  | Some _ => (-1, key_item)
  | None =>
      if data_size >? SSIZE_MAX then (-1, key_item)
      else if (class_name_size =? 0) || (class_name_size >? data_size)
      then (* on_error *) (-1, set_class_name key_item None 0)
      else
        (1, set_class_name key_item
              (Some (firstn (Z.to_nat class_name_size) data))
              class_name_size)
  end.

Definition libregf_key_item_read_class_name
    (hive_bins_list : libregf_hive_bins_list)
    (key_item : libregf_key_item) (c : cache hive_bins_list)
    (class_name_offset class_name_size : Z)
    : Z * libregf_key_item * cache hive_bins_list :=
  match class_name key_item with
  | Some _ => (-1, key_item, c)
  | None =>
      if class_name_offset =? 0xffffffff then (1, key_item, c)
      else if (class_name_offset =? 0) && (class_name_size =? 0)
      then (1, key_item, c)
      else if class_name_offset =? 0 then (-1, key_item, c)
      else
        match libregf_hive_bins_list_get_cell_at_offset
                hive_bins_list c class_name_offset with
        | (None, c) => (-1, key_item, c)
        | (Some hive_bin_cell, c) =>
            let '(result, key_item) :=
              libregf_key_item_read_class_name_data key_item
                (hive_bin_cell_data hive_bins_list c hive_bin_cell)
                class_name_size in
            if negb (result =? 1) then (-1, key_item, c)
            else (1, key_item, c)
        end
  end.

Definition libregf_key_item_read_security_key
    (hive_bins_list : libregf_hive_bins_list)
    (key_item : libregf_key_item) (c : cache hive_bins_list)
    (security_key_offset : Z)
    : Z * libregf_key_item * cache hive_bins_list :=
  match security_descriptor key_item with
  | Some _ => (-1, key_item, c)
  | None =>
      if (security_key_offset =? 0) || (security_key_offset =? 0xffffffff)
      then (-1, key_item, c)
      else
        match libregf_hive_bins_list_get_cell_at_offset
                hive_bins_list c security_key_offset with
        | (None, c) => (-1, key_item, c)
        | (Some hive_bin_cell, c) =>
            match libregf_security_key_read_data
                    (hive_bin_cell_data hive_bins_list c hive_bin_cell) with
            | None => (-1, key_item, c)
            | Some security_key =>
                let key_item :=
                  set_security_descriptor key_item
                    (SecurityKey.security_descriptor security_key)
                    (SecurityKey.security_descriptor_size security_key) in
                let security_key :=
                  {| SecurityKey.security_descriptor := None;
                     SecurityKey.security_descriptor_size := 0 |} in
                if negb (libregf_security_key_free security_key =? 1)
                then (-1, key_item, c)
                else (1, key_item, c)
            end
        end
  end.

(** The loop of [libregf_key_item_read_values_list].  Every turn reads the
    four bytes at [hive_bin_cell_data] and moves the pointer on; the loop
    itself never looks at the size of the cell.  The cell is not fetched
    again and a probe leaves the cache alone, so the bytes behind the
    pointer stay what they were when the cell was fetched. *)
Fixpoint read_values_list_elements
    (hive_bins_list : libregf_hive_bins_list)
    (hive_bin_cell_data : list byte)
    (number_of_values_list_elements values_list_element_iterator : Z)
    (key_item : libregf_key_item) {struct hive_bin_cell_data}
    : outcome * libregf_key_item :=
  if values_list_element_iterator <? number_of_values_list_elements then
    match hive_bin_cell_data with
    | b0 :: b1 :: b2 :: b3 :: hive_bin_cell_data =>
        let values_list_element_offset :=
          byte_stream_copy_to_uint32_little_endian b0 b1 b2 b3 in
        let result :=
          libregf_hive_bins_list_get_index_at_offset
            hive_bins_list values_list_element_offset in
        if result =? -1 then (Return (-1), key_item)
        else if result =? 0 then
          read_values_list_elements hive_bins_list hive_bin_cell_data
            number_of_values_list_elements
            (values_list_element_iterator + 1)
            (mark_corrupted key_item)
        else
          match libfdata_list_append_element (values_list key_item)
                  0 values_list_element_offset 0 0 with
          | None => (Return (-1), key_item)
          | Some values =>
              read_values_list_elements hive_bins_list hive_bin_cell_data
                number_of_values_list_elements
                (values_list_element_iterator + 1)
                (set_values_list key_item (Some values))
          end
    | _ => (BufferOverread, key_item)
    end
  else (Return 1, key_item).

Definition libregf_key_item_read_values_list
    (hive_bins_list : libregf_hive_bins_list)
    (key_item : libregf_key_item) (c : cache hive_bins_list)
    (values_list_offset number_of_values_list_elements : Z)
    : outcome * libregf_key_item * cache hive_bins_list :=
  if number_of_values_list_elements =? 0 then (Return 1, key_item, c)
  else if (values_list_offset =? 0) || (values_list_offset =? 0xffffffff)
  then (Return (-1), key_item, c)
  else
    match libregf_hive_bins_list_get_cell_at_offset
            hive_bins_list c values_list_offset with
    | (None, c) => (Return (-1), key_item, c)
    | (Some hive_bin_cell, c) =>
        let hive_bin_cell_data :=
          hive_bin_cell_data hive_bins_list c hive_bin_cell in
        let hive_bin_cell_size := Z.of_nat (length hive_bin_cell_data) in
        (* the product is computed in uint32_t *)
        if hive_bin_cell_size <? uint32 (number_of_values_list_elements * 4)
        then (Return (-1), key_item, c)
        else
          let '(result, key_item) :=
            read_values_list_elements hive_bins_list hive_bin_cell_data
              number_of_values_list_elements 0 key_item in
          (result, key_item, c)
    end.

(** [sizeof( regf_sub_key_list_t )].  Modelled from the spec: the
    structure is declared in [regf_cell_values.h]; it holds the signature
    of two bytes and the number of elements of two bytes. *)
Definition sizeof_regf_sub_key_list_t : Z := 4.

(** Four bytes at the pointer, and the pointer moved past them. *)
Definition read_uint32_little_endian (data : list byte)
    : option (Z * list byte) :=
  match data with
  | b0 :: b1 :: b2 :: b3 :: data =>
      Some (byte_stream_copy_to_uint32_little_endian b0 b1 b2 b3, data)
  | _ => None
  end.

(** The loop of [libregf_key_item_read_sub_keys_list] over the elements of
    one cell, reading from the local copy [sub_keys_list_data].
    [remaining] is [number_of_sub_keys_list_elements] less
    [sub_keys_list_element_iterator], both [uint16_t].  [read_sub_keys_list]
    stands for the recursive call. *)
Fixpoint read_sub_keys_list_elements
    (hive_bins_list : libregf_hive_bins_list)
    (read_sub_keys_list :
       libfdata_tree_node -> cache hive_bins_list -> Z ->
       outcome * libfdata_tree_node * cache hive_bins_list)
    (sub_keys_list_element_size at_leaf_level : Z)
    (remaining : nat) (sub_keys_list_data : list byte)
    (corruption_detected : Z)
    (key_tree_node : libfdata_tree_node) (c : cache hive_bins_list)
    {struct remaining}
    : outcome * libfdata_tree_node * cache hive_bins_list :=
  match remaining with
  | O =>
      if negb (corruption_detected =? 0) then (Return 0, key_tree_node, c)
      else (Return 1, key_tree_node, c)
  | S remaining =>
      match read_uint32_little_endian sub_keys_list_data with
      | None => (BufferOverread, key_tree_node, c)
      | Some (sub_keys_list_element_offset, sub_keys_list_data) =>
          match (if sub_keys_list_element_size =? 8
                 then read_uint32_little_endian sub_keys_list_data
                 else Some (0, sub_keys_list_data)) with
          | None => (BufferOverread, key_tree_node, c)
          | Some (element_hash, sub_keys_list_data) =>
              let result :=
                libregf_hive_bins_list_get_index_at_offset
                  hive_bins_list sub_keys_list_element_offset in
              if result =? -1 then (Return (-1), key_tree_node, c)
              else
                let next result key_tree_node c :=
                  read_sub_keys_list_elements hive_bins_list
                    read_sub_keys_list
                    sub_keys_list_element_size at_leaf_level
                    remaining sub_keys_list_data
                    (if result =? 0 then 1 else corruption_detected)
                    key_tree_node c in
                if negb (result =? 0) then
                  if negb (at_leaf_level =? 0) then
                    next result
                      (libfdata_tree_node_append_sub_node key_tree_node
                         0 sub_keys_list_element_offset element_hash 0)
                      c
                  else
                    match read_sub_keys_list key_tree_node c
                            sub_keys_list_element_offset with
                    | (Return result, key_tree_node, c) =>
                        if result =? -1
                        then (Return (-1), key_tree_node, c)
                        else next result key_tree_node c
                    | stopped => stopped
                    end
                else next result key_tree_node c
          end
      end
  end.

(** [depth] bounds the nesting of the recursive calls; the C code has no
    such bound. *)
Fixpoint libregf_key_item_read_sub_keys_list (depth : nat)
    (hive_bins_list : libregf_hive_bins_list)
    (key_tree_node : libfdata_tree_node) (c : cache hive_bins_list)
    (sub_keys_list_offset : Z) {struct depth}
    : outcome * libfdata_tree_node * cache hive_bins_list :=
  match depth with
  | O => (DepthExhausted, key_tree_node, c)
  | S depth =>
      if (sub_keys_list_offset =? 0) || (sub_keys_list_offset =? 0xffffffff)
      then (Return (-1), key_tree_node, c)
      else
        match libregf_hive_bins_list_get_cell_at_offset hive_bins_list c
                (uint32 sub_keys_list_offset) with
        | (None, c) => (Return (-1), key_tree_node, c)
        | (Some hive_bin_cell, c) =>
            (* the local copy of the data of the cell *)
            let hive_bin_cell_data :=
              hive_bin_cell_data hive_bins_list c hive_bin_cell in
            let hive_bin_cell_size :=
              Z.of_nat (length hive_bin_cell_data) in
            if hive_bin_cell_size <? sizeof_regf_sub_key_list_t
            then (Return (-1), key_tree_node, c)
            else
              let signature0 := nth 0 hive_bin_cell_data "000"%byte in
              let signature1 := nth 1 hive_bin_cell_data "000"%byte in
              let elements sub_keys_list_element_size at_leaf_level :=
                let number_of_sub_keys_list_elements :=
                  byte_stream_copy_to_uint16_little_endian
                    (nth 2 hive_bin_cell_data "000"%byte)
                    (nth 3 hive_bin_cell_data "000"%byte) in
                let sub_keys_list_data :=
                  skipn (Z.to_nat sizeof_regf_sub_key_list_t)
                    hive_bin_cell_data in
                let hive_bin_cell_size :=
                  hive_bin_cell_size - sizeof_regf_sub_key_list_t in
                if hive_bin_cell_size <?
                   number_of_sub_keys_list_elements
                   * sub_keys_list_element_size
                then (Return (-1), key_tree_node, c)
                else
                  read_sub_keys_list_elements hive_bins_list
                    (libregf_key_item_read_sub_keys_list depth
                       hive_bins_list)
                    sub_keys_list_element_size at_leaf_level
                    (Z.to_nat number_of_sub_keys_list_elements)
                    sub_keys_list_data 0 key_tree_node c in
              if Byte.eqb signature0 "r" && Byte.eqb signature1 "i"
              then elements 4 0
              else if Byte.eqb signature0 "l" && Byte.eqb signature1 "i"
              then elements 4 1
              else if Byte.eqb signature0 "l"
                      && (Byte.eqb signature1 "f"
                          || Byte.eqb signature1 "h")
              then elements 8 1
              else (Return (-1), key_tree_node, c)
        end
  end.

Definition libregf_key_item_read_sub_nodes (depth : nat)
    (hive_bins_list : libregf_hive_bins_list)
    (node : libfdata_tree_node) (c : cache hive_bins_list)
    (sub_nodes_data_offset : Z)
    : outcome * libfdata_tree_node * cache hive_bins_list :=
  match libregf_key_item_read_sub_keys_list depth hive_bins_list node c
          sub_nodes_data_offset with
  | (Return result, node, c) =>
      if result =? -1 then (Return (-1), node, c)
      else (* result == 0: TODO signal corruption *) (Return 1, node, c)
  | stopped => stopped
  end.

(** The [on_error] exit of [libregf_key_item_read_named_key]: the values
    cache, the values list and the named key are freed and their pointers
    set to NULL. *)
Definition read_named_key_on_error (key_item : libregf_key_item)
    : libregf_key_item :=
  set_named_key (set_values_list (set_values_cache key_item None) None) None.

Definition libregf_key_item_read_named_key
    (hive_bins_list : libregf_hive_bins_list)
    (key_item : libregf_key_item) (key_tree_node : libfdata_tree_node)
    (c : cache hive_bins_list) (named_key_offset named_key_hash : Z)
    : outcome * libregf_key_item * libfdata_tree_node
      * cache hive_bins_list :=
  let on_error key_item key_tree_node c :=
    (Return (-1), read_named_key_on_error key_item, key_tree_node, c) in
  match named_key key_item, io_handle hive_bins_list with
  | Some _, _ => (Return (-1), key_item, key_tree_node, c)
  | None, None => (Return (-1), key_item, key_tree_node, c)
  | None, Some ascii_codepage =>
  if (named_key_offset =? 0) || (named_key_offset >=? 0xffffffff)
  then (Return (-1), key_item, key_tree_node, c)
  else
  match libregf_hive_bins_list_get_cell_at_offset hive_bins_list c
          (uint32 named_key_offset) with
  | (None, c) => on_error key_item key_tree_node c
  | (Some hive_bin_cell, c) =>
  match libregf_named_key_read_data
          (hive_bin_cell_data hive_bins_list c hive_bin_cell)
          named_key_hash ascii_codepage with
  | None => on_error key_item key_tree_node c
  | Some named_key =>
  let key_item := set_named_key key_item (Some named_key) in
  let '(result, key_item, c) :=
    libregf_key_item_read_class_name hive_bins_list key_item c
      (NamedKey.class_name_offset named_key)
      (NamedKey.class_name_size named_key) in
  if negb (result =? 1) then on_error key_item key_tree_node c
  else
  let '(result, key_item, c) :=
    if negb (NamedKey.security_key_offset named_key =? 0xffffffff)
    then
      libregf_key_item_read_security_key hive_bins_list key_item c
        (NamedKey.security_key_offset named_key)
    else (1, key_item, c) in
  if negb (result =? 1) then on_error key_item key_tree_node c
  else
  (* the sub keys: the range of the sub nodes is set, the walk is left
     to libregf_key_item_read_sub_nodes *)
  let sub_keys :=
    if NamedKey.number_of_sub_keys named_key >? 0 then
      let result :=
        libfdata_tree_node_sub_nodes_data_range_is_set key_tree_node in
      if result =? -1 then None
      else if result =? 0 then
        let result :=
          libregf_hive_bins_list_get_index_at_offset hive_bins_list
            (NamedKey.sub_keys_list_offset named_key) in
        if result =? -1 then None
        else if result =? 0 then Some (mark_corrupted key_item, key_tree_node)
        else
          Some (key_item,
                libfdata_tree_node_set_sub_nodes_data_range key_tree_node
                  0 (NamedKey.sub_keys_list_offset named_key) 0 0)
      else Some (key_item, key_tree_node)
    else Some (key_item, key_tree_node) in
  match sub_keys with
  | None => on_error key_item key_tree_node c
  | Some (key_item, key_tree_node) =>
  match libfdata_list_initialize (values_list key_item) with
  | None => on_error key_item key_tree_node c
  | Some values =>
  let key_item := set_values_list key_item (Some values) in
  match libfcache_cache_initialize (values_cache key_item)
          LIBREGF_MAXIMUM_CACHE_ENTRIES_VALUES with
  | None => on_error key_item key_tree_node c
  | Some values_cache =>
  let key_item := set_values_cache key_item (Some values_cache) in
  let result :=
    libregf_hive_bins_list_get_index_at_offset hive_bins_list
      (NamedKey.values_list_offset named_key) in
  if result =? -1 then on_error key_item key_tree_node c
  else if result =? 0
  then (Return 1, mark_corrupted key_item, key_tree_node, c)
  else
    match libregf_key_item_read_values_list hive_bins_list key_item c
            (NamedKey.values_list_offset named_key)
            (NamedKey.number_of_values named_key) with
    | (Return result, key_item, c) =>
        if negb (result =? 1) then on_error key_item key_tree_node c
        else (Return 1, key_item, key_tree_node, c)
    | (stopped, key_item, c) => (stopped, key_item, key_tree_node, c)
    end
  end end end end end
  end.

(** The loader of the value of a tree node.  [key_item] is a local
    variable of the C function: on success the item becomes the value of
    the node, on error it is freed. *)
Definition libregf_key_item_read_node_data
    (hive_bins_list : libregf_hive_bins_list)
    (node : libfdata_tree_node) (c : cache hive_bins_list)
    (node_data_offset node_data_size : Z)
    : outcome * libfdata_tree_node * cache hive_bins_list :=
  match libregf_key_item_initialize (Some None) with
  | (1, Some (Some key_item)) =>
      (* the size contains the hash of the name *)
      if node_data_size >? UINT32_MAX then (Return (-1), node, c)
      else
        match libregf_key_item_read_named_key hive_bins_list key_item node c
                node_data_offset (uint32 node_data_size) with
        | (Return result, key_item, node, c) =>
            if negb (result =? 1) then (Return (-1), node, c)
            else
              (Return 1, libfdata_tree_node_set_node_value node key_item, c)
        | (stopped, _, node, c) => (stopped, node, c)
        end
  | _ => (Return (-1), node, c)
  end.

End KeyItem.

(** ** The on-disk formats, read as plain lists

    The offsets of a values list cell and the elements of a sub keys list
    cell as the format lays them out; the theorems compare what the code
    appends with these lists. *)

(** The first [n] little-endian 32-bit values of [data]. *)
Fixpoint uint32_elements (n : nat) (data : list byte) : list Z :=
  match n, data with
  | S n, b0 :: b1 :: b2 :: b3 :: data =>
      byte_stream_copy_to_uint32_little_endian b0 b1 b2 b3
      :: uint32_elements n data
  | _, _ => []
  end.

(** The first [n] elements (offset, hash) of the data that follows the
    header of a sub keys list; an element of four bytes has hash 0. *)
Fixpoint sub_keys_list_elements (element_size : Z) (n : nat)
    (data : list byte) : list (Z * Z) :=
  match n with
  | O => []
  | S n =>
      match read_uint32_little_endian data with
      | None => []
      | Some (offset, data) =>
          match (if element_size =? 8 then read_uint32_little_endian data
                 else Some (0, data)) with
          | None => []
          | Some (hash, data) =>
              (offset, hash) :: sub_keys_list_elements element_size n data
          end
      end
  end.

(** The size of an element by the signature of the cell: 4 for "ri" and
    "li", 8 for "lf" and "lh"; 0 stands for any other signature. *)
Definition element_size_of_signature (s0 s1 : byte) : Z :=
  if Byte.eqb s0 "r" && Byte.eqb s1 "i" then 4
  else if Byte.eqb s0 "l" && Byte.eqb s1 "i" then 4
  else if Byte.eqb s0 "l" && (Byte.eqb s1 "f" || Byte.eqb s1 "h") then 8
  else 0.

(** Whether the elements of a cell with this signature denote named keys
    ("li", "lf", "lh") rather than further sub keys lists ("ri"). *)
Definition signature_at_leaf_level (s0 s1 : byte) : bool :=
  Byte.eqb s0 "l"
  && (Byte.eqb s1 "i" || Byte.eqb s1 "f" || Byte.eqb s1 "h").

Definition signature_is_known (s0 s1 : byte) : bool :=
  (Byte.eqb s0 "r" && Byte.eqb s1 "i") || signature_at_leaf_level s0 s1.

(** The three defects of the header of a sub keys list cell: too small for
    the header, an unknown signature, too small for its elements. *)
Definition sub_keys_list_header_invalid (data : list byte) : Prop :=
  let s0 := nth 0 data "000"%byte in
  let s1 := nth 1 data "000"%byte in
  let number_of_elements :=
    byte_stream_copy_to_uint16_little_endian
      (nth 2 data "000"%byte) (nth 3 data "000"%byte) in
  Z.of_nat (length data) < 4
  \/ signature_is_known s0 s1 = false
  \/ Z.of_nat (length data)
     < 4 + number_of_elements * element_size_of_signature s0 s1.

(** The sub node that the walk appends for an element. *)
Definition sub_node_of_element (element : Z * Z) : data_range :=
  {| range_file_index := 0; range_offset := fst element;
     range_size := snd element; range_flags := 0 |}.

(** The list element that the values list gets for an offset. *)
Definition list_element_of_offset (offset : Z) : data_range :=
  {| range_file_index := 0; range_offset := offset;
     range_size := 0; range_flags := 0 |}.

(** What a probe says about an offset. *)
Definition offset_is_known (hive_bins_list : libregf_hive_bins_list)
    (offset : Z) : bool :=
  negb (libregf_hive_bins_list_get_index_at_offset hive_bins_list offset =? 0).

(** What a caller sees of a call: the outcome and the tree node, not the
    cache of the store. *)
Definition observable {C : Type} (r : outcome * libfdata_tree_node * C)
    : outcome * libfdata_tree_node :=
  (fst (fst r), snd (fst r)).

(** A tree node with further sub nodes appended, in order. *)
Definition append_sub_nodes (node : libfdata_tree_node)
    (nodes : list data_range) : libfdata_tree_node :=
  {| sub_nodes_data_range := sub_nodes_data_range node;
     sub_nodes := sub_nodes node ++ nodes;
     node_value := node_value node |}.

(** The walk over the elements of a cell at the interior level, after the
    words of the specification: an element whose offset lies in no bin
    marks the walk as partial and is skipped; for an element whose offset
    lies in a bin the walk recurses on that offset with the same tree node,
    a fatal error of the nested walk is passed on and a partial nested walk
    marks this walk as partial; no element is appended itself.  The result
    is 1, or 0 for a partial walk. *)
Fixpoint walk_interior_elements {C : Type}
    (walk : libfdata_tree_node -> C -> Z -> outcome * libfdata_tree_node * C)
    (known : Z * Z -> bool) (elements : list (Z * Z)) (partial : bool)
    (tree_node : libfdata_tree_node) (c : C)
    : outcome * libfdata_tree_node * C :=
  match elements with
  | [] => (Return (if partial then 0 else 1), tree_node, c)
  | element :: elements =>
      if known element then
        match walk tree_node c (fst element) with
        | (Return result, tree_node, c) =>
            if result =? -1 then (Return (-1), tree_node, c)
            else
              walk_interior_elements walk known elements
                (partial || (result =? 0)) tree_node c
        | stopped => stopped
        end
      else walk_interior_elements walk known elements true tree_node c
  end.

(** What a step that only touches the values list and the flags leaves
    alone. *)
Definition same_key_data (k k' : libregf_key_item) : Prop :=
  named_key k' = named_key k
  /\ class_name k' = class_name k
  /\ class_name_size k' = class_name_size k
  /\ security_descriptor k' = security_descriptor k
  /\ security_descriptor_size k' = security_descriptor_size k
  /\ values_cache k' = values_cache k.

(** A call that does nothing to the tree node but append sub nodes. *)
Definition only_appends {C : Type} (node : libfdata_tree_node)
    (r : outcome * libfdata_tree_node * C) : Prop :=
  exists nodes, snd (fst r) = append_sub_nodes node nodes.

(** ** The steps of a load, read off the hive

    The named key that a load of the key at [node_data_offset] decodes, and
    the conditions under which the steps other than the security key go
    through; the theorems on the load are stated with them. *)
Definition decoded_named_key
    (libregf_named_key_read_data : list byte -> Z -> Z -> option NamedKey.t)
    (hive_bins_list : libregf_hive_bins_list) (cells : hive_cells)
    (node_data_offset node_data_size : Z) : option NamedKey.t :=
  match io_handle hive_bins_list, cells (uint32 node_data_offset) with
  | Some ascii_codepage, Some data =>
      libregf_named_key_read_data data (uint32 node_data_size) ascii_codepage
  | _, _ => None
  end.

(** The offset and the size of the key are accepted by the loader. *)
Definition node_data_accepted (node_data_offset node_data_size : Z) : Prop :=
  node_data_offset <> 0 /\ node_data_offset < 0xffffffff
  /\ node_data_size <= UINT32_MAX.

(** The class name step returns 1. *)
Definition class_name_loads (cells : hive_cells) (named_key : NamedKey.t)
    : Prop :=
  let offset := NamedKey.class_name_offset named_key in
  let size := NamedKey.class_name_size named_key in
  offset = 0xffffffff
  \/ (offset = 0 /\ size = 0)
  \/ (offset <> 0 /\ offset <> 0xffffffff
      /\ exists data,
           cells offset = Some data
           /\ 0 < size <= Z.of_nat (length data)
           /\ Z.of_nat (length data) <= SSIZE_MAX).

(** The sub keys step does not fail. *)
Definition sub_keys_step_passes (hive_bins_list : libregf_hive_bins_list)
    (node : libfdata_tree_node) (named_key : NamedKey.t) : Prop :=
  NamedKey.number_of_sub_keys named_key <= 0
  \/ sub_nodes_data_range node <> None
  \/ libregf_hive_bins_list_get_index_at_offset hive_bins_list
       (NamedKey.sub_keys_list_offset named_key) <> -1.

(** The security key step returns 1: there is no security key, or its
    cell is there, is decoded, and the security key is freed again. *)
Definition security_key_loads
    (libregf_security_key_read_data : list byte -> option SecurityKey.t)
    (libregf_security_key_free : SecurityKey.t -> Z)
    (cells : hive_cells) (named_key : NamedKey.t) : Prop :=
  let offset := NamedKey.security_key_offset named_key in
  offset = 0xffffffff
  \/ (offset <> 0
      /\ exists data security_key,
           cells offset = Some data
           /\ libregf_security_key_read_data data = Some security_key
           /\ libregf_security_key_free
                {| SecurityKey.security_descriptor := None;
                   SecurityKey.security_descriptor_size := 0 |} = 1).

(** The values step returns 1. *)
Definition values_list_loads (hive_bins_list : libregf_hive_bins_list)
    (cells : hive_cells) (named_key : NamedKey.t) : Prop :=
  let offset := NamedKey.values_list_offset named_key in
  let n := NamedKey.number_of_values named_key in
  let index :=
    libregf_hive_bins_list_get_index_at_offset hive_bins_list offset in
  index = 0
  \/ (index <> -1
      /\ (n = 0
          \/ (0 < n /\ offset <> 0 /\ offset <> 0xffffffff
              /\ exists data,
                   cells offset = Some data
                   /\ n * 4 <= Z.of_nat (length data)
                   /\ forall e,
                        In e (uint32_elements (Z.to_nat n) data) ->
                        libregf_hive_bins_list_get_index_at_offset
                          hive_bins_list e <> -1))).

(** ** Small hives used in the examples *)
Module Fixture.

Definition cells_of (cells : list (Z * list byte)) : hive_cells :=
  fun offset =>
    match find (fun cell => fst cell =? offset) cells with
    | Some cell => Some (snd cell)
    | None => None
    end.

(** The index of bins: the offsets listed lie in a bin. *)
Definition index_of (known : list Z) : Z -> Z :=
  fun offset => if existsb (Z.eqb offset) known then 1 else 0.

Definition u16 (x : Z) : list byte := le_split 2 x.
Definition u32 (x : Z) : list byte := le_split 4 x.

Definition known_offsets : list Z := [32; 200; 300; 400; 500; 600; 700; 800].

Definition empty_node : libfdata_tree_node :=
  {| sub_nodes_data_range := None; sub_nodes := []; node_value := None |}.

(** An "lf" list at 400 with the elements (500, 0x11) and
    (0xdeadbeef, 0x22); the second offset lies in no bin. *)
Definition lf_with_unknown_offset : hive_cells :=
  cells_of
    [ (400, ["l"; "f"]%byte ++ u16 2
              ++ u32 500 ++ u32 0x11 ++ u32 0xdeadbeef ++ u32 0x22) ].

(** An "ri" list at 400 over the "lh" lists at 700 and 800. *)
Definition ri_over_two_lh : hive_cells :=
  cells_of
    [ (400, ["r"; "i"]%byte ++ u16 2 ++ u32 700 ++ u32 800);
      (700, ["l"; "h"]%byte ++ u16 1 ++ u32 500 ++ u32 0x11);
      (800, ["l"; "h"]%byte ++ u16 1 ++ u32 600 ++ u32 0x22) ].

(** An "ri" list at 400 whose only element is the cell at 700, which
    starts with "xx". *)
Definition ri_over_bad_signature : hive_cells :=
  cells_of
    [ (400, ["r"; "i"]%byte ++ u16 1 ++ u32 700);
      (700, ["x"; "x"]%byte ++ u16 0) ].

(** An "ri" list at 400 whose only element is the offset 0, which lies in
    the first bin. *)
Definition ri_over_offset_zero : hive_cells :=
  cells_of [ (400, ["r"; "i"]%byte ++ u16 1 ++ u32 0) ].

(** A values list at 200 of one offset, 300. *)
Definition values_list_of_one : hive_cells :=
  cells_of [ (200, u32 300) ].

(** A values list at 200 with the offsets 300 and 0xdeadbeef. *)
Definition values_list_with_unknown_offset : hive_cells :=
  cells_of [ (200, u32 300 ++ u32 0xdeadbeef) ].

Definition key_item_with_empty_values_list : libregf_key_item :=
  set_values_list zeroed_key_item (Some []).

(** A key at 32 with two sub keys listed at 400 and no values, no class
    name and no security key; its cell is opaque to the key item. *)
Definition parent_named_key : NamedKey.t :=
  {| NamedKey.name_hash := 0;
     NamedKey.name := ["R"; "O"; "O"; "T"]%byte;
     NamedKey.flags := 0;
     NamedKey.last_written_time := 0;
     NamedKey.number_of_sub_keys := 2;
     NamedKey.sub_keys_list_offset := 400;
     NamedKey.number_of_values := 0;
     NamedKey.values_list_offset := 200;
     NamedKey.security_key_offset := 0xffffffff;
     NamedKey.class_name_offset := 0xffffffff;
     NamedKey.class_name_size := 0 |}.

Definition parent_cells : hive_cells :=
  cells_of
    [ (32, ["n"; "k"]%byte);
      (400, ["l"; "f"]%byte ++ u16 2
              ++ u32 500 ++ u32 0x11 ++ u32 0xdeadbeef ++ u32 0x22) ].

Definition read_parent_named_key (data : list byte)
    (named_key_hash ascii_codepage : Z) : option NamedKey.t :=
  Some parent_named_key.

Definition no_security_key (data : list byte) : option SecurityKey.t := None.

Definition free_succeeds {A : Type} (freed : A) : Z := 1.

(** A key at 32 with a class name of 4 bytes at 500, a security key at 600,
    two values listed at 200 (the second offset lies in no bin) and two sub
    keys listed at 400. *)
Definition full_named_key : NamedKey.t :=
  {| NamedKey.name_hash := 0;
     NamedKey.name := ["K"; "E"; "Y"]%byte;
     NamedKey.flags := 0;
     NamedKey.last_written_time := 0;
     NamedKey.number_of_sub_keys := 2;
     NamedKey.sub_keys_list_offset := 400;
     NamedKey.number_of_values := 2;
     NamedKey.values_list_offset := 200;
     NamedKey.security_key_offset := 600;
     NamedKey.class_name_offset := 500;
     NamedKey.class_name_size := 4 |}.

Definition full_cells : hive_cells :=
  cells_of
    [ (32, ["n"; "k"]%byte);
      (200, u32 300 ++ u32 0xdeadbeef);
      (400, ["l"; "f"]%byte ++ u16 2
              ++ u32 500 ++ u32 0x11 ++ u32 0xdeadbeef ++ u32 0x22);
      (500, ["C"; "0"; "l"; "0"; "s"; "0"]%byte);
      (600, ["s"; "k"; "1"; "2"]%byte) ].

Definition read_full_named_key (data : list byte)
    (named_key_hash ascii_codepage : Z) : option NamedKey.t :=
  Some full_named_key.

(** A security key decoder that takes the whole cell as the descriptor. *)
Definition whole_cell_security_key (data : list byte)
    : option SecurityKey.t :=
  Some {| SecurityKey.security_descriptor := Some data;
          SecurityKey.security_descriptor_size := Z.of_nat (length data) |}.

End Fixture.

(** ** The number of values of a key item *)

(** Modelled from the spec: the count of a list of libfdata; a call on a
    NULL list fails. *)
Definition libfdata_list_get_number_of_elements
    (values : option libfdata_list) : option Z :=
  match values with
  | Some elements => Some (Z.of_nat (length elements))
  | None => None
  end.

(** The result of the call, and the number written through
    [number_of_values] when the call returns 1. *)
Definition libregf_key_item_get_number_of_values
    (key_item : libregf_key_item) : Z * option Z :=
  match libfdata_list_get_number_of_elements (values_list key_item) with
  | Some number_of_values => (1, Some number_of_values)
  | None => (-1, None)
  end.

(** ** What the walk and the values list append *)

(** A sub node as the walk appends them: file index and flags 0, an offset
    of 32 bits that lies in a bin, and a hash of 32 bits in the size. *)
Definition sub_node_well_formed (hive_bins_list : libregf_hive_bins_list)
    (sub_node : data_range) : Prop :=
  range_file_index sub_node = 0
  /\ range_flags sub_node = 0
  /\ 0 <= range_offset sub_node <= UINT32_MAX
  /\ 0 <= range_size sub_node <= UINT32_MAX
  /\ libregf_hive_bins_list_get_index_at_offset hive_bins_list
       (range_offset sub_node) <> 0
  /\ libregf_hive_bins_list_get_index_at_offset hive_bins_list
       (range_offset sub_node) <> -1.

(** An element as the values list gets them: file index, size and flags
    0, and an offset of 32 bits that lies in a bin. *)
Definition list_element_well_formed (hive_bins_list : libregf_hive_bins_list)
    (element : data_range) : Prop :=
  range_file_index element = 0
  /\ range_size element = 0
  /\ range_flags element = 0
  /\ 0 <= range_offset element <= UINT32_MAX
  /\ libregf_hive_bins_list_get_index_at_offset hive_bins_list
       (range_offset element) <> 0
  /\ libregf_hive_bins_list_get_index_at_offset hive_bins_list
       (range_offset element) <> -1.

(** The outcomes of a walk: an [int] among 1, 0 and -1, or the depth bound
    of the model; never a read past the copy of the cell. *)
Definition walk_outcome (o : outcome) : Prop :=
  o = Return 1 \/ o = Return 0 \/ o = Return (-1) \/ o = DepthExhausted.

(** A call that appends well formed sub nodes and nothing else. *)
Definition appends_well_formed (hive_bins_list : libregf_hive_bins_list)
    {C : Type} (node : libfdata_tree_node)
    (r : outcome * libfdata_tree_node * C) : Prop :=
  exists nodes,
    snd (fst r) = append_sub_nodes node nodes
    /\ Forall (sub_node_well_formed hive_bins_list) nodes.

(** An offset that a probe of the index of bins has accepted: 32 bits, and
    neither "in no bin" nor an error. *)
Definition probed_offset (index_at_offset : Z -> Z) (offset : Z) : Prop :=
  0 <= offset <= UINT32_MAX
  /\ index_at_offset offset <> 0 /\ index_at_offset offset <> -1.

(** ** The value types of the Python module ([pyregf_value_types.c])

    The dictionaries of Python and the value types of
    [libregf/definitions.h] belong to other files; they are taken as they
    come.  [PyDict_New] gives [None] for NULL, [PyDict_SetItemString] gives
    [None] for a result other than 0 and the dictionary with the item set
    otherwise; the reference counts are left out. *)
Module Pyregf.
Section ValueTypes.

Variable PyDict : Type.
Variable PyDict_New : option PyDict.
Variable PyDict_SetItemString :
  PyDict -> String.string -> Z -> option PyDict.

Variable LIBREGF_VALUE_TYPE_UNDEFINED : Z.
Variable LIBREGF_VALUE_TYPE_STRING : Z.
Variable LIBREGF_VALUE_TYPE_EXPANDABLE_STRING : Z.
Variable LIBREGF_VALUE_TYPE_BINARY_DATA : Z.
Variable LIBREGF_VALUE_TYPE_INTEGER_32BIT_LITTLE_ENDIAN : Z.
Variable LIBREGF_VALUE_TYPE_INTEGER_32BIT_BIG_ENDIAN : Z.
Variable LIBREGF_VALUE_TYPE_SYMBOLIC_LINK : Z.
Variable LIBREGF_VALUE_TYPE_MULTI_VALUE_STRING : Z.
Variable LIBREGF_VALUE_TYPE_RESOURCE_LIST : Z.
Variable LIBREGF_VALUE_TYPE_FULL_RESOURCE_DESCRIPTOR : Z.
Variable LIBREGF_VALUE_TYPE_RESOURCE_REQUIREMENTS_LIST : Z.

(** The type object, by the one field that the code writes. *)
Record PyTypeObject : Type := { tp_dict : option PyDict }.

(** [type_object] is [None] for a NULL argument; the result carries the
    type object as the call leaves it. *)
Definition pyregf_value_types_init_type (type_object : option PyTypeObject)
    : Z * option PyTypeObject :=
  match type_object with
  | None => (-1, None)
  | Some _ =>
  match PyDict_New with
  | None => (-1, Some {| tp_dict := None |})
  | Some dict =>
  let on_error := (-1, Some {| tp_dict := None |}) in
  match PyDict_SetItemString dict "UNDEFINED"%string
          LIBREGF_VALUE_TYPE_UNDEFINED with
  | None => on_error
  | Some dict =>
  match PyDict_SetItemString dict "STRING"%string
          LIBREGF_VALUE_TYPE_STRING with
  | None => on_error
  | Some dict =>
  match PyDict_SetItemString dict "EXPANDABLE_STRING"%string
          LIBREGF_VALUE_TYPE_EXPANDABLE_STRING with
  | None => on_error
  | Some dict =>
  match PyDict_SetItemString dict "BINARY_DATA"%string
          LIBREGF_VALUE_TYPE_BINARY_DATA with
  | None => on_error
  | Some dict =>
  match PyDict_SetItemString dict "INTEGER_32BIT_LITTLE_ENDIAN"%string
          LIBREGF_VALUE_TYPE_INTEGER_32BIT_LITTLE_ENDIAN with
  | None => on_error
  | Some dict =>
  match PyDict_SetItemString dict "INTEGER_32BIT_BIG_ENDIAN"%string
          LIBREGF_VALUE_TYPE_INTEGER_32BIT_BIG_ENDIAN with
  | None => on_error
  | Some dict =>
  match PyDict_SetItemString dict "SYMBOLIC_LINK"%string
          LIBREGF_VALUE_TYPE_SYMBOLIC_LINK with
  | None => on_error
  | Some dict =>
  match PyDict_SetItemString dict "MULTI_VALUE_STRING"%string
          LIBREGF_VALUE_TYPE_MULTI_VALUE_STRING with
  | None => on_error
  | Some dict =>
  match PyDict_SetItemString dict "RESOURCE_LIST"%string
          LIBREGF_VALUE_TYPE_RESOURCE_LIST with
  | None => on_error
  | Some dict =>
  match PyDict_SetItemString dict "FULL_RESOURCE_DESCRIPTOR"%string
          LIBREGF_VALUE_TYPE_FULL_RESOURCE_DESCRIPTOR with
  | None => on_error
  | Some dict =>
  match PyDict_SetItemString dict "RESOURCE_REQUIREMENTS_LIST"%string
          LIBREGF_VALUE_TYPE_RESOURCE_REQUIREMENTS_LIST with
  | None => on_error
  | Some dict =>
  (* the source sets this name to the 32-bit value type *)
  match PyDict_SetItemString dict "INTEGER_64BIT_LITTLE_ENDIAN"%string
          LIBREGF_VALUE_TYPE_INTEGER_32BIT_LITTLE_ENDIAN with
  | None => on_error
  | Some dict => (1, Some {| tp_dict := Some dict |})
  end end end end end end end end end end end end
  end
  end.

End ValueTypes.

(** A dictionary as a list of items, the latest first; setting an item
    never fails. *)
Definition list_dict : Type := list (String.string * Z).

Definition list_dict_set (dict : list_dict) (name : String.string)
    (value : Z) : option list_dict :=
  Some ((name, value) :: dict).

Fixpoint list_dict_get (dict : list_dict) (name : String.string)
    : option Z :=
  match dict with
  | [] => None
  | (n, v) :: dict =>
      if String.eqb n name then Some v else list_dict_get dict name
  end.

End Pyregf.

(** * Properties *)

(** ** The stores *)

Lemma never_evicting_serves codepage cells index_at_offset :
  serves (never_evicting codepage cells index_at_offset) cells.
Proof.
  intros c offset; simpl.
  destruct (cells offset); reflexivity.
Qed.

Lemma single_slot_serves codepage cells index_at_offset :
  serves (single_slot codepage cells index_at_offset) cells.
Proof.
  intros c offset; simpl.
  destruct (cells offset); reflexivity.
Qed.

Lemma recording_serves codepage cells index_at_offset :
  serves (recording codepage cells index_at_offset) cells.
Proof.
  intros c offset; simpl.
  destruct (cells offset); reflexivity.
Qed.

(** In the store of one slot a pointer does not outlive the next fetch: the
    pointer got for the cell at 400 shows the cell at 700 once that one is
    fetched. *)
Example single_slot_fetch_invalidates_pointer :
  let store :=
    single_slot (Some 1252) Fixture.ri_over_two_lh
      (Fixture.index_of Fixture.known_offsets) in
  exists cell400 c1 cell700 c2,
    libregf_hive_bins_list_get_cell_at_offset store [] 400
      = (Some cell400, c1)
    /\ libregf_hive_bins_list_get_cell_at_offset store c1 700
       = (Some cell700, c2)
    /\ Some (hive_bin_cell_data store c1 cell400)
       = Fixture.ri_over_two_lh 400
    /\ Some (hive_bin_cell_data store c2 cell400)
       = Fixture.ri_over_two_lh 700.
Proof.
  simpl. do 4 eexists. repeat split; reflexivity.
Qed.

Lemma serves_fetch_some hive_bins_list cells c offset cell c' :
  serves hive_bins_list cells ->
  libregf_hive_bins_list_get_cell_at_offset hive_bins_list c offset
    = (Some cell, c') ->
  cells offset = Some (hive_bin_cell_data hive_bins_list c' cell).
Proof.
  intros Hs Hf. specialize (Hs c offset). rewrite Hf in Hs. exact Hs.
Qed.

Lemma serves_fetch_none hive_bins_list cells c offset c' :
  serves hive_bins_list cells ->
  libregf_hive_bins_list_get_cell_at_offset hive_bins_list c offset
    = (None, c') ->
  cells offset = None.
Proof.
  intros Hs Hf. specialize (Hs c offset). rewrite Hf in Hs. exact Hs.
Qed.

(** ** Flags *)

Lemma mark_corrupted_is_corrupted k : is_corrupted (mark_corrupted k) = true.
Proof.
  unfold is_corrupted, mark_corrupted.
  cbn [item_flags set_item_flags].
  rewrite Z.lor_spec. apply orb_true_r.
Qed.

Lemma lor_corrupted_twice f :
  Z.lor (Z.lor f LIBREGF_KEY_ITEM_FLAG_IS_CORRUPTED)
    LIBREGF_KEY_ITEM_FLAG_IS_CORRUPTED
  = Z.lor f LIBREGF_KEY_ITEM_FLAG_IS_CORRUPTED.
Proof. rewrite <- Z.lor_assoc, Z.lor_diag. reflexivity. Qed.

Lemma same_key_data_refl k : same_key_data k k.
Proof. repeat split. Qed.

Lemma same_key_data_trans k1 k2 k3 :
  same_key_data k1 k2 -> same_key_data k2 k3 -> same_key_data k1 k3.
Proof.
  unfold same_key_data; intros (?&?&?&?&?&?) (?&?&?&?&?&?).
  repeat split; congruence.
Qed.

(** ** The values list *)

Lemma uint32_elements_length m : forall data,
  (4 * m <= length data)%nat -> length (uint32_elements m data) = m.
Proof.
  induction m as [|m IH]; intros data Hlen; [reflexivity|].
  destruct data as [|b0 [|b1 [|b2 [|b3 data]]]]; simpl in Hlen; try lia.
  simpl. rewrite IH by lia. reflexivity.
Qed.

Lemma filter_split_length {A} (f : A -> bool) (l : list A) :
  (length (filter f l)
   + length (filter (fun x => negb (f x)) l) = length l)%nat.
Proof.
  induction l as [|a l IH]; [reflexivity|].
  simpl. destruct (f a); simpl; lia.
Qed.

Lemma filter_negb_nil_forallb {A} (f : A -> bool) (l : list A) :
  filter (fun x => negb (f x)) l = [] <-> forallb f l = true.
Proof.
  induction l as [|a l IH]; simpl; [tauto|].
  destruct (f a); simpl.
  - exact IH.
  - split; discriminate.
Qed.

Lemma filter_all {A} (f : A -> bool) (l : list A) :
  forallb f l = true -> filter f l = l.
Proof.
  induction l as [|a l IH]; simpl; [reflexivity|].
  destruct (f a); simpl; [|discriminate].
  intros H. rewrite IH by exact H. reflexivity.
Qed.

Lemma read_values_list_elements_done hive_bins_list data n i k :
  n <= i ->
  read_values_list_elements hive_bins_list data n i k = (Return 1, k).
Proof.
  intros H. destruct data; simpl;
    (destruct (Z.ltb_spec i n); [lia | reflexivity]).
Qed.

(** The loop, when the data holds the elements still to be read and no
    probe fails. *)
Lemma read_values_list_elements_spec hive_bins_list :
  forall (m : nat) data n i k l,
    n - i = Z.of_nat m ->
    (4 * m <= length data)%nat ->
    values_list k = Some l ->
    (forall e, In e (uint32_elements m data) ->
       libregf_hive_bins_list_get_index_at_offset hive_bins_list e <> -1) ->
    exists k',
      read_values_list_elements hive_bins_list data n i k = (Return 1, k')
      /\ values_list k'
         = Some (l ++ map list_element_of_offset
                        (filter (offset_is_known hive_bins_list)
                           (uint32_elements m data)))
      /\ item_flags k'
         = (if forallb (offset_is_known hive_bins_list)
                 (uint32_elements m data)
            then item_flags k
            else Z.lor (item_flags k) LIBREGF_KEY_ITEM_FLAG_IS_CORRUPTED)
      /\ same_key_data k k'.
Proof.
  induction m as [|m IH]; intros data n i k l Hm Hlen Hl Hprobe.
  - exists k. rewrite read_values_list_elements_done by lia.
    simpl. rewrite app_nil_r. auto using same_key_data_refl.
  - destruct data as [|b0 [|b1 [|b2 [|b3 data]]]]; simpl in Hlen; try lia.
    cbn [read_values_list_elements uint32_elements] in *.
    destruct (Z.ltb_spec i n); [|lia].
    set (e := byte_stream_copy_to_uint32_little_endian b0 b1 b2 b3) in *.
    assert (He : libregf_hive_bins_list_get_index_at_offset hive_bins_list e
                 <> -1) by (apply Hprobe; left; reflexivity).
    destruct (Z.eqb_spec
                (libregf_hive_bins_list_get_index_at_offset hive_bins_list e)
                (-1)) as [|_]; [contradiction|].
    cbn [filter forallb map].
    assert (Hk : offset_is_known hive_bins_list e
                 = negb (libregf_hive_bins_list_get_index_at_offset
                           hive_bins_list e =? 0)) by reflexivity.
    rewrite Hk.
    destruct (Z.eqb_spec
                (libregf_hive_bins_list_get_index_at_offset hive_bins_list e)
                0) as [Hz|Hz]; cbn [negb andb].
    + destruct (IH data n (i + 1) (mark_corrupted k) l)
        as (k' & Hr & Hv & Hf & Hs);
        [lia | lia | exact Hl | intros; apply Hprobe; right; assumption |].
      exists k'. split; [exact Hr|]. split; [exact Hv|]. split.
      * rewrite Hf. unfold mark_corrupted.
        cbn [item_flags set_item_flags].
        rewrite lor_corrupted_twice.
        destruct (forallb _ _); reflexivity.
      * eapply same_key_data_trans; [|exact Hs]. repeat split.
    + rewrite Hl. cbn [libfdata_list_append_element].
      destruct (IH data n (i + 1)
                  (set_values_list k (Some (l ++ [list_element_of_offset e])))
                  (l ++ [list_element_of_offset e]))
        as (k' & Hr & Hv & Hf & Hs);
        [lia | lia | reflexivity | intros; apply Hprobe; right; assumption |].
      exists k'. split; [exact Hr|]. split.
      * rewrite Hv, <- app_assoc. reflexivity.
      * split; [exact Hf|].
        eapply same_key_data_trans; [|exact Hs]. repeat split.
Qed.

(** The size check of the values list is right as long as the product does
    not leave 32 bits: a cell that is too small for the elements is turned
    down. *)
Lemma read_values_list_rejects_short_cell hive_bins_list cells :
  forall k c values_list_offset n data,
    serves hive_bins_list cells ->
    0 < n -> n * 4 < 2 ^ 32 ->
    values_list_offset <> 0 -> values_list_offset <> 0xffffffff ->
    cells values_list_offset = Some data ->
    Z.of_nat (length data) < n * 4 ->
    exists c',
      libregf_key_item_read_values_list hive_bins_list k c
        values_list_offset n = (Return (-1), k, c').
Proof.
  intros k c off n data Hs Hn Hwrap H0 Hf Hcell Hsmall.
  unfold libregf_key_item_read_values_list.
  destruct (Z.eqb_spec n 0); [lia|].
  destruct (Z.eqb_spec off 0); [contradiction|].
  destruct (Z.eqb_spec off 0xffffffff); [contradiction|].
  cbn [orb].
  destruct (libregf_hive_bins_list_get_cell_at_offset hive_bins_list c off)
    as [[cell|] c'] eqn:Hfetch.
  - pose proof (serves_fetch_some _ _ _ _ _ _ Hs Hfetch) as Hdata.
    rewrite Hcell in Hdata. injection Hdata as <-.
    unfold uint32. rewrite Z.mod_small by lia.
    destruct (Z.ltb_spec (Z.of_nat (length data)) (n * 4)); [|lia].
    eexists; reflexivity.
  - eexists; reflexivity.
Qed.

(** C3 (the code departs from the claim).  The claim: with a count above 0
    and an offset that is no sentinel, the values list fails with an
    out-of-bounds error whenever the payload of the cell is smaller than
    count * 4, the product taken in unbounded integers.  The code computes
    the product in [uint32_t]: for the count 0x40000000 it is 0, the cell of
    four bytes at 200 passes the check, the loop reads its one offset and
    then reads past the end of the cell. *)
Theorem C3_values_list_size_check_wraps :
  let hive_bins_list :=
    never_evicting (Some 1252) Fixture.values_list_of_one
      (Fixture.index_of Fixture.known_offsets) in
  let number_of_values := 0x40000000 in
  Fixture.values_list_of_one 200 = Some (Fixture.u32 300)
  /\ Z.of_nat (length (Fixture.u32 300)) < number_of_values * 4
  /\ uint32 (number_of_values * 4) = 0
  /\ libregf_key_item_read_values_list hive_bins_list
       Fixture.key_item_with_empty_values_list tt 200 number_of_values
     = (BufferOverread,
        set_values_list Fixture.key_item_with_empty_values_list
          (Some [list_element_of_offset 300]),
        tt).
Proof.
  cbv zeta. repeat split; vm_compute; reflexivity.
Qed.

(** The values list of a cell that holds the offsets: the call returns 1,
    the offsets that lie in a bin are appended in order, and the flag is set
    when an offset lies in no bin. *)
Lemma read_values_list_loads :
  forall hive_bins_list cells k c values_list_offset number_of_values data l,
    serves hive_bins_list cells ->
    0 < number_of_values ->
    values_list_offset <> 0 -> values_list_offset <> 0xffffffff ->
    cells values_list_offset = Some data ->
    number_of_values * 4 <= Z.of_nat (length data) ->
    values_list k = Some l ->
    (forall e,
       In e (uint32_elements (Z.to_nat number_of_values) data) ->
       libregf_hive_bins_list_get_index_at_offset hive_bins_list e <> -1) ->
    exists k' c',
      libregf_key_item_read_values_list hive_bins_list k c
        values_list_offset number_of_values = (Return 1, k', c')
      /\ values_list k'
         = Some (l ++ map list_element_of_offset
                        (filter (offset_is_known hive_bins_list)
                           (uint32_elements (Z.to_nat number_of_values)
                              data)))
      /\ item_flags k'
         = (if forallb (offset_is_known hive_bins_list)
                 (uint32_elements (Z.to_nat number_of_values) data)
            then item_flags k
            else Z.lor (item_flags k) LIBREGF_KEY_ITEM_FLAG_IS_CORRUPTED)
      /\ same_key_data k k'.
Proof.
  intros B cells k c off n data l Hs Hn H0 Hf Hcell Hsize Hl Hprobe.
  unfold libregf_key_item_read_values_list.
  destruct (Z.eqb_spec n 0); [lia|].
  destruct (Z.eqb_spec off 0); [contradiction|].
  destruct (Z.eqb_spec off 0xffffffff); [contradiction|].
  cbn [orb].
  destruct (libregf_hive_bins_list_get_cell_at_offset B c off)
    as [[cell|] c'] eqn:Hfetch.
  2:{ rewrite (serves_fetch_none _ _ _ _ _ Hs Hfetch) in Hcell.
      discriminate. }
  pose proof (serves_fetch_some _ _ _ _ _ _ Hs Hfetch) as Hdata.
  rewrite Hcell in Hdata. injection Hdata as <-.
  assert (Hmod : uint32 (n * 4) <= n * 4).
  { unfold uint32. apply Z.mod_le; lia. }
  destruct (Z.ltb_spec (Z.of_nat (length data)) (uint32 (n * 4))); [lia|].
  destruct (read_values_list_elements_spec B (Z.to_nat n) data n 0 k l)
    as (k' & Hr & Hv & Hfl & Hsame);
    [lia | lia | exact Hl | exact Hprobe |].
  rewrite Hr. exists k', c'. auto.
Qed.

(** C4.  For a values list cell that is fetched and holds the
    [number_of_values] offsets (and no probe fails), the values list gets
    exactly the offsets that lie in a bin, in the order of the cell; the
    offsets that lie in no bin are left out and mark the key item as
    corrupted.  The number of elements added is [number_of_values] less the
    number of offsets left out, and [number_of_values] itself when none is
    left out, in which case the flags stay as they were. *)
Theorem C4_values_list_keeps_known_offsets_in_order :
  forall hive_bins_list cells k c values_list_offset number_of_values data l,
    serves hive_bins_list cells ->
    0 < number_of_values ->
    values_list_offset <> 0 -> values_list_offset <> 0xffffffff ->
    cells values_list_offset = Some data ->
    number_of_values * 4 <= Z.of_nat (length data) ->
    values_list k = Some l ->
    (forall e,
       In e (uint32_elements (Z.to_nat number_of_values) data) ->
       libregf_hive_bins_list_get_index_at_offset hive_bins_list e <> -1) ->
    let offsets := uint32_elements (Z.to_nat number_of_values) data in
    let kept := filter (offset_is_known hive_bins_list) offsets in
    let dropped :=
      filter (fun e => negb (offset_is_known hive_bins_list e)) offsets in
    exists k' c',
      libregf_key_item_read_values_list hive_bins_list k c
        values_list_offset number_of_values = (Return 1, k', c')
      /\ values_list k' = Some (l ++ map list_element_of_offset kept)
      /\ Z.of_nat (length kept)
         = number_of_values - Z.of_nat (length dropped)
      /\ (dropped <> [] -> is_corrupted k' = true)
      /\ (dropped = [] ->
          kept = offsets
          /\ Z.of_nat (length kept) = number_of_values
          /\ item_flags k' = item_flags k)
      /\ same_key_data k k'.
Proof.
  intros B cells k c off n data l Hs Hn H0 Hf Hcell Hsize Hl Hprobe
    offsets kept dropped.
  destruct (read_values_list_loads B cells k c off n data l Hs Hn H0 Hf
              Hcell Hsize Hl Hprobe) as (k' & c' & Hr & Hv & Hfl & Hsame).
  exists k', c'.
  assert (Hlen : length offsets = Z.to_nat n).
  { apply uint32_elements_length. lia. }
  pose proof (filter_split_length (offset_is_known B) offsets) as Hsplit.
  fold offsets in Hv, Hfl. fold kept in Hv. fold kept dropped in Hsplit.
  split; [exact Hr|]. split; [exact Hv|]. split; [lia|].
  split; [|split; [|exact Hsame]].
  - intros Hd. unfold is_corrupted. rewrite Hfl.
    destruct (forallb (offset_is_known B) offsets) eqn:Hall.
    + apply filter_negb_nil_forallb in Hall. contradiction.
    + rewrite Z.lor_spec. apply orb_true_r.
  - intros Hd. pose proof Hd as Hall.
    apply filter_negb_nil_forallb in Hall.
    rewrite Hall in Hfl.
    assert (Hk : kept = offsets) by (apply filter_all; exact Hall).
    repeat split; [exact Hk | rewrite Hk; lia | exact Hfl].
Qed.

(** C4 at the values list with the offsets 300 and 0xdeadbeef: one element,
    the key item marked. *)
Lemma C4_values_list_witness :
  let hive_bins_list :=
    single_slot (Some 1252) Fixture.values_list_with_unknown_offset
      (Fixture.index_of Fixture.known_offsets) in
  exists k' c',
    libregf_key_item_read_values_list hive_bins_list
      Fixture.key_item_with_empty_values_list [] 200 2 = (Return 1, k', c')
    /\ values_list k' = Some [list_element_of_offset 300]
    /\ is_corrupted k' = true.
Proof.
  cbv zeta.
  destruct (C4_values_list_keeps_known_offsets_in_order
              (single_slot (Some 1252) Fixture.values_list_with_unknown_offset
                 (Fixture.index_of Fixture.known_offsets))
              Fixture.values_list_with_unknown_offset
              Fixture.key_item_with_empty_values_list [] 200 2
              (Fixture.u32 300 ++ Fixture.u32 0xdeadbeef) [])
    as (k' & c' & Hr & Hv & _ & Hc & _).
  - apply single_slot_serves.
  - lia.
  - lia.
  - lia.
  - reflexivity.
  - vm_compute. discriminate.
  - reflexivity.
  - intros e He. vm_compute in He.
    destruct He as [<-|[<-|[]]]; vm_compute; discriminate.
  - exists k', c'. split; [exact Hr|]. split; [exact Hv|].
    apply Hc. vm_compute. discriminate.
Defined.

(** ** The sub keys walk does not depend on the cache *)

Section TwoStores.

Variables store1 store2 : libregf_hive_bins_list.
Hypothesis same_index :
  forall offset,
    libregf_hive_bins_list_get_index_at_offset store1 offset
    = libregf_hive_bins_list_get_index_at_offset store2 offset.

Lemma read_sub_keys_list_elements_observable read1 read2 :
  (forall node c1 c2 offset,
     observable (read1 node c1 offset) = observable (read2 node c2 offset)) ->
  forall element_size at_leaf_level remaining data corruption node c1 c2,
    observable
      (read_sub_keys_list_elements store1 read1 element_size at_leaf_level
         remaining data corruption node c1)
    = observable
        (read_sub_keys_list_elements store2 read2 element_size at_leaf_level
           remaining data corruption node c2).
Proof.
  intros Hread element_size at_leaf_level.
  induction remaining as [|remaining IH]; intros data corruption node c1 c2.
  - simpl. destruct (negb (corruption =? 0)); reflexivity.
  - cbn [read_sub_keys_list_elements].
    destruct (read_uint32_little_endian data) as [[offset data1]|];
      [|reflexivity].
    destruct (if element_size =? 8 then read_uint32_little_endian data1
              else Some (0, data1)) as [[hash data2]|]; [|reflexivity].
    rewrite <- same_index.
    destruct (libregf_hive_bins_list_get_index_at_offset store1 offset =? -1);
      [reflexivity|].
    destruct (negb (libregf_hive_bins_list_get_index_at_offset store1 offset
                    =? 0)); [|apply IH].
    destruct (negb (at_leaf_level =? 0)); [apply IH|].
    specialize (Hread node c1 c2 offset).
    destruct (read1 node c1 offset) as [[o1 n1] c1'].
    destruct (read2 node c2 offset) as [[o2 n2] c2'].
    unfold observable in Hread; simpl in Hread.
    injection Hread as <- <-.
    destruct o1 as [result| |]; try reflexivity.
    destruct (result =? -1); [reflexivity|apply IH].
Qed.

Variable cells : hive_cells.
Hypothesis serves1 : serves store1 cells.
Hypothesis serves2 : serves store2 cells.

Lemma read_sub_keys_list_observable :
  forall depth node c1 c2 offset,
    observable
      (libregf_key_item_read_sub_keys_list depth store1 node c1 offset)
    = observable
        (libregf_key_item_read_sub_keys_list depth store2 node c2 offset).
Proof.
  induction depth as [|depth IH]; intros node c1 c2 offset; [reflexivity|].
  cbn [libregf_key_item_read_sub_keys_list].
  destruct ((offset =? 0) || (offset =? 0xffffffff)); [reflexivity|].
  pose proof (serves1 c1 (uint32 offset)) as H1.
  pose proof (serves2 c2 (uint32 offset)) as H2.
  destruct (libregf_hive_bins_list_get_cell_at_offset store1 c1
              (uint32 offset)) as [[cell1|] c1'];
    destruct (libregf_hive_bins_list_get_cell_at_offset store2 c2
                (uint32 offset)) as [[cell2|] c2'];
    try congruence; [|reflexivity].
  rewrite H1 in H2. injection H2 as H2. rewrite <- H2.
  set (data := hive_bin_cell_data store1 c1' cell1).
  cbv zeta.
  destruct (Z.of_nat (length data) <? sizeof_regf_sub_key_list_t);
    [reflexivity|].
  assert (Helements :
    forall element_size at_leaf_level,
      observable
        (if Z.of_nat (length data) - sizeof_regf_sub_key_list_t
            <? byte_stream_copy_to_uint16_little_endian
                 (nth 2 data "000"%byte) (nth 3 data "000"%byte)
               * element_size
         then (Return (-1), node, c1')
         else
           read_sub_keys_list_elements store1
             (libregf_key_item_read_sub_keys_list depth store1)
             element_size at_leaf_level
             (Z.to_nat
                (byte_stream_copy_to_uint16_little_endian
                   (nth 2 data "000"%byte) (nth 3 data "000"%byte)))
             (skipn (Z.to_nat sizeof_regf_sub_key_list_t) data) 0 node c1')
      = observable
          (if Z.of_nat (length data) - sizeof_regf_sub_key_list_t
              <? byte_stream_copy_to_uint16_little_endian
                   (nth 2 data "000"%byte) (nth 3 data "000"%byte)
                 * element_size
           then (Return (-1), node, c2')
           else
             read_sub_keys_list_elements store2
               (libregf_key_item_read_sub_keys_list depth store2)
               element_size at_leaf_level
               (Z.to_nat
                  (byte_stream_copy_to_uint16_little_endian
                     (nth 2 data "000"%byte) (nth 3 data "000"%byte)))
               (skipn (Z.to_nat sizeof_regf_sub_key_list_t) data) 0 node
               c2')).
  { intros element_size at_leaf_level.
    destruct (_ <? _); [reflexivity|].
    apply read_sub_keys_list_elements_observable. exact IH. }
  destruct (_ && _); [apply Helements|].
  destruct (_ && _); [apply Helements|].
  destruct (_ && _); [apply Helements|reflexivity].
Qed.

End TwoStores.

(** C2.  Against any store that serves the cells of the hive, whatever it
    does to its cache on a fetch, the walk over the sub keys lists gives the
    outcome and the sub nodes, in the same order, that it gives against the
    store that never evicts: the data of a cell is taken when the cell is
    fetched and the walk reads its copy. *)
Theorem C2_sub_keys_walk_same_under_eviction :
  forall hive_bins_list cells,
    serves hive_bins_list cells ->
    forall depth node c sub_keys_list_offset,
      observable
        (libregf_key_item_read_sub_keys_list depth hive_bins_list node c
           sub_keys_list_offset)
      = observable
          (libregf_key_item_read_sub_keys_list depth
             (never_evicting (io_handle hive_bins_list) cells
                (libregf_hive_bins_list_get_index_at_offset hive_bins_list))
             node tt sub_keys_list_offset).
Proof.
  intros B cells Hs depth node c offset.
  apply read_sub_keys_list_observable with (cells := cells).
  - reflexivity.
  - exact Hs.
  - apply never_evicting_serves.
Qed.

(** C2 on the "ri" list over two "lh" lists, with the store of one slot
    that overwrites the cell at 400 while the walk is inside it. *)
Lemma C2_sub_keys_walk_witness :
  observable
    (libregf_key_item_read_sub_keys_list 3
       (single_slot (Some 1252) Fixture.ri_over_two_lh
          (Fixture.index_of Fixture.known_offsets))
       Fixture.empty_node [] 400)
  = observable
      (libregf_key_item_read_sub_keys_list 3
         (never_evicting (Some 1252) Fixture.ri_over_two_lh
            (Fixture.index_of Fixture.known_offsets))
         Fixture.empty_node tt 400).
Proof.
  exact (C2_sub_keys_walk_same_under_eviction
           (single_slot (Some 1252) Fixture.ri_over_two_lh
              (Fixture.index_of Fixture.known_offsets))
           Fixture.ri_over_two_lh
           (single_slot_serves _ _ _)
           3%nat Fixture.empty_node [] 400).
Defined.

Example sub_keys_walk_over_two_lh :
  observable
    (libregf_key_item_read_sub_keys_list 3
       (single_slot (Some 1252) Fixture.ri_over_two_lh
          (Fixture.index_of Fixture.known_offsets))
       Fixture.empty_node [] 400)
  = (Return 1,
     append_sub_nodes Fixture.empty_node
       [sub_node_of_element (500, 0x11); sub_node_of_element (600, 0x22)]).
Proof. vm_compute. reflexivity. Qed.

(** ** The walk only appends sub nodes *)

Lemma append_sub_nodes_nil node : append_sub_nodes node [] = node.
Proof.
  destruct node; unfold append_sub_nodes; simpl.
  rewrite app_nil_r. reflexivity.
Qed.

Lemma append_sub_nodes_app node l1 l2 :
  append_sub_nodes (append_sub_nodes node l1) l2
  = append_sub_nodes node (l1 ++ l2).
Proof.
  unfold append_sub_nodes; simpl. rewrite app_assoc. reflexivity.
Qed.

Lemma append_sub_node_as_nodes node offset hash :
  libfdata_tree_node_append_sub_node node 0 offset hash 0
  = append_sub_nodes node [sub_node_of_element (offset, hash)].
Proof. reflexivity. Qed.

Lemma read_sub_keys_list_elements_only_appends hive_bins_list read :
  (forall node c offset, only_appends node (read node c offset)) ->
  forall element_size at_leaf_level remaining data corruption node c,
    only_appends node
      (read_sub_keys_list_elements hive_bins_list read element_size
         at_leaf_level remaining data corruption node c).
Proof.
  intros Hread element_size at_leaf_level.
  assert (Hhere : forall node (c : cache hive_bins_list) (o : outcome),
            only_appends node (o, node, c)).
  { intros node c o. exists []. rewrite append_sub_nodes_nil. reflexivity. }
  induction remaining as [|remaining IH]; intros data corruption node c.
  - simpl. destruct (negb (corruption =? 0)); apply Hhere.
  - cbn [read_sub_keys_list_elements].
    destruct (read_uint32_little_endian data) as [[offset data1]|];
      [|apply Hhere].
    destruct (if element_size =? 8 then read_uint32_little_endian data1
              else Some (0, data1)) as [[hash data2]|]; [|apply Hhere].
    destruct (libregf_hive_bins_list_get_index_at_offset hive_bins_list offset
              =? -1); [apply Hhere|].
    destruct (negb (libregf_hive_bins_list_get_index_at_offset hive_bins_list
                      offset =? 0)); [|apply IH].
    destruct (negb (at_leaf_level =? 0)).
    + rewrite append_sub_node_as_nodes.
      destruct (IH data2
                  (if libregf_hive_bins_list_get_index_at_offset
                        hive_bins_list offset =? 0 then 1 else corruption)
                  (append_sub_nodes node [sub_node_of_element (offset, hash)])
                  c) as [nodes Hn].
      eexists. rewrite Hn, append_sub_nodes_app. reflexivity.
    + destruct (Hread node c offset) as [nodes1 H1].
      destruct (read node c offset) as [[o n1] c1]. simpl in H1. subst n1.
      destruct o as [result| |]; try (eexists; reflexivity).
      destruct (result =? -1); [eexists; reflexivity|].
      destruct (IH data2 (if result =? 0 then 1 else corruption)
                  (append_sub_nodes node nodes1) c1) as [nodes2 H2].
      eexists. rewrite H2, append_sub_nodes_app. reflexivity.
Qed.

Lemma read_sub_keys_list_only_appends hive_bins_list :
  forall depth node c offset,
    only_appends node
      (libregf_key_item_read_sub_keys_list depth hive_bins_list node c offset).
Proof.
  assert (Hhere : forall node (c : cache hive_bins_list) (o : outcome),
            only_appends node (o, node, c)).
  { intros node c o. exists []. rewrite append_sub_nodes_nil. reflexivity. }
  induction depth as [|depth IH]; intros node c offset; [apply Hhere|].
  cbn [libregf_key_item_read_sub_keys_list].
  destruct ((offset =? 0) || (offset =? 0xffffffff)); [apply Hhere|].
  destruct (libregf_hive_bins_list_get_cell_at_offset hive_bins_list c
              (uint32 offset)) as [[cell|] c']; [|apply Hhere].
  cbv zeta.
  destruct (_ <? sizeof_regf_sub_key_list_t); [apply Hhere|].
  repeat (destruct (_ && _);
          [destruct (_ <? _);
           [apply Hhere
           |apply read_sub_keys_list_elements_only_appends; exact IH]|]).
  apply Hhere.
Qed.

(** The loader of the sub nodes leaves the key item of the node as it is,
    whatever the walk ran into. *)
Lemma read_sub_nodes_keeps_node_value hive_bins_list :
  forall depth node c offset,
    node_value
      (snd (fst (libregf_key_item_read_sub_nodes depth hive_bins_list node c
                   offset)))
    = node_value node.
Proof.
  intros depth node c offset. unfold libregf_key_item_read_sub_nodes.
  destruct (read_sub_keys_list_only_appends hive_bins_list depth node c offset)
    as [nodes Hn].
  destruct (libregf_key_item_read_sub_keys_list depth hive_bins_list node c
              offset) as [[o n] c'].
  simpl in Hn. subst n.
  destruct o as [result| |]; try reflexivity.
  destruct (result =? -1); reflexivity.
Qed.

(** C1 (the code departs from the claim).  The claim: when the walk over
    the sub keys lists meets an offset that lies in no bin, the key item of
    the parent key gets the corrupted flag, and the sub nodes appended are
    those of the offsets that do lie in a bin.  The key at 32 is loaded and
    its sub keys list at 400 holds the offsets 500 and 0xdeadbeef: the walk
    returns 0 and one sub node is appended, as the claim has it, but the
    loader of the sub nodes returns 1 and the key item of the parent stays
    unmarked. *)
Theorem C1_unknown_sub_key_offset_leaves_parent_unmarked :
  let hive_bins_list :=
    never_evicting (Some 1252) Fixture.parent_cells
      (Fixture.index_of Fixture.known_offsets) in
  exists parent children,
    libregf_key_item_read_node_data Fixture.read_parent_named_key
      Fixture.no_security_key Fixture.free_succeeds 8
      hive_bins_list Fixture.empty_node tt 32 0
    = (Return 1, parent, tt)
    /\ sub_nodes_data_range parent
       = Some {| range_file_index := 0; range_offset := 400;
                 range_size := 0; range_flags := 0 |}
    /\ libregf_hive_bins_list_get_index_at_offset hive_bins_list 0xdeadbeef
       = 0
    /\ fst (observable
              (libregf_key_item_read_sub_keys_list 5 hive_bins_list parent tt
                 400))
       = Return 0
    /\ libregf_key_item_read_sub_nodes 5 hive_bins_list parent tt 400
       = (Return 1, children, tt)
    /\ sub_nodes children = [sub_node_of_element (500, 0x11)]
    /\ option_map is_corrupted (node_value children) = Some false.
Proof.
  cbv zeta. do 2 eexists.
  split; [vm_compute; reflexivity|].
  repeat split; vm_compute; reflexivity.
Qed.

(** ** The header and the elements of a sub keys list cell *)

Lemma sub_keys_list_elements_length element_size :
  forall n data,
    element_size = 4 \/ element_size = 8 ->
    element_size * Z.of_nat n <= Z.of_nat (length data) ->
    length (sub_keys_list_elements element_size n data) = n.
Proof.
  induction n as [|n IH]; intros data Hes Hlen; [reflexivity|].
  cbn [sub_keys_list_elements].
  destruct data as [|b0 [|b1 [|b2 [|b3 data]]]];
    cbn [length] in Hlen; try lia.
  cbn [read_uint32_little_endian].
  destruct Hes as [-> | ->]; cbn [Z.eqb Pos.eqb].
  - cbn [length]. rewrite IH; [reflexivity | left; reflexivity | lia].
  - destruct data as [|h0 [|h1 [|h2 [|h3 data]]]];
      cbn [length] in Hlen; try lia.
    cbn [read_uint32_little_endian length].
    rewrite IH; [reflexivity | right; reflexivity | lia].
Qed.

(** At the leaf level the loop appends the elements whose offset lies in a
    bin, in order, and never fails when the data holds the elements and the
    probes work. *)
Lemma read_sub_keys_list_elements_at_leaf_level hive_bins_list read
    element_size at_leaf_level :
  at_leaf_level <> 0 ->
  forall remaining data corruption node c,
    length (sub_keys_list_elements element_size remaining data) = remaining ->
    (forall e,
       In e (sub_keys_list_elements element_size remaining data) ->
       libregf_hive_bins_list_get_index_at_offset hive_bins_list (fst e)
       <> -1) ->
    read_sub_keys_list_elements hive_bins_list read element_size
      at_leaf_level remaining data corruption node c
    = (Return
         (if (corruption =? 0)
             && forallb (fun e => offset_is_known hive_bins_list (fst e))
                  (sub_keys_list_elements element_size remaining data)
          then 1 else 0),
       append_sub_nodes node
         (map sub_node_of_element
            (filter (fun e => offset_is_known hive_bins_list (fst e))
               (sub_keys_list_elements element_size remaining data))),
       c).
Proof.
  intros Hleaf.
  induction remaining as [|remaining IH];
    intros data corruption node c Hlen Hprobe.
  - cbn. rewrite append_sub_nodes_nil, andb_true_r.
    destruct (corruption =? 0); reflexivity.
  - cbn [read_sub_keys_list_elements sub_keys_list_elements] in *.
    destruct (read_uint32_little_endian data) as [[offset data1]|];
      [|discriminate].
    destruct (if element_size =? 8 then read_uint32_little_endian data1
              else Some (0, data1)) as [[hash data2]|]; [|discriminate].
    cbn [length] in Hlen. injection Hlen as Hlen.
    assert (He : libregf_hive_bins_list_get_index_at_offset hive_bins_list
                   offset <> -1)
      by (apply (Hprobe (offset, hash)); left; reflexivity).
    destruct (Z.eqb_spec
                (libregf_hive_bins_list_get_index_at_offset hive_bins_list
                   offset) (-1)) as [|_]; [contradiction|].
    cbn [filter forallb map fst].
    assert (Hk : offset_is_known hive_bins_list offset
                 = negb (libregf_hive_bins_list_get_index_at_offset
                           hive_bins_list offset =? 0)) by reflexivity.
    rewrite Hk.
    destruct (libregf_hive_bins_list_get_index_at_offset hive_bins_list offset
              =? 0); cbn [negb andb].
    + rewrite IH; [|exact Hlen|intros; apply Hprobe; right; assumption].
      cbn [Z.eqb andb]. rewrite andb_false_r. reflexivity.
    + destruct (Z.eqb_spec at_leaf_level 0); [contradiction|]. cbn [negb].
      rewrite IH; [|exact Hlen|intros; apply Hprobe; right; assumption].
      rewrite append_sub_node_as_nodes, append_sub_nodes_app.
      reflexivity.
Qed.

(** In a cell of further lists a fatal error comes from a nested walk, when
    the probes work. *)
Lemma read_sub_keys_list_elements_fatal_is_nested hive_bins_list read
    element_size :
  forall remaining data corruption node c,
    (forall e,
       In e (sub_keys_list_elements element_size remaining data) ->
       libregf_hive_bins_list_get_index_at_offset hive_bins_list (fst e)
       <> -1) ->
    fst (fst (read_sub_keys_list_elements hive_bins_list read element_size 0
                remaining data corruption node c))
    = Return (-1) ->
    exists e node0 c0,
      In e (sub_keys_list_elements element_size remaining data)
      /\ offset_is_known hive_bins_list (fst e) = true
      /\ fst (fst (read node0 c0 (fst e))) = Return (-1).
Proof.
  induction remaining as [|remaining IH];
    intros data corruption node c Hprobe Hfatal.
  - cbn in Hfatal. destruct (negb (corruption =? 0)); discriminate.
  - cbn [read_sub_keys_list_elements sub_keys_list_elements] in *.
    destruct (read_uint32_little_endian data) as [[offset data1]|];
      [|discriminate].
    destruct (if element_size =? 8 then read_uint32_little_endian data1
              else Some (0, data1)) as [[hash data2]|]; [|discriminate].
    assert (He : libregf_hive_bins_list_get_index_at_offset hive_bins_list
                   offset <> -1)
      by (apply (Hprobe (offset, hash)); left; reflexivity).
    destruct (Z.eqb_spec
                (libregf_hive_bins_list_get_index_at_offset hive_bins_list
                   offset) (-1)) as [|_]; [contradiction|].
    assert (Hrest :
      forall corruption node c,
        fst (fst (read_sub_keys_list_elements hive_bins_list read
                    element_size 0 remaining data2 corruption node c))
        = Return (-1) ->
        exists e node0 c0,
          In e ((offset, hash)
                :: sub_keys_list_elements element_size remaining data2)
          /\ offset_is_known hive_bins_list (fst e) = true
          /\ fst (fst (read node0 c0 (fst e))) = Return (-1)).
    { intros corruption' node' c' H.
      destruct (IH data2 corruption' node' c') as (e & node0 & c0 & Hin & Hr);
        [intros; apply Hprobe; right; assumption | exact H |].
      exists e, node0, c0. split; [right; exact Hin | exact Hr]. }
    destruct (libregf_hive_bins_list_get_index_at_offset hive_bins_list offset
              =? 0) eqn:Hz; cbn [negb Z.eqb] in Hfatal.
    + eapply Hrest; exact Hfatal.
    + destruct (read node c offset) as [[o n1] c1] eqn:Hread.
      destruct o as [result| |]; try discriminate.
      destruct (Z.eqb_spec result (-1)) as [->|].
      * exists (offset, hash), node, c. split; [left; reflexivity|].
        split; [unfold offset_is_known; cbn [fst]; rewrite Hz; reflexivity|].
        cbn [fst]. rewrite Hread. reflexivity.
      * eapply Hrest; exact Hfatal.
Qed.

(** At the interior level the loop is the walk over the elements as the
    specification words it, when the data holds the elements and the probes
    work: nested walks in order, and no element appended. *)
Lemma read_sub_keys_list_elements_at_interior_level hive_bins_list read
    element_size :
  forall remaining data corruption node c,
    length (sub_keys_list_elements element_size remaining data) = remaining ->
    (forall e,
       In e (sub_keys_list_elements element_size remaining data) ->
       libregf_hive_bins_list_get_index_at_offset hive_bins_list (fst e)
       <> -1) ->
    read_sub_keys_list_elements hive_bins_list read element_size 0 remaining
      data corruption node c
    = walk_interior_elements read
        (fun e => offset_is_known hive_bins_list (fst e))
        (sub_keys_list_elements element_size remaining data)
        (negb (corruption =? 0)) node c.
Proof.
  induction remaining as [|remaining IH];
    intros data corruption node c Hlen Hprobe.
  - cbn. destruct (corruption =? 0); reflexivity.
  - cbn [read_sub_keys_list_elements sub_keys_list_elements] in *.
    destruct (read_uint32_little_endian data) as [[offset data1]|];
      [|discriminate].
    destruct (if element_size =? 8 then read_uint32_little_endian data1
              else Some (0, data1)) as [[hash data2]|]; [|discriminate].
    cbn [length] in Hlen. injection Hlen as Hlen.
    assert (He : libregf_hive_bins_list_get_index_at_offset hive_bins_list
                   offset <> -1)
      by (apply (Hprobe (offset, hash)); left; reflexivity).
    destruct (Z.eqb_spec
                (libregf_hive_bins_list_get_index_at_offset hive_bins_list
                   offset) (-1)) as [|_]; [contradiction|].
    cbn [walk_interior_elements fst].
    assert (Hk : offset_is_known hive_bins_list offset
                 = negb (libregf_hive_bins_list_get_index_at_offset
                           hive_bins_list offset =? 0)) by reflexivity.
    rewrite Hk.
    destruct (libregf_hive_bins_list_get_index_at_offset hive_bins_list offset
              =? 0); cbn [negb Z.eqb].
    + rewrite IH; [|exact Hlen|intros; apply Hprobe; right; assumption].
      reflexivity.
    + destruct (read node c offset) as [[o node1] c1].
      destruct o as [result| |]; try reflexivity.
      destruct (result =? -1); [reflexivity|].
      rewrite IH; [|exact Hlen|intros; apply Hprobe; right; assumption].
      destruct (result =? 0); cbn [negb Z.eqb];
        [rewrite orb_true_r|rewrite orb_false_r]; reflexivity.
Qed.

(** The walk on a cell that the store serves, with the dispatch on the
    signature written through [element_size_of_signature] and
    [signature_at_leaf_level]. *)
Lemma read_sub_keys_list_fetched hive_bins_list cells depth node c
    sub_keys_list_offset data :
  serves hive_bins_list cells ->
  sub_keys_list_offset <> 0 -> sub_keys_list_offset <> 0xffffffff ->
  cells (uint32 sub_keys_list_offset) = Some data ->
  let s0 := nth 0 data "000"%byte in
  let s1 := nth 1 data "000"%byte in
  let number_of_elements :=
    byte_stream_copy_to_uint16_little_endian
      (nth 2 data "000"%byte) (nth 3 data "000"%byte) in
  exists c',
    libregf_key_item_read_sub_keys_list (S depth) hive_bins_list node c
      sub_keys_list_offset
    = if Z.of_nat (length data) <? 4 then (Return (-1), node, c')
      else if negb (signature_is_known s0 s1) then (Return (-1), node, c')
      else if Z.of_nat (length data) - 4
              <? number_of_elements * element_size_of_signature s0 s1
      then (Return (-1), node, c')
      else
        read_sub_keys_list_elements hive_bins_list
          (libregf_key_item_read_sub_keys_list depth hive_bins_list)
          (element_size_of_signature s0 s1)
          (if signature_at_leaf_level s0 s1 then 1 else 0)
          (Z.to_nat number_of_elements) (skipn 4 data) 0 node c'.
Proof.
  intros Hs H0 Hf Hcell s0 s1 n.
  cbn [libregf_key_item_read_sub_keys_list].
  destruct (Z.eqb_spec sub_keys_list_offset 0); [contradiction|].
  destruct (Z.eqb_spec sub_keys_list_offset 0xffffffff); [contradiction|].
  cbn [orb].
  destruct (libregf_hive_bins_list_get_cell_at_offset hive_bins_list c
              (uint32 sub_keys_list_offset)) as [[cell|] c'] eqn:Hfetch.
  2:{ rewrite (serves_fetch_none _ _ _ _ _ Hs Hfetch) in Hcell.
      discriminate. }
  pose proof (serves_fetch_some _ _ _ _ _ _ Hs Hfetch) as Hdata.
  rewrite Hcell in Hdata. injection Hdata as <-.
  exists c'. cbv zeta.
  change sizeof_regf_sub_key_list_t with 4.
  change (Z.to_nat 4) with 4%nat.
  destruct (Z.of_nat (length data) <? 4); [reflexivity|].
  fold s0 s1 n.
  unfold signature_is_known, signature_at_leaf_level,
    element_size_of_signature.
  destruct (Byte.eqb s0 "r") eqn:E0r; destruct (Byte.eqb s0 "l") eqn:E0l;
    destruct (Byte.eqb s1 "i") eqn:E1i; destruct (Byte.eqb s1 "f") eqn:E1f;
    destruct (Byte.eqb s1 "h") eqn:E1h;
    cbn [andb orb negb]; try reflexivity;
    exfalso;
    repeat match goal with
           | H : Byte.eqb _ _ = true |- _ => apply Byte.byte_dec_bl in H
           end;
    congruence.
Qed.

(** C5, as amended.  For a sub keys list cell that the store serves and
    whose element probes do not fail:
    - a payload smaller than the header, a signature other than "lf", "lh",
      "li", "ri", or a payload smaller than the header and the elements
      makes the walk fail, and nothing is appended;
    - a cell at the leaf level ("li" with elements of 4 bytes, "lf" and "lh"
      with elements of 8 bytes) with none of these defects never fails: it
      returns 1 or 0 and appends the elements whose offset lies in a bin;
    - a cell of further lists ("ri", elements of 4 bytes) with none of
      these defects fails only when a nested walk of one of its elements
      fails;
    - a cell with the signature "ri" and none of these defects is read at
      the interior level, with elements of 4 bytes: the walk is the walk
      over its elements as the specification words it, which runs the
      nested walk for every element whose offset lies in a bin, in order,
      and appends no element of the cell itself. *)
Theorem C5_sub_keys_list_header_and_shape :
  forall hive_bins_list cells depth node c sub_keys_list_offset data,
    serves hive_bins_list cells ->
    sub_keys_list_offset <> 0 -> sub_keys_list_offset <> 0xffffffff ->
    cells (uint32 sub_keys_list_offset) = Some data ->
    let s0 := nth 0 data "000"%byte in
    let s1 := nth 1 data "000"%byte in
    let number_of_elements :=
      byte_stream_copy_to_uint16_little_endian
        (nth 2 data "000"%byte) (nth 3 data "000"%byte) in
    let elements :=
      sub_keys_list_elements (element_size_of_signature s0 s1)
        (Z.to_nat number_of_elements) (skipn 4 data) in
    let known e := offset_is_known hive_bins_list (fst e) in
    (forall e,
       In e elements ->
       libregf_hive_bins_list_get_index_at_offset hive_bins_list (fst e)
       <> -1) ->
    let r :=
      libregf_key_item_read_sub_keys_list (S depth) hive_bins_list node c
        sub_keys_list_offset in
    (sub_keys_list_header_invalid data ->
     observable r = (Return (-1), node))
    /\ (~ sub_keys_list_header_invalid data ->
        signature_at_leaf_level s0 s1 = true ->
        observable r
        = (Return (if forallb known elements then 1 else 0),
           append_sub_nodes node
             (map sub_node_of_element (filter known elements))))
    /\ (~ sub_keys_list_header_invalid data ->
        signature_at_leaf_level s0 s1 = false ->
        fst (observable r) = Return (-1) ->
        exists e node0 c0,
          In e elements /\ known e = true
          /\ fst (observable
                    (libregf_key_item_read_sub_keys_list depth hive_bins_list
                       node0 c0 (fst e)))
             = Return (-1))
    /\ (~ sub_keys_list_header_invalid data ->
        s0 = "r"%byte -> s1 = "i"%byte ->
        exists c',
          r = walk_interior_elements
                (libregf_key_item_read_sub_keys_list depth hive_bins_list)
                known
                (sub_keys_list_elements 4 (Z.to_nat number_of_elements)
                   (skipn 4 data))
                false node c').
Proof.
  intros B cells depth node c off data Hs H0 Hf Hcell s0 s1 n elements known
    Hprobe r.
  destruct (read_sub_keys_list_fetched B cells depth node c off data
              Hs H0 Hf Hcell) as [c' Hr].
  fold s0 s1 n in Hr. fold r in Hr.
  assert (Hn : 0 <= n < 2 ^ 16).
  { unfold n, byte_stream_copy_to_uint16_little_endian.
    pose proof (le_combine_bound
                  [nth 2 data "000"%byte; nth 3 data "000"%byte]) as Hb.
    cbn [length] in Hb. exact Hb. }
  assert (Hvalid :
    ~ sub_keys_list_header_invalid data ->
    (Z.of_nat (length data) <? 4) = false
    /\ signature_is_known s0 s1 = true
    /\ (Z.of_nat (length data) - 4
        <? n * element_size_of_signature s0 s1) = false).
  { intros Hv. unfold sub_keys_list_header_invalid in Hv.
    fold s0 s1 n in Hv.
    split; [|split].
    - apply Z.ltb_ge. lia.
    - destruct (signature_is_known s0 s1); [reflexivity|].
      exfalso. apply Hv. right. left. reflexivity.
    - apply Z.ltb_ge. lia. }
  split; [|split; [|split]].
  - intros Hinv. rewrite Hr. unfold sub_keys_list_header_invalid in Hinv.
    fold s0 s1 n in Hinv.
    destruct (Z.ltb_spec (Z.of_nat (length data)) 4); [reflexivity|].
    destruct (signature_is_known s0 s1); [|reflexivity].
    cbn [negb].
    destruct (Z.ltb_spec (Z.of_nat (length data) - 4)
                (n * element_size_of_signature s0 s1)); [reflexivity|].
    exfalso. destruct Hinv as [Hd|[Hd|Hd]]; [lia | discriminate | lia].
  - intros Hv Hleaf. destruct (Hvalid Hv) as (E1 & E2 & E3).
    rewrite Hr, E1, E2, E3, Hleaf. cbn [negb].
    rewrite read_sub_keys_list_elements_at_leaf_level.
    + reflexivity.
    + discriminate.
    + apply sub_keys_list_elements_length.
      * unfold signature_at_leaf_level in Hleaf.
        unfold element_size_of_signature.
        destruct (Byte.eqb s0 "r" && Byte.eqb s1 "i"); [left; reflexivity|].
        destruct (Byte.eqb s0 "l"); cbn [andb] in *; [|discriminate].
        destruct (Byte.eqb s1 "i"); [left; reflexivity|].
        cbn [orb] in Hleaf. rewrite Hleaf. right; reflexivity.
      * apply Z.ltb_ge in E1, E3.
        rewrite length_skipn, Nat2Z.inj_sub, Z2Nat.id by lia.
        change (Z.of_nat 4) with 4. lia.
    + exact Hprobe.
  - intros Hv Hleaf Hfatal. destruct (Hvalid Hv) as (E1 & E2 & E3).
    unfold observable in Hfatal. cbn [fst] in Hfatal.
    rewrite Hr, E1, E2, E3, Hleaf in Hfatal. cbn [negb] in Hfatal.
    apply read_sub_keys_list_elements_fatal_is_nested in Hfatal;
      [|exact Hprobe].
    exact Hfatal.
  - intros Hv Hs0 Hs1. destruct (Hvalid Hv) as (E1 & E2 & E3).
    assert (Es : element_size_of_signature s0 s1 = 4)
      by (rewrite Hs0, Hs1; reflexivity).
    assert (El : signature_at_leaf_level s0 s1 = false)
      by (rewrite Hs0, Hs1; reflexivity).
    unfold elements in Hprobe.
    rewrite Es in Hprobe, E3, Hr. rewrite El, E1, E2, E3 in Hr.
    cbn [negb] in Hr.
    exists c'. rewrite Hr.
    apply read_sub_keys_list_elements_at_interior_level; [|exact Hprobe].
    apply sub_keys_list_elements_length; [left; reflexivity|].
    apply Z.ltb_ge in E1, E3.
    rewrite length_skipn, Nat2Z.inj_sub, Z2Nat.id by lia.
    change (Z.of_nat 4) with 4. lia.
Qed.

(** C5, as stated, fails: the walk from the "ri" cell at 400 returns a
    fatal error although the cell has none of the three defects.  In the
    first hive the error comes from the cell at 700, which the walk reaches
    through the element of the cell at 400; in the second hive the element
    is the offset 0, the nested walk turns the offset down before it
    fetches anything, and no cell with a defect is read at all. *)
Lemma C5_fatal_error_without_header_defect :
  (let hive_bins_list :=
     never_evicting (Some 1252) Fixture.ri_over_bad_signature
       (Fixture.index_of Fixture.known_offsets) in
   let data := ["r"; "i"]%byte ++ Fixture.u16 1 ++ Fixture.u32 700 in
   Fixture.ri_over_bad_signature 400 = Some data
   /\ ~ sub_keys_list_header_invalid data
   /\ observable
        (libregf_key_item_read_sub_keys_list 5 hive_bins_list
           Fixture.empty_node tt 400)
      = (Return (-1), Fixture.empty_node))
  /\ (let hive_bins_list :=
        never_evicting (Some 1252) Fixture.ri_over_offset_zero
          (Fixture.index_of (0 :: Fixture.known_offsets)) in
      let data := ["r"; "i"]%byte ++ Fixture.u16 1 ++ Fixture.u32 0 in
      Fixture.ri_over_offset_zero 400 = Some data
      /\ ~ sub_keys_list_header_invalid data
      /\ observable
           (libregf_key_item_read_sub_keys_list 5 hive_bins_list
              Fixture.empty_node tt 400)
         = (Return (-1), Fixture.empty_node)).
Proof.
  cbv zeta. split.
  - split; [reflexivity|]. split; [|vm_compute; reflexivity].
    intros [H|[H|H]]; vm_compute in H; discriminate.
  - split; [reflexivity|]. split; [|vm_compute; reflexivity].
    intros [H|[H|H]]; vm_compute in H; discriminate.
Qed.

(** C5 at the "lf" cell with the elements (500, 0x11) and
    (0xdeadbeef, 0x22): no defect, the walk returns 0 and appends the first
    element; and at the "ri" cell at 400 over the "lh" lists at 700 and 800:
    the walk returns 1 and appends the elements of the two nested lists,
    500 and then 600 with their hashes, and neither 700 nor 800. *)
Lemma C5_sub_keys_list_witness :
  observable
    (libregf_key_item_read_sub_keys_list 1
       (single_slot (Some 1252) Fixture.lf_with_unknown_offset
          (Fixture.index_of Fixture.known_offsets))
       Fixture.empty_node [] 400)
  = (Return 0,
     append_sub_nodes Fixture.empty_node [sub_node_of_element (500, 0x11)])
  /\ observable
       (libregf_key_item_read_sub_keys_list 2
          (single_slot (Some 1252) Fixture.ri_over_two_lh
             (Fixture.index_of Fixture.known_offsets))
          Fixture.empty_node [] 400)
     = (Return 1,
        append_sub_nodes Fixture.empty_node
          [sub_node_of_element (500, 0x11); sub_node_of_element (600, 0x22)]).
Proof.
  split.
  - refine (proj1 (proj2
      (C5_sub_keys_list_header_and_shape
         (single_slot (Some 1252) Fixture.lf_with_unknown_offset
            (Fixture.index_of Fixture.known_offsets))
         Fixture.lf_with_unknown_offset 0%nat Fixture.empty_node [] 400
         (["l"; "f"]%byte ++ Fixture.u16 2
            ++ Fixture.u32 500 ++ Fixture.u32 0x11
            ++ Fixture.u32 0xdeadbeef ++ Fixture.u32 0x22)
         (single_slot_serves _ _ _) _ _ eq_refl _)) _ eq_refl).
    + lia.
    + lia.
    + intros e He. vm_compute in He.
      destruct He as [<-|[<-|[]]]; vm_compute; discriminate.
    + intros [H|[H|H]]; vm_compute in H; discriminate.
  - destruct (proj2 (proj2 (proj2
      (C5_sub_keys_list_header_and_shape
         (single_slot (Some 1252) Fixture.ri_over_two_lh
            (Fixture.index_of Fixture.known_offsets))
         Fixture.ri_over_two_lh 1%nat Fixture.empty_node [] 400
         (["r"; "i"]%byte ++ Fixture.u16 2
            ++ Fixture.u32 700 ++ Fixture.u32 800)
         (single_slot_serves _ _ _) ltac:(lia) ltac:(lia) eq_refl
         ltac:(intros e He; vm_compute in He;
               destruct He as [<-|[<-|[]]]; vm_compute; discriminate))))
      ltac:(intros [H|[H|H]]; vm_compute in H; discriminate)
      eq_refl eq_refl) as (c' & Hr).
    rewrite Hr. vm_compute. reflexivity.
Defined.

(** ** The steps of the load of a key item *)

Ltac break_match_in H :=
  match type of H with
  | context [match ?x with _ => _ end] => destruct x eqn:?
  | context [if ?x then _ else _] => destruct x eqn:?
  end.

Lemma negb_eqb_1_false result : negb (result =? 1) = false -> result = 1.
Proof.
  intros H. apply negb_false_iff in H. apply Z.eqb_eq. exact H.
Qed.

(** What a step that reads the class name or the security key leaves
    alone. *)
Lemma read_class_name_data_keeps k data size r k' :
  libregf_key_item_read_class_name_data k data size = (r, k') ->
  named_key k' = named_key k
  /\ security_descriptor k' = security_descriptor k
  /\ security_descriptor_size k' = security_descriptor_size k
  /\ values_list k' = values_list k
  /\ values_cache k' = values_cache k
  /\ item_flags k' = item_flags k.
Proof.
  unfold libregf_key_item_read_class_name_data. intros H.
  repeat break_match_in H; injection H as <- <-; repeat split.
Qed.

Lemma read_class_name_keeps hive_bins_list k c offset size r k' c' :
  libregf_key_item_read_class_name hive_bins_list k c offset size
  = (r, k', c') ->
  named_key k' = named_key k
  /\ security_descriptor k' = security_descriptor k
  /\ security_descriptor_size k' = security_descriptor_size k
  /\ values_list k' = values_list k
  /\ values_cache k' = values_cache k
  /\ item_flags k' = item_flags k.
Proof.
  unfold libregf_key_item_read_class_name. intros H.
  destruct (class_name k); [injection H as <- <- <-; repeat split|].
  destruct (offset =? 0xffffffff); [injection H as <- <- <-; repeat split|].
  destruct ((offset =? 0) && (size =? 0));
    [injection H as <- <- <-; repeat split|].
  destruct (offset =? 0); [injection H as <- <- <-; repeat split|].
  destruct (libregf_hive_bins_list_get_cell_at_offset hive_bins_list c offset)
    as [[cell|] c1]; [|injection H as <- <- <-; repeat split].
  destruct (libregf_key_item_read_class_name_data k
              (hive_bin_cell_data hive_bins_list c1 cell) size)
    as [r1 k1] eqn:Hdata.
  apply read_class_name_data_keeps in Hdata.
  destruct (negb (r1 =? 1)); injection H as <- <- <-; exact Hdata.
Qed.

(** The class name step, when it returns 1: either nothing is read, or the
    leading bytes of the cell are. *)
Lemma read_class_name_returns_1 hive_bins_list cells k c offset size k' c' :
  serves hive_bins_list cells ->
  0 <= size ->
  libregf_key_item_read_class_name hive_bins_list k c offset size
  = (1, k', c') ->
  class_name k = None
  /\ (((offset = 0xffffffff \/ (offset = 0 /\ size = 0)) /\ k' = k)
      \/ (offset <> 0xffffffff /\ offset <> 0
          /\ exists data,
               cells offset = Some data
               /\ 0 < size <= Z.of_nat (length data)
               /\ k' = set_class_name k
                         (Some (firstn (Z.to_nat size) data)) size)).
Proof.
  intros Hs Hsize. unfold libregf_key_item_read_class_name. intros H.
  destruct (class_name k) eqn:Hcn; [discriminate|].
  split; [reflexivity|].
  destruct (Z.eqb_spec offset 0xffffffff).
  { injection H as <- <-. left. split; [left; assumption|reflexivity]. }
  destruct (Z.eqb_spec offset 0); cbn [andb] in H.
  { destruct (Z.eqb_spec size 0); [|discriminate].
    injection H as <- <-. left. split; [right; split; assumption|reflexivity]. }
  destruct (libregf_hive_bins_list_get_cell_at_offset hive_bins_list c offset)
    as [[cell|] c1] eqn:Hfetch; [|discriminate].
  pose proof (serves_fetch_some _ _ _ _ _ _ Hs Hfetch) as Hcell.
  unfold libregf_key_item_read_class_name_data in H. rewrite Hcn in H.
  set (data := hive_bin_cell_data hive_bins_list c1 cell) in *.
  destruct (Z.of_nat (length data) >? SSIZE_MAX); [discriminate|].
  destruct (Z.eqb_spec size 0); cbn [orb] in H; [discriminate|].
  destruct (Z.gtb_spec size (Z.of_nat (length data))); [discriminate|].
  cbn [negb Z.eqb Pos.eqb] in H. injection H as <- <-.
  right. split; [assumption|]. split; [assumption|].
  exists data. split; [exact Hcell|]. split; [lia|reflexivity].
Qed.

Section Load.

Variable libregf_named_key_read_data :
  list byte -> Z -> Z -> option NamedKey.t.
Variable libregf_security_key_read_data : list byte -> option SecurityKey.t.
Variable libregf_security_key_free : SecurityKey.t -> Z.
Variable LIBREGF_MAXIMUM_CACHE_ENTRIES_VALUES : Z.

Let read_security_key :=
  libregf_key_item_read_security_key libregf_security_key_read_data
    libregf_security_key_free.
Let read_named_key :=
  libregf_key_item_read_named_key libregf_named_key_read_data
    libregf_security_key_read_data libregf_security_key_free
    LIBREGF_MAXIMUM_CACHE_ENTRIES_VALUES.
Let read_node_data :=
  libregf_key_item_read_node_data libregf_named_key_read_data
    libregf_security_key_read_data libregf_security_key_free
    LIBREGF_MAXIMUM_CACHE_ENTRIES_VALUES.

Lemma read_security_key_keeps hive_bins_list k c offset r k' c' :
  read_security_key hive_bins_list k c offset = (r, k', c') ->
  named_key k' = named_key k
  /\ class_name k' = class_name k
  /\ class_name_size k' = class_name_size k
  /\ values_list k' = values_list k
  /\ values_cache k' = values_cache k
  /\ item_flags k' = item_flags k.
Proof.
  unfold read_security_key, libregf_key_item_read_security_key. intros H.
  repeat break_match_in H; injection H as <- <- <-; repeat split.
Qed.

(** The security key step, when it returns 1: the cell was fetched and
    decoded, and the descriptor of the security key is now that of the key
    item. *)
Lemma read_security_key_returns_1 hive_bins_list cells k c offset k' c' :
  serves hive_bins_list cells ->
  read_security_key hive_bins_list k c offset = (1, k', c') ->
  security_descriptor k = None
  /\ offset <> 0 /\ offset <> 0xffffffff
  /\ exists data security_key,
       cells offset = Some data
       /\ libregf_security_key_read_data data = Some security_key
       /\ k' = set_security_descriptor k
                 (SecurityKey.security_descriptor security_key)
                 (SecurityKey.security_descriptor_size security_key).
Proof.
  intros Hs. unfold read_security_key, libregf_key_item_read_security_key.
  intros H.
  destruct (security_descriptor k); [discriminate|].
  destruct (Z.eqb_spec offset 0); [discriminate|].
  destruct (Z.eqb_spec offset 0xffffffff); [discriminate|].
  cbn [orb] in H.
  destruct (libregf_hive_bins_list_get_cell_at_offset hive_bins_list c offset)
    as [[cell|] c1] eqn:Hfetch; [|discriminate].
  pose proof (serves_fetch_some _ _ _ _ _ _ Hs Hfetch) as Hcell.
  destruct (libregf_security_key_read_data
              (hive_bin_cell_data hive_bins_list c1 cell))
    as [security_key|] eqn:Hdecode; [|discriminate].
  destruct (negb (libregf_security_key_free _ =? 1)); [discriminate|].
  injection H as <- <-.
  repeat split; try assumption.
  eexists _, security_key. repeat split; eassumption.
Qed.

(** The security key step fails on the offset 0, on a cell that cannot be
    fetched and on a cell that cannot be decoded. *)
Lemma read_security_key_fails hive_bins_list cells k c offset :
  serves hive_bins_list cells ->
  offset = 0 \/ offset = 0xffffffff
  \/ cells offset = None
  \/ (exists data,
        cells offset = Some data
        /\ libregf_security_key_read_data data = None) ->
  fst (fst (read_security_key hive_bins_list k c offset)) = -1.
Proof.
  intros Hs Hbad.
  unfold read_security_key, libregf_key_item_read_security_key.
  destruct (security_descriptor k); [reflexivity|].
  destruct (Z.eqb_spec offset 0); [reflexivity|].
  destruct (Z.eqb_spec offset 0xffffffff); [reflexivity|].
  cbn [orb].
  destruct (libregf_hive_bins_list_get_cell_at_offset hive_bins_list c offset)
    as [[cell|] c1] eqn:Hfetch; [|reflexivity].
  pose proof (serves_fetch_some _ _ _ _ _ _ Hs Hfetch) as Hcell.
  destruct Hbad as [?|[?|[Hnone|(data & Hdata & Hdecode)]]];
    try contradiction.
  - rewrite Hnone in Hcell. discriminate.
  - rewrite Hdata in Hcell. injection Hcell as <-.
    rewrite Hdecode. reflexivity.
Qed.

(** The loop of the values list, whatever its outcome: it touches the
    values list and the flags only, and it sets the corrupted flag only for
    an offset that lies in no bin. *)
Lemma read_values_list_elements_any hive_bins_list :
  forall (m : nat) data n i k o k',
    n - i <= Z.of_nat m ->
    read_values_list_elements hive_bins_list data n i k = (o, k') ->
    same_key_data k k'
    /\ (item_flags k' = item_flags k
        \/ (item_flags k'
            = Z.lor (item_flags k) LIBREGF_KEY_ITEM_FLAG_IS_CORRUPTED
            /\ exists e,
                 In e (uint32_elements (Z.to_nat (n - i)) data)
                 /\ libregf_hive_bins_list_get_index_at_offset
                      hive_bins_list e = 0)).
Proof.
  induction m as [|m IH]; intros data n i k o k' Hm H.
  - rewrite read_values_list_elements_done in H by lia.
    injection H as <- <-. split; [apply same_key_data_refl|left; reflexivity].
  - destruct (Z.ltb_spec i n) as [Hlt|Hge].
    2:{ rewrite read_values_list_elements_done in H by lia.
        injection H as <- <-.
        split; [apply same_key_data_refl|left; reflexivity]. }
    replace (Z.to_nat (n - i)) with (S (Z.to_nat (n - (i + 1)))) by lia.
    destruct data as [|b0 [|b1 [|b2 [|b3 data]]]];
      cbn [read_values_list_elements] in H;
      destruct (Z.ltb_spec i n); try lia;
      try (injection H as <- <-;
           split; [apply same_key_data_refl|left; reflexivity]).
    cbn [uint32_elements].
    set (e := byte_stream_copy_to_uint32_little_endian b0 b1 b2 b3) in *.
    destruct (libregf_hive_bins_list_get_index_at_offset hive_bins_list e
              =? -1).
    { injection H as <- <-.
      split; [apply same_key_data_refl|left; reflexivity]. }
    destruct (Z.eqb_spec
                (libregf_hive_bins_list_get_index_at_offset hive_bins_list e)
                0) as [Hz|Hz].
    + apply IH in H; [|lia]. destruct H as [Hsame Hflags].
      split.
      * eapply same_key_data_trans; [|exact Hsame]. repeat split.
      * right. split.
        -- destruct Hflags as [Hf|[Hf _]]; rewrite Hf;
             unfold mark_corrupted; cbn [item_flags set_item_flags];
             [reflexivity|apply lor_corrupted_twice].
        -- exists e. split; [left; reflexivity|exact Hz].
    + destruct (libfdata_list_append_element (values_list k) 0 e 0 0)
        as [values|].
      2:{ injection H as <- <-.
          split; [apply same_key_data_refl|left; reflexivity]. }
      apply IH in H; [|lia]. destruct H as [Hsame Hflags].
      split.
      * eapply same_key_data_trans; [|exact Hsame]. repeat split.
      * destruct Hflags as [Hf|(Hf & e' & Hin & He')].
        -- left. exact Hf.
        -- right. split; [exact Hf|].
           exists e'. split; [right; exact Hin|exact He'].
Qed.

Lemma read_values_list_any hive_bins_list k c offset n o k' c' :
  libregf_key_item_read_values_list hive_bins_list k c offset n
  = (o, k', c') ->
  same_key_data k k'
  /\ (item_flags k' = item_flags k
      \/ (item_flags k'
          = Z.lor (item_flags k) LIBREGF_KEY_ITEM_FLAG_IS_CORRUPTED
          /\ exists cell c1 e,
               libregf_hive_bins_list_get_cell_at_offset hive_bins_list c
                 offset = (Some cell, c1)
               /\ In e (uint32_elements (Z.to_nat n)
                          (hive_bin_cell_data hive_bins_list c1 cell))
               /\ libregf_hive_bins_list_get_index_at_offset
                    hive_bins_list e = 0)).
Proof.
  unfold libregf_key_item_read_values_list. intros H.
  destruct (n =? 0);
    [injection H as <- <- <-;
     split; [apply same_key_data_refl|left; reflexivity]|].
  destruct ((offset =? 0) || (offset =? 0xffffffff));
    [injection H as <- <- <-;
     split; [apply same_key_data_refl|left; reflexivity]|].
  destruct (libregf_hive_bins_list_get_cell_at_offset hive_bins_list c offset)
    as [[cell|] c1] eqn:Hfetch;
    [|injection H as <- <- <-;
      split; [apply same_key_data_refl|left; reflexivity]].
  cbv zeta in H.
  destruct (_ <? _);
    [injection H as <- <- <-;
     split; [apply same_key_data_refl|left; reflexivity]|].
  destruct (read_values_list_elements hive_bins_list
              (hive_bin_cell_data hive_bins_list c1 cell) n 0 k)
    as [o1 k1] eqn:Hloop.
  injection H as <- <- <-.
  apply (read_values_list_elements_any hive_bins_list (Z.to_nat n)) in Hloop;
    [|lia].
  destruct Hloop as [Hsame Hflags]. split; [exact Hsame|].
  destruct Hflags as [Hf|(Hf & e & Hin & He)]; [left; exact Hf|].
  right. split; [exact Hf|].
  exists cell, c1, e. rewrite Z.sub_0_r in Hin. auto.
Qed.

(** The load of the named key, when it returns 1, step by step: [k2] is the
    key item after the class name, [k3] after the security key, [k4] after
    the sub keys. *)
Lemma read_named_key_returns_1 hive_bins_list k node c offset hash
    k' node' c' :
  read_named_key hive_bins_list k node c offset hash
  = (Return 1, k', node', c') ->
  exists ascii_codepage cell c1 nk k2 c2 k3 c3 k4,
    named_key k = None
    /\ io_handle hive_bins_list = Some ascii_codepage
    /\ offset <> 0 /\ offset < 0xffffffff
    /\ libregf_hive_bins_list_get_cell_at_offset hive_bins_list c
         (uint32 offset) = (Some cell, c1)
    /\ libregf_named_key_read_data
         (hive_bin_cell_data hive_bins_list c1 cell) hash ascii_codepage
       = Some nk
    /\ libregf_key_item_read_class_name hive_bins_list
         (set_named_key k (Some nk)) c1
         (NamedKey.class_name_offset nk) (NamedKey.class_name_size nk)
       = (1, k2, c2)
    /\ ((NamedKey.security_key_offset nk = 0xffffffff /\ k3 = k2 /\ c3 = c2)
        \/ (NamedKey.security_key_offset nk <> 0xffffffff
            /\ read_security_key hive_bins_list k2 c2
                 (NamedKey.security_key_offset nk) = (1, k3, c3)))
    /\ ((0 < NamedKey.number_of_sub_keys nk
         /\ sub_nodes_data_range node = None
         /\ libregf_hive_bins_list_get_index_at_offset hive_bins_list
              (NamedKey.sub_keys_list_offset nk) = 0
         /\ k4 = mark_corrupted k3 /\ node' = node)
        \/ (0 < NamedKey.number_of_sub_keys nk
            /\ sub_nodes_data_range node = None
            /\ libregf_hive_bins_list_get_index_at_offset hive_bins_list
                 (NamedKey.sub_keys_list_offset nk) <> 0
            /\ libregf_hive_bins_list_get_index_at_offset hive_bins_list
                 (NamedKey.sub_keys_list_offset nk) <> -1
            /\ k4 = k3
            /\ node' = libfdata_tree_node_set_sub_nodes_data_range node 0
                         (NamedKey.sub_keys_list_offset nk) 0 0)
        \/ ((NamedKey.number_of_sub_keys nk <= 0
             \/ sub_nodes_data_range node <> None)
            /\ k4 = k3 /\ node' = node))
    /\ values_list k4 = None /\ values_cache k4 = None
    /\ libregf_hive_bins_list_get_index_at_offset hive_bins_list
         (NamedKey.values_list_offset nk) <> -1
    /\ ((libregf_hive_bins_list_get_index_at_offset hive_bins_list
           (NamedKey.values_list_offset nk) = 0
         /\ k' = mark_corrupted
                   (set_values_cache (set_values_list k4 (Some []))
                      (Some LIBREGF_MAXIMUM_CACHE_ENTRIES_VALUES))
         /\ c' = c3)
        \/ (libregf_hive_bins_list_get_index_at_offset hive_bins_list
              (NamedKey.values_list_offset nk) <> 0
            /\ libregf_key_item_read_values_list hive_bins_list
                 (set_values_cache (set_values_list k4 (Some []))
                    (Some LIBREGF_MAXIMUM_CACHE_ENTRIES_VALUES))
                 c3 (NamedKey.values_list_offset nk)
                 (NamedKey.number_of_values nk)
               = (Return 1, k', c'))).
Proof.
  unfold read_named_key, libregf_key_item_read_named_key. intros H.
  destruct (named_key k) eqn:Hnk; [discriminate|].
  destruct (io_handle hive_bins_list) as [cp|] eqn:Hio; [|discriminate].
  destruct (Z.eqb_spec offset 0); [discriminate|].
  destruct (Z.geb_spec offset 0xffffffff); [discriminate|].
  cbn [orb] in H.
  destruct (libregf_hive_bins_list_get_cell_at_offset hive_bins_list c
              (uint32 offset)) as [[cell|] c1] eqn:Hfetch; [|discriminate].
  destruct (libregf_named_key_read_data _ hash cp) as [nk|] eqn:Hdecode;
    [|discriminate].
  cbv zeta in H.
  destruct (libregf_key_item_read_class_name hive_bins_list
              (set_named_key k (Some nk)) c1 (NamedKey.class_name_offset nk)
              (NamedKey.class_name_size nk)) as [[r2 k2] c2] eqn:Hcls.
  destruct (negb (r2 =? 1)) eqn:Hr2; [discriminate|].
  apply negb_eqb_1_false in Hr2. subst r2.
  destruct (if negb (NamedKey.security_key_offset nk =? 0xffffffff)
            then
              libregf_key_item_read_security_key
                libregf_security_key_read_data libregf_security_key_free
                hive_bins_list k2 c2 (NamedKey.security_key_offset nk)
            else (1, k2, c2)) as [[r3 k3] c3] eqn:Hsec.
  destruct (negb (r3 =? 1)) eqn:Hr3; [discriminate|].
  apply negb_eqb_1_false in Hr3. subst r3.
  assert (Hsec' :
    (NamedKey.security_key_offset nk = 0xffffffff /\ k3 = k2 /\ c3 = c2)
    \/ (NamedKey.security_key_offset nk <> 0xffffffff
        /\ read_security_key hive_bins_list k2 c2
             (NamedKey.security_key_offset nk) = (1, k3, c3))).
  { destruct (Z.eqb_spec (NamedKey.security_key_offset nk) 0xffffffff);
      cbn [negb] in Hsec.
    - injection Hsec as <- <-. left. auto.
    - right. split; [assumption|exact Hsec]. }
  clear Hsec.
  match type of H with
  | match ?e with _ => _ end = _ =>
      destruct e as [[k4 node4]|] eqn:Hsub; [|discriminate]
  end.
  assert (Hsub' :
    (0 < NamedKey.number_of_sub_keys nk
     /\ sub_nodes_data_range node = None
     /\ libregf_hive_bins_list_get_index_at_offset hive_bins_list
          (NamedKey.sub_keys_list_offset nk) = 0
     /\ k4 = mark_corrupted k3 /\ node4 = node)
    \/ (0 < NamedKey.number_of_sub_keys nk
        /\ sub_nodes_data_range node = None
        /\ libregf_hive_bins_list_get_index_at_offset hive_bins_list
             (NamedKey.sub_keys_list_offset nk) <> 0
        /\ libregf_hive_bins_list_get_index_at_offset hive_bins_list
             (NamedKey.sub_keys_list_offset nk) <> -1
        /\ k4 = k3
        /\ node4 = libfdata_tree_node_set_sub_nodes_data_range node 0
                     (NamedKey.sub_keys_list_offset nk) 0 0)
    \/ ((NamedKey.number_of_sub_keys nk <= 0
         \/ sub_nodes_data_range node <> None)
        /\ k4 = k3 /\ node4 = node)).
  { destruct (Z.gtb_spec (NamedKey.number_of_sub_keys nk) 0).
    2:{ injection Hsub as <- <-. right. right. split; [left; lia|auto]. }
    unfold libfdata_tree_node_sub_nodes_data_range_is_set in Hsub.
    destruct (sub_nodes_data_range node) eqn:Hrange; cbn in Hsub.
    { injection Hsub as <- <-. right. right.
      split; [right; discriminate|auto]. }
    destruct (Z.eqb_spec
                (libregf_hive_bins_list_get_index_at_offset hive_bins_list
                   (NamedKey.sub_keys_list_offset nk)) (-1));
      [discriminate|].
    destruct (Z.eqb_spec
                (libregf_hive_bins_list_get_index_at_offset hive_bins_list
                   (NamedKey.sub_keys_list_offset nk)) 0);
      injection Hsub as <- <-.
    - left. repeat split; auto; lia.
    - right. left. repeat split; auto; lia. }
  clear Hsub.
  unfold libfdata_list_initialize in H.
  destruct (values_list k4) eqn:Hvl; [discriminate|].
  unfold libfcache_cache_initialize in H.
  cbn [values_cache set_values_list] in H.
  destruct (values_cache k4) eqn:Hvc; [discriminate|].
  destruct (Z.eqb_spec
              (libregf_hive_bins_list_get_index_at_offset hive_bins_list
                 (NamedKey.values_list_offset nk)) (-1)) as [|Hv1];
    [discriminate|].
  exists cp, cell, c1, nk, k2, c2, k3, c3, k4.
  destruct (Z.eqb_spec
              (libregf_hive_bins_list_get_index_at_offset hive_bins_list
                 (NamedKey.values_list_offset nk)) 0) as [Hv0|Hv0].
  - injection H as <- <- <-.
    repeat (split; [first [assumption | reflexivity | lia]|]).
    left. auto.
  - destruct (libregf_key_item_read_values_list hive_bins_list _ c3
                (NamedKey.values_list_offset nk)
                (NamedKey.number_of_values nk)) as [[o5 k5] c5] eqn:Hvalues.
    destruct o5 as [r5| |]; try discriminate.
    destruct (negb (r5 =? 1)) eqn:Hr5; [discriminate|].
    apply negb_eqb_1_false in Hr5. subst r5.
    injection H as <- <- <-.
    repeat (split; [first [assumption | reflexivity | lia]|]).
    right. split; [assumption|reflexivity].
Qed.

Lemma lor_corrupted_testbit f :
  Z.testbit (Z.lor f LIBREGF_KEY_ITEM_FLAG_IS_CORRUPTED) 0 = true.
Proof. rewrite Z.lor_spec. apply orb_true_r. Qed.

(** The load of a key item, when it returns 1: what the key item [k] of the
    node holds, step by step.  [k2] is the key item after the class name
    step and [k3] the one after the security key step. *)
Lemma read_node_data_returns_1 hive_bins_list cells node c
    node_data_offset node_data_size node' c' :
  serves hive_bins_list cells ->
  read_node_data hive_bins_list node c node_data_offset node_data_size
  = (Return 1, node', c') ->
  exists nk k k2 k3,
    node_data_accepted node_data_offset node_data_size
    /\ decoded_named_key libregf_named_key_read_data hive_bins_list cells
         node_data_offset node_data_size = Some nk
    /\ node_value node' = Some k
    /\ sub_nodes node' = sub_nodes node
    /\ named_key k = Some nk
    /\ (exists c1 c2,
          libregf_key_item_read_class_name hive_bins_list
            (set_named_key zeroed_key_item (Some nk)) c1
            (NamedKey.class_name_offset nk) (NamedKey.class_name_size nk)
          = (1, k2, c2))
    /\ class_name k = class_name k2
    /\ class_name_size k = class_name_size k2
    /\ ((NamedKey.security_key_offset nk = 0xffffffff /\ k3 = k2)
        \/ (NamedKey.security_key_offset nk <> 0xffffffff
            /\ exists c2 c3,
                 read_security_key hive_bins_list k2 c2
                   (NamedKey.security_key_offset nk) = (1, k3, c3)))
    /\ security_descriptor k2 = None
    /\ security_descriptor k = security_descriptor k3
    /\ security_descriptor_size k = security_descriptor_size k3
    /\ ((0 < NamedKey.number_of_sub_keys nk
         /\ sub_nodes_data_range node = None
         /\ libregf_hive_bins_list_get_index_at_offset hive_bins_list
              (NamedKey.sub_keys_list_offset nk) = 0
         /\ is_corrupted k = true
         /\ sub_nodes_data_range node' = None)
        \/ (0 < NamedKey.number_of_sub_keys nk
            /\ sub_nodes_data_range node = None
            /\ libregf_hive_bins_list_get_index_at_offset hive_bins_list
                 (NamedKey.sub_keys_list_offset nk) <> 0
            /\ sub_nodes_data_range node'
               = Some {| range_file_index := 0;
                         range_offset := NamedKey.sub_keys_list_offset nk;
                         range_size := 0; range_flags := 0 |})
        \/ ((NamedKey.number_of_sub_keys nk <= 0
             \/ sub_nodes_data_range node <> None)
            /\ sub_nodes_data_range node' = sub_nodes_data_range node))
    /\ ((libregf_hive_bins_list_get_index_at_offset hive_bins_list
           (NamedKey.values_list_offset nk) = 0
         /\ values_list k = Some [] /\ is_corrupted k = true)
        \/ (libregf_hive_bins_list_get_index_at_offset hive_bins_list
              (NamedKey.values_list_offset nk) <> 0
            /\ libregf_hive_bins_list_get_index_at_offset hive_bins_list
                 (NamedKey.values_list_offset nk) <> -1
            /\ exists k5 c3,
                 values_list k5 = Some []
                 /\ libregf_key_item_read_values_list hive_bins_list k5 c3
                      (NamedKey.values_list_offset nk)
                      (NamedKey.number_of_values nk)
                    = (Return 1, k, c')))
    /\ (is_corrupted k = true ->
        (0 < NamedKey.number_of_sub_keys nk
         /\ sub_nodes_data_range node = None
         /\ libregf_hive_bins_list_get_index_at_offset hive_bins_list
              (NamedKey.sub_keys_list_offset nk) = 0)
        \/ libregf_hive_bins_list_get_index_at_offset hive_bins_list
             (NamedKey.values_list_offset nk) = 0
        \/ exists data e,
             cells (NamedKey.values_list_offset nk) = Some data
             /\ In e (uint32_elements
                        (Z.to_nat (NamedKey.number_of_values nk)) data)
             /\ libregf_hive_bins_list_get_index_at_offset hive_bins_list e
                = 0).
Proof.
  intros Hs. unfold read_node_data, libregf_key_item_read_node_data.
  cbn [libregf_key_item_initialize]. intros H.
  destruct (Z.gtb_spec node_data_size UINT32_MAX) as [|Hsize];
    [discriminate|].
  destruct (libregf_key_item_read_named_key _ _ _ _ hive_bins_list
              zeroed_key_item node c node_data_offset
              (uint32 node_data_size)) as [[[o k] node1] c1] eqn:Hload.
  destruct o as [r| |]; try discriminate.
  destruct (negb (r =? 1)) eqn:Hr; [discriminate|].
  apply negb_eqb_1_false in Hr. subst r.
  injection H as <- <-.
  apply read_named_key_returns_1 in Hload.
  destruct Hload as (cp & cell & c1' & nk & k2 & c2 & k3 & c3 & k4
                     & _ & Hio & Hoff0 & Hoff & Hfetch & Hdecode & Hcls
                     & Hsec & Hsub & Hvl & Hvc & Hv1 & Hvalues).
  pose proof (serves_fetch_some _ _ _ _ _ _ Hs Hfetch) as Hcell.
  pose proof (read_class_name_keeps _ _ _ _ _ _ _ _ Hcls)
    as (Hc1 & Hc2 & Hc3 & Hc4 & Hc5 & Hc6).
  cbn [named_key security_descriptor security_descriptor_size values_list
       values_cache item_flags set_named_key zeroed_key_item] in Hc1, Hc2, Hc3,
    Hc4, Hc5, Hc6.
  (* the key item after the security key *)
  assert (Hk3 : named_key k3 = Some nk /\ class_name k3 = class_name k2
                /\ class_name_size k3 = class_name_size k2
                /\ item_flags k3 = 0).
  { destruct Hsec as [(_ & -> & _)|(_ & Hsec)]; [auto|].
    apply read_security_key_keeps in Hsec.
    destruct Hsec as (? & ? & ? & ? & ? & ?).
    repeat split; congruence. }
  destruct Hk3 as (Hn3 & Hcn3 & Hcs3 & Hf3).
  (* the key item after the sub keys *)
  assert (Hk4 : named_key k4 = Some nk /\ class_name k4 = class_name k2
                /\ class_name_size k4 = class_name_size k2
                /\ security_descriptor k4 = security_descriptor k3
                /\ security_descriptor_size k4 = security_descriptor_size k3
                /\ (item_flags k4 = 0
                    \/ (item_flags k4 = LIBREGF_KEY_ITEM_FLAG_IS_CORRUPTED
                        /\ 0 < NamedKey.number_of_sub_keys nk
                        /\ sub_nodes_data_range node = None
                        /\ libregf_hive_bins_list_get_index_at_offset
                             hive_bins_list
                             (NamedKey.sub_keys_list_offset nk) = 0))).
  { destruct Hsub as [(? & ? & ? & -> & _)|[(_ & _ & _ & _ & -> & _)
                                           |(_ & -> & _)]];
      unfold mark_corrupted;
      cbn [named_key class_name class_name_size security_descriptor
           security_descriptor_size item_flags set_item_flags];
      repeat (split; [assumption || reflexivity|]); auto.
    right. rewrite Hf3. auto. }
  destruct Hk4 as (Hn4 & Hcn4 & Hcs4 & Hsd4 & Hss4 & Hf4).
  set (k5 := set_values_cache (set_values_list k4 (Some []))
               (Some LIBREGF_MAXIMUM_CACHE_ENTRIES_VALUES)) in *.
  (* the key item at the end *)
  assert (Hk : named_key k = Some nk /\ class_name k = class_name k2
               /\ class_name_size k = class_name_size k2
               /\ security_descriptor k = security_descriptor k3
               /\ security_descriptor_size k = security_descriptor_size k3).
  { destruct Hvalues as [(_ & -> & _)|(_ & Hvalues)].
    - unfold mark_corrupted, k5.
      cbn [named_key class_name class_name_size security_descriptor
           security_descriptor_size set_item_flags set_values_cache
           set_values_list].
      repeat split; assumption.
    - apply read_values_list_any in Hvalues.
      destruct Hvalues as ((E1 & E2 & E3 & E4 & E5 & _) & _).
      unfold k5 in *.
      cbn [named_key class_name class_name_size security_descriptor
           security_descriptor_size set_values_cache set_values_list]
        in E1, E2, E3, E4, E5.
      repeat split; congruence. }
  destruct Hk as (Hn & Hcn & Hcs & Hsd & Hss).
  (* the flags at the end *)
  assert (Hflags :
    (item_flags k = item_flags k4
     \/ item_flags k
        = Z.lor (item_flags k4) LIBREGF_KEY_ITEM_FLAG_IS_CORRUPTED)
    /\ (item_flags k = item_flags k4
        \/ libregf_hive_bins_list_get_index_at_offset hive_bins_list
             (NamedKey.values_list_offset nk) = 0
        \/ exists data e,
             cells (NamedKey.values_list_offset nk) = Some data
             /\ In e (uint32_elements
                        (Z.to_nat (NamedKey.number_of_values nk)) data)
             /\ libregf_hive_bins_list_get_index_at_offset hive_bins_list e
                = 0)).
  { destruct Hvalues as [(Hz & -> & _)|(_ & Hvalues)].
    - split; [right; reflexivity|right; left; exact Hz].
    - apply read_values_list_any in Hvalues.
      destruct Hvalues as (_ & [Hf|(Hf & cell5 & c5 & e & Hfetch5 & Hin & He)]).
      + split; left; exact Hf.
      + split; [right; exact Hf|]. right. right.
        pose proof (serves_fetch_some _ _ _ _ _ _ Hs Hfetch5) as Hcell5.
        eexists _, e. eauto. }
  destruct Hflags as (Hfl1 & Hfl2).
  exists nk, k, k2, k3.
  split; [unfold node_data_accepted; lia|].
  split.
  { unfold decoded_named_key. rewrite Hio, Hcell. exact Hdecode. }
  split; [reflexivity|].
  split.
  { destruct Hsub as [(_ & _ & _ & _ & ->)|[(_ & _ & _ & _ & _ & ->)
                                          |(_ & _ & ->)]]; reflexivity. }
  split; [exact Hn|].
  split; [eauto|].
  split; [exact Hcn|]. split; [exact Hcs|].
  split.
  { destruct Hsec as [(? & ? & _)|(? & ?)]; [left; auto|right; eauto]. }
  split; [exact Hc2|].
  split; [exact Hsd|]. split; [exact Hss|].
  split.
  { destruct Hsub as [(? & ? & ? & Hk4 & ->)|[(? & ? & ? & ? & _ & ->)
                                             |(? & _ & ->)]].
    - left. repeat split; try assumption.
      unfold is_corrupted.
      assert (E : item_flags k4
                  = Z.lor (item_flags k3) LIBREGF_KEY_ITEM_FLAG_IS_CORRUPTED)
        by (rewrite Hk4; reflexivity).
      destruct Hfl1 as [-> | ->]; rewrite E.
      + apply lor_corrupted_testbit.
      + apply lor_corrupted_testbit.
    - right. left. repeat split; assumption.
    - right. right. split; [assumption|reflexivity]. }
  split.
  { destruct Hvalues as [(Hz & -> & _)|(Hnz & Hvalues)].
    - left. split; [exact Hz|]. split; [reflexivity|].
      apply mark_corrupted_is_corrupted.
    - right. split; [exact Hnz|]. split; [exact Hv1|].
      exists k5, c3. split; [reflexivity|exact Hvalues]. }
  intros Hcorrupted. unfold is_corrupted in Hcorrupted.
  destruct Hf4 as [Hf4|(Hf4 & ? & ? & ?)]; [|left; auto].
  destruct Hfl2 as [Hf|[Hz|Helem]].
  - rewrite Hf, Hf4 in Hcorrupted. discriminate.
  - right. left. exact Hz.
  - right. right. exact Helem.
Qed.

(** The named key that the load decodes is the one that the decoder gives
    for the cell that the store fetches. *)
Lemma decoded_named_key_fetched hive_bins_list cells offset size nk :
  serves hive_bins_list cells ->
  decoded_named_key libregf_named_key_read_data hive_bins_list cells
    offset size = Some nk ->
  forall c,
    exists ascii_codepage cell c1,
      io_handle hive_bins_list = Some ascii_codepage
      /\ libregf_hive_bins_list_get_cell_at_offset hive_bins_list c
           (uint32 offset) = (Some cell, c1)
      /\ libregf_named_key_read_data
           (hive_bin_cell_data hive_bins_list c1 cell) (uint32 size)
           ascii_codepage = Some nk.
Proof.
  intros Hs Hd c. unfold decoded_named_key in Hd.
  destruct (io_handle hive_bins_list) as [cp|]; [|discriminate].
  destruct (cells (uint32 offset)) as [data|] eqn:Hcell; [|discriminate].
  destruct (libregf_hive_bins_list_get_cell_at_offset hive_bins_list c
              (uint32 offset)) as [[cell|] c1] eqn:Hfetch.
  - pose proof (serves_fetch_some _ _ _ _ _ _ Hs Hfetch) as Hcell'.
    rewrite Hcell in Hcell'. injection Hcell' as ->.
    exists cp, cell, c1. auto.
  - rewrite (serves_fetch_none _ _ _ _ _ Hs Hfetch) in Hcell. discriminate.
Qed.

(** The class name step goes through under [class_name_loads]. *)
Lemma read_class_name_loads hive_bins_list cells k c nk :
  serves hive_bins_list cells ->
  class_name k = None ->
  class_name_loads cells nk ->
  exists k2 c2,
    libregf_key_item_read_class_name hive_bins_list k c
      (NamedKey.class_name_offset nk) (NamedKey.class_name_size nk)
    = (1, k2, c2).
Proof.
  intros Hs Hcn Hloads. unfold libregf_key_item_read_class_name.
  rewrite Hcn. unfold class_name_loads in Hloads. cbv zeta in Hloads.
  destruct (Z.eqb_spec (NamedKey.class_name_offset nk) 0xffffffff);
    [eauto|].
  destruct Hloads as [?|[(H0 & Hz)|(H0 & _ & data & Hcell & Hsize & Hmax)]];
    [contradiction| |].
  - rewrite H0, Hz. cbn. eauto.
  - destruct (Z.eqb_spec (NamedKey.class_name_offset nk) 0); [contradiction|].
    cbn [andb].
    destruct (libregf_hive_bins_list_get_cell_at_offset hive_bins_list c
                (NamedKey.class_name_offset nk)) as [[cell|] c1] eqn:Hfetch.
    2:{ rewrite (serves_fetch_none _ _ _ _ _ Hs Hfetch) in Hcell.
        discriminate. }
    pose proof (serves_fetch_some _ _ _ _ _ _ Hs Hfetch) as Hcell'.
    rewrite Hcell in Hcell'. injection Hcell' as <-.
    unfold libregf_key_item_read_class_name_data. rewrite Hcn.
    destruct (Z.gtb_spec (Z.of_nat (length data)) SSIZE_MAX); [lia|].
    destruct (Z.eqb_spec (NamedKey.class_name_size nk) 0); [lia|].
    destruct (Z.gtb_spec (NamedKey.class_name_size nk)
                (Z.of_nat (length data))); [lia|].
    cbn. eauto.
Qed.

(** The load fails when the class name step does. *)
Lemma read_named_key_class_name_fails hive_bins_list k node c offset hash
    ascii_codepage cell c1 nk :
  named_key k = None ->
  io_handle hive_bins_list = Some ascii_codepage ->
  offset <> 0 -> offset < 0xffffffff ->
  libregf_hive_bins_list_get_cell_at_offset hive_bins_list c (uint32 offset)
  = (Some cell, c1) ->
  libregf_named_key_read_data (hive_bin_cell_data hive_bins_list c1 cell)
    hash ascii_codepage = Some nk ->
  fst (fst (libregf_key_item_read_class_name hive_bins_list
              (set_named_key k (Some nk)) c1
              (NamedKey.class_name_offset nk) (NamedKey.class_name_size nk)))
  <> 1 ->
  fst (fst (fst (read_named_key hive_bins_list k node c offset hash)))
  = Return (-1).
Proof.
  intros Hnk Hio H0 Hoff Hfetch Hdecode Hcls.
  unfold read_named_key, libregf_key_item_read_named_key.
  rewrite Hnk, Hio.
  destruct (Z.eqb_spec offset 0); [contradiction|].
  destruct (Z.geb_spec offset 0xffffffff); [lia|].
  cbn [orb]. rewrite Hfetch, Hdecode. cbv zeta.
  destruct (libregf_key_item_read_class_name hive_bins_list
              (set_named_key k (Some nk)) c1 (NamedKey.class_name_offset nk)
              (NamedKey.class_name_size nk)) as [[r2 k2] c2].
  cbn [fst] in Hcls.
  destruct (Z.eqb_spec r2 1); [contradiction|]. reflexivity.
Qed.

(** The load fails when the security key step does. *)
Lemma read_named_key_security_key_fails hive_bins_list k node c offset hash
    ascii_codepage cell c1 nk k2 c2 :
  named_key k = None ->
  io_handle hive_bins_list = Some ascii_codepage ->
  offset <> 0 -> offset < 0xffffffff ->
  libregf_hive_bins_list_get_cell_at_offset hive_bins_list c (uint32 offset)
  = (Some cell, c1) ->
  libregf_named_key_read_data (hive_bin_cell_data hive_bins_list c1 cell)
    hash ascii_codepage = Some nk ->
  libregf_key_item_read_class_name hive_bins_list
    (set_named_key k (Some nk)) c1
    (NamedKey.class_name_offset nk) (NamedKey.class_name_size nk)
  = (1, k2, c2) ->
  NamedKey.security_key_offset nk <> 0xffffffff ->
  fst (fst (read_security_key hive_bins_list k2 c2
              (NamedKey.security_key_offset nk))) <> 1 ->
  fst (fst (fst (read_named_key hive_bins_list k node c offset hash)))
  = Return (-1).
Proof.
  intros Hnk Hio H0 Hoff Hfetch Hdecode Hcls Hsec Hfail.
  unfold read_named_key, libregf_key_item_read_named_key.
  rewrite Hnk, Hio.
  destruct (Z.eqb_spec offset 0); [contradiction|].
  destruct (Z.geb_spec offset 0xffffffff); [lia|].
  cbn [orb]. rewrite Hfetch, Hdecode. cbv zeta. rewrite Hcls.
  cbn [Z.eqb Pos.eqb negb].
  destruct (Z.eqb_spec (NamedKey.security_key_offset nk) 0xffffffff);
    [contradiction|].
  cbn [negb].
  fold (read_security_key hive_bins_list k2 c2
          (NamedKey.security_key_offset nk)).
  destruct (read_security_key hive_bins_list k2 c2
              (NamedKey.security_key_offset nk)) as [[r3 k3] c3].
  cbn [fst] in Hfail.
  destruct (Z.eqb_spec r3 1); [contradiction|]. reflexivity.
Qed.

(** The load of a key without security key returns 1 when the other steps
    go through. *)
Lemma read_named_key_loads_without_security_key hive_bins_list cells k node c
    offset hash ascii_codepage cell c1 nk :
  serves hive_bins_list cells ->
  named_key k = None -> class_name k = None ->
  values_list k = None -> values_cache k = None ->
  io_handle hive_bins_list = Some ascii_codepage ->
  offset <> 0 -> offset < 0xffffffff ->
  libregf_hive_bins_list_get_cell_at_offset hive_bins_list c (uint32 offset)
  = (Some cell, c1) ->
  libregf_named_key_read_data (hive_bin_cell_data hive_bins_list c1 cell)
    hash ascii_codepage = Some nk ->
  NamedKey.security_key_offset nk = 0xffffffff ->
  class_name_loads cells nk ->
  sub_keys_step_passes hive_bins_list node nk ->
  values_list_loads hive_bins_list cells nk ->
  exists k' node' c',
    read_named_key hive_bins_list k node c offset hash
    = (Return 1, k', node', c').
Proof.
  intros Hs Hnk Hcn Hvl Hvc Hio H0 Hoff Hfetch Hdecode Hsec Hclass Hsub
    Hvalues.
  unfold read_named_key, libregf_key_item_read_named_key.
  rewrite Hnk, Hio.
  destruct (Z.eqb_spec offset 0); [contradiction|].
  destruct (Z.geb_spec offset 0xffffffff); [lia|].
  cbn [orb]. rewrite Hfetch, Hdecode. cbv zeta.
  destruct (read_class_name_loads hive_bins_list cells
              (set_named_key k (Some nk)) c1 nk Hs Hcn Hclass)
    as (k2 & c2 & Hcls).
  rewrite Hcls. cbn [Z.eqb Pos.eqb negb].
  rewrite Hsec. cbn [Z.eqb Pos.eqb negb].
  pose proof (read_class_name_keeps _ _ _ _ _ _ _ _ Hcls)
    as (_ & _ & _ & Hvl2 & Hvc2 & _).
  cbn [values_list values_cache set_named_key] in Hvl2, Hvc2.
  rewrite Hvl in Hvl2. rewrite Hvc in Hvc2.
  match goal with
  | |- exists _ _ _, match ?e with Some _ => _ | None => _ end = _ =>
      assert (Hstep : exists k4 node4,
                e = Some (k4, node4)
                /\ values_list k4 = None /\ values_cache k4 = None)
  end.
  { destruct (NamedKey.number_of_sub_keys nk >? 0) eqn:Hn; [|eauto].
    unfold libfdata_tree_node_sub_nodes_data_range_is_set.
    destruct (sub_nodes_data_range node) eqn:Hrange; cbn; [eauto|].
    destruct (Z.eqb_spec
                (libregf_hive_bins_list_get_index_at_offset hive_bins_list
                   (NamedKey.sub_keys_list_offset nk)) (-1)) as [Hm|].
    - exfalso. destruct Hsub as [Hle|[Hset|Hp]].
      + apply Z.gtb_lt in Hn. lia.
      + apply Hset. exact Hrange.
      + apply Hp. exact Hm.
    - destruct (_ =? 0); eauto. }
  destruct Hstep as (k4 & node4 & -> & Hvl4 & Hvc4).
  unfold libfdata_list_initialize. rewrite Hvl4.
  unfold libfcache_cache_initialize.
  change (values_cache (set_values_list k4 (Some []))) with (values_cache k4).
  rewrite Hvc4.
  unfold values_list_loads in Hvalues. cbv zeta in Hvalues.
  destruct Hvalues as [Hz|(Hm & Hn)].
  { rewrite Hz. cbn. eauto. }
  destruct (Z.eqb_spec
              (libregf_hive_bins_list_get_index_at_offset hive_bins_list
                 (NamedKey.values_list_offset nk)) (-1)); [contradiction|].
  destruct (_ =? 0); [eauto|].
  destruct Hn as [Hn|(Hn & Hv0 & Hvf & data & Hcell & Hsize & Hprobe)].
  { unfold libregf_key_item_read_values_list. rewrite Hn. cbn. eauto. }
  match goal with
  | |- context [libregf_key_item_read_values_list _ ?k5 _ _ _] =>
      destruct (read_values_list_loads hive_bins_list cells k5 c2
                  (NamedKey.values_list_offset nk)
                  (NamedKey.number_of_values nk) data [])
        as (k' & c' & Hr & _); try assumption; [reflexivity|]
  end.
  rewrite Hr. cbn. eauto.
Qed.

Lemma read_node_data_loads_without_security_key hive_bins_list cells node c
    node_data_offset node_data_size nk :
  serves hive_bins_list cells ->
  node_data_accepted node_data_offset node_data_size ->
  decoded_named_key libregf_named_key_read_data hive_bins_list cells
    node_data_offset node_data_size = Some nk ->
  NamedKey.security_key_offset nk = 0xffffffff ->
  class_name_loads cells nk ->
  sub_keys_step_passes hive_bins_list node nk ->
  values_list_loads hive_bins_list cells nk ->
  exists node' c',
    read_node_data hive_bins_list node c node_data_offset node_data_size
    = (Return 1, node', c').
Proof.
  intros Hs (H0 & Hoff & Hsize) Hd Hsec Hclass Hsub Hvalues.
  destruct (decoded_named_key_fetched _ _ _ _ _ Hs Hd c)
    as (cp & cell & c1 & Hio & Hfetch & Hdecode).
  destruct (read_named_key_loads_without_security_key hive_bins_list cells
              zeroed_key_item node c node_data_offset
              (uint32 node_data_size) cp cell c1 nk)
    as (k' & node' & c' & Hr); try assumption; try reflexivity.
  unfold read_node_data, libregf_key_item_read_node_data.
  cbn [libregf_key_item_initialize].
  destruct (Z.gtb_spec node_data_size UINT32_MAX); [lia|].
  fold read_named_key. rewrite Hr. cbn. eauto.
Qed.

(** The load fails when the security key step is due and fails. *)
Lemma read_node_data_security_key_fails hive_bins_list cells node c
    node_data_offset node_data_size nk :
  serves hive_bins_list cells ->
  decoded_named_key libregf_named_key_read_data hive_bins_list cells
    node_data_offset node_data_size = Some nk ->
  NamedKey.security_key_offset nk <> 0xffffffff ->
  (forall k2 c2,
     fst (fst (read_security_key hive_bins_list k2 c2
                 (NamedKey.security_key_offset nk))) <> 1) ->
  fst (observable
         (read_node_data hive_bins_list node c node_data_offset
            node_data_size))
  = Return (-1).
Proof.
  intros Hs Hd Hsec Hfail.
  destruct (decoded_named_key_fetched _ _ _ _ _ Hs Hd c)
    as (cp & cell & c1 & Hio & Hfetch & Hdecode).
  unfold read_node_data, libregf_key_item_read_node_data.
  cbn [libregf_key_item_initialize].
  destruct (Z.gtb_spec node_data_size UINT32_MAX); [reflexivity|].
  fold read_named_key.
  assert (Hload :
    fst (fst (fst (read_named_key hive_bins_list zeroed_key_item node c
                     node_data_offset (uint32 node_data_size))))
    = Return (-1)).
  { destruct (Z.eq_dec node_data_offset 0) as [->|H0].
    { unfold read_named_key, libregf_key_item_read_named_key.
      cbn. rewrite Hio. reflexivity. }
    destruct (Z_lt_ge_dec node_data_offset 0xffffffff) as [Hoff|Hoff].
    2:{ unfold read_named_key, libregf_key_item_read_named_key.
        cbn [named_key zeroed_key_item]. rewrite Hio.
        destruct (Z.geb_spec node_data_offset 0xffffffff); [|lia].
        rewrite orb_true_r. reflexivity. }
    destruct (libregf_key_item_read_class_name hive_bins_list
                (set_named_key zeroed_key_item (Some nk)) c1
                (NamedKey.class_name_offset nk) (NamedKey.class_name_size nk))
      as [[r2 k2] c2] eqn:Hcls.
    destruct (Z.eq_dec r2 1) as [->|Hr2].
    - eapply read_named_key_security_key_fails; eauto.
    - eapply read_named_key_class_name_fails; eauto.
      rewrite Hcls. exact Hr2. }
  destruct (read_named_key hive_bins_list zeroed_key_item node c
              node_data_offset (uint32 node_data_size))
    as [[[o k] node1] c1'].
  cbn [fst] in Hload. subst o. reflexivity.
Qed.

(** The load fails when the class name step does. *)
Lemma read_node_data_class_name_fails hive_bins_list cells node c
    node_data_offset node_data_size nk :
  serves hive_bins_list cells ->
  decoded_named_key libregf_named_key_read_data hive_bins_list cells
    node_data_offset node_data_size = Some nk ->
  (forall k c1,
     fst (fst (libregf_key_item_read_class_name hive_bins_list k c1
                 (NamedKey.class_name_offset nk)
                 (NamedKey.class_name_size nk))) <> 1) ->
  fst (observable
         (read_node_data hive_bins_list node c node_data_offset
            node_data_size))
  = Return (-1).
Proof.
  intros Hs Hd Hfail.
  destruct (decoded_named_key_fetched _ _ _ _ _ Hs Hd c)
    as (cp & cell & c1 & Hio & Hfetch & Hdecode).
  unfold read_node_data, libregf_key_item_read_node_data.
  cbn [libregf_key_item_initialize].
  destruct (Z.gtb_spec node_data_size UINT32_MAX); [reflexivity|].
  fold read_named_key.
  assert (Hload :
    fst (fst (fst (read_named_key hive_bins_list zeroed_key_item node c
                     node_data_offset (uint32 node_data_size))))
    = Return (-1)).
  { destruct (Z.eq_dec node_data_offset 0) as [->|H0].
    { unfold read_named_key, libregf_key_item_read_named_key.
      cbn. rewrite Hio. reflexivity. }
    destruct (Z_lt_ge_dec node_data_offset 0xffffffff) as [Hoff|Hoff].
    2:{ unfold read_named_key, libregf_key_item_read_named_key.
        cbn [named_key zeroed_key_item]. rewrite Hio.
        destruct (Z.geb_spec node_data_offset 0xffffffff); [|lia].
        rewrite orb_true_r. reflexivity. }
    eapply read_named_key_class_name_fails; eauto. }
  destruct (read_named_key hive_bins_list zeroed_key_item node c
              node_data_offset (uint32 node_data_size))
    as [[[o k] node1] c1'].
  cbn [fst] in Hload. subst o. reflexivity.
Qed.

(** The security key step goes through under [security_key_loads]. *)
Lemma read_security_key_loads hive_bins_list cells k c nk :
  serves hive_bins_list cells ->
  security_descriptor k = None ->
  NamedKey.security_key_offset nk <> 0xffffffff ->
  security_key_loads libregf_security_key_read_data
    libregf_security_key_free cells nk ->
  exists k3 c3,
    read_security_key hive_bins_list k c (NamedKey.security_key_offset nk)
    = (1, k3, c3).
Proof.
  intros Hs Hsd Hne Hloads.
  unfold security_key_loads in Hloads. cbv zeta in Hloads.
  destruct Hloads as [?|(H0 & data & sk & Hcell & Hdecode & Hfree)];
    [contradiction|].
  unfold read_security_key, libregf_key_item_read_security_key.
  rewrite Hsd.
  destruct (Z.eqb_spec (NamedKey.security_key_offset nk) 0); [contradiction|].
  destruct (Z.eqb_spec (NamedKey.security_key_offset nk) 0xffffffff);
    [contradiction|].
  cbn [orb].
  destruct (libregf_hive_bins_list_get_cell_at_offset hive_bins_list c
              (NamedKey.security_key_offset nk)) as [[cell|] c1] eqn:Hfetch.
  2:{ rewrite (serves_fetch_none _ _ _ _ _ Hs Hfetch) in Hcell.
      discriminate. }
  pose proof (serves_fetch_some _ _ _ _ _ _ Hs Hfetch) as Hcell'.
  rewrite Hcell in Hcell'. injection Hcell' as <-.
  rewrite Hdecode, Hfree. cbn. eauto.
Qed.

(** The load of the named key returns 1 when its steps go through; the
    probe of the offset of the sub keys list may return 0. *)
Lemma read_named_key_loads hive_bins_list cells k node c offset hash
    ascii_codepage cell c1 nk :
  serves hive_bins_list cells ->
  named_key k = None -> class_name k = None ->
  security_descriptor k = None ->
  values_list k = None -> values_cache k = None ->
  io_handle hive_bins_list = Some ascii_codepage ->
  offset <> 0 -> offset < 0xffffffff ->
  libregf_hive_bins_list_get_cell_at_offset hive_bins_list c (uint32 offset)
  = (Some cell, c1) ->
  libregf_named_key_read_data (hive_bin_cell_data hive_bins_list c1 cell)
    hash ascii_codepage = Some nk ->
  class_name_loads cells nk ->
  security_key_loads libregf_security_key_read_data
    libregf_security_key_free cells nk ->
  sub_keys_step_passes hive_bins_list node nk ->
  values_list_loads hive_bins_list cells nk ->
  exists k' node' c',
    read_named_key hive_bins_list k node c offset hash
    = (Return 1, k', node', c').
Proof.
  intros Hs Hnk Hcn Hsd Hvl Hvc Hio H0 Hoff Hfetch Hdecode Hclass Hsecurity
    Hsub Hvalues.
  unfold read_named_key, libregf_key_item_read_named_key.
  rewrite Hnk, Hio.
  destruct (Z.eqb_spec offset 0); [contradiction|].
  destruct (Z.geb_spec offset 0xffffffff); [lia|].
  cbn [orb]. rewrite Hfetch, Hdecode. cbv zeta.
  destruct (read_class_name_loads hive_bins_list cells
              (set_named_key k (Some nk)) c1 nk Hs Hcn Hclass)
    as (k2 & c2 & Hcls).
  rewrite Hcls. cbn [Z.eqb Pos.eqb negb].
  pose proof (read_class_name_keeps _ _ _ _ _ _ _ _ Hcls)
    as (_ & Hsd2 & _ & Hvl2 & Hvc2 & _).
  cbn [security_descriptor values_list values_cache set_named_key]
    in Hsd2, Hvl2, Hvc2.
  rewrite Hsd in Hsd2. rewrite Hvl in Hvl2. rewrite Hvc in Hvc2.
  match goal with
  | |- context [if negb (NamedKey.security_key_offset nk =? ?s)
                then ?a else ?b] =>
      assert (Hstep : exists k3 c3,
                (if negb (NamedKey.security_key_offset nk =? s)
                 then a else b) = (1, k3, c3)
                /\ values_list k3 = None /\ values_cache k3 = None)
  end.
  { destruct (Z.eqb_spec (NamedKey.security_key_offset nk) 0xffffffff)
      as [|Hne]; cbn [negb]; [eauto|].
    destruct (read_security_key_loads hive_bins_list cells k2 c2 nk
                Hs Hsd2 Hne Hsecurity) as (k3 & c3 & Hr).
    exists k3, c3. split; [exact Hr|].
    apply read_security_key_keeps in Hr.
    destruct Hr as (_ & _ & _ & Hv & Hc & _). split; congruence. }
  destruct Hstep as (k3 & c3 & -> & Hvl3 & Hvc3).
  cbn [Z.eqb Pos.eqb negb].
  match goal with
  | |- exists _ _ _, match ?e with Some _ => _ | None => _ end = _ =>
      assert (Hstep : exists k4 node4,
                e = Some (k4, node4)
                /\ values_list k4 = None /\ values_cache k4 = None)
  end.
  { destruct (NamedKey.number_of_sub_keys nk >? 0) eqn:Hn; [|eauto].
    unfold libfdata_tree_node_sub_nodes_data_range_is_set.
    destruct (sub_nodes_data_range node) eqn:Hrange; cbn; [eauto|].
    destruct (Z.eqb_spec
                (libregf_hive_bins_list_get_index_at_offset hive_bins_list
                   (NamedKey.sub_keys_list_offset nk)) (-1)) as [Hm|].
    - exfalso. destruct Hsub as [Hle|[Hset|Hp]].
      + apply Z.gtb_lt in Hn. lia.
      + apply Hset. exact Hrange.
      + apply Hp. exact Hm.
    - destruct (_ =? 0); eauto. }
  destruct Hstep as (k4 & node4 & -> & Hvl4 & Hvc4).
  unfold libfdata_list_initialize. rewrite Hvl4.
  unfold libfcache_cache_initialize.
  change (values_cache (set_values_list k4 (Some []))) with (values_cache k4).
  rewrite Hvc4.
  unfold values_list_loads in Hvalues. cbv zeta in Hvalues.
  destruct Hvalues as [Hz|(Hm & Hn)].
  { rewrite Hz. cbn. eauto. }
  destruct (Z.eqb_spec
              (libregf_hive_bins_list_get_index_at_offset hive_bins_list
                 (NamedKey.values_list_offset nk)) (-1)); [contradiction|].
  destruct (_ =? 0); [eauto|].
  destruct Hn as [Hn|(Hn & Hv0 & Hvf & data & Hcell & Hsize & Hprobe)].
  { unfold libregf_key_item_read_values_list. rewrite Hn. cbn. eauto. }
  match goal with
  | |- context [libregf_key_item_read_values_list _ ?k5 _ _ _] =>
      destruct (read_values_list_loads hive_bins_list cells k5 c3
                  (NamedKey.values_list_offset nk)
                  (NamedKey.number_of_values nk) data [])
        as (k' & c' & Hr & _); try assumption; [reflexivity|]
  end.
  rewrite Hr. cbn. eauto.
Qed.

Lemma read_node_data_loads hive_bins_list cells node c
    node_data_offset node_data_size nk :
  serves hive_bins_list cells ->
  node_data_accepted node_data_offset node_data_size ->
  decoded_named_key libregf_named_key_read_data hive_bins_list cells
    node_data_offset node_data_size = Some nk ->
  class_name_loads cells nk ->
  security_key_loads libregf_security_key_read_data
    libregf_security_key_free cells nk ->
  sub_keys_step_passes hive_bins_list node nk ->
  values_list_loads hive_bins_list cells nk ->
  exists node' c',
    read_node_data hive_bins_list node c node_data_offset node_data_size
    = (Return 1, node', c').
Proof.
  intros Hs (H0 & Hoff & Hsize) Hd Hclass Hsecurity Hsub Hvalues.
  destruct (decoded_named_key_fetched _ _ _ _ _ Hs Hd c)
    as (cp & cell & c1 & Hio & Hfetch & Hdecode).
  destruct (read_named_key_loads hive_bins_list cells
              zeroed_key_item node c node_data_offset
              (uint32 node_data_size) cp cell c1 nk)
    as (k' & node' & c' & Hr); try assumption; try reflexivity.
  unfold read_node_data, libregf_key_item_read_node_data.
  cbn [libregf_key_item_initialize].
  destruct (Z.gtb_spec node_data_size UINT32_MAX); [lia|].
  fold read_named_key. rewrite Hr. cbn. eauto.
Qed.

(** C6.  A load for a key with sub keys, on a node without a range of sub
    nodes.  When the load succeeds: if the offset of the sub keys list lies
    in no bin the key item is marked as corrupted and the node stays
    without a range; if it lies in a bin the node gets the range at that
    offset, of size 0; either way the load appends no sub node, the walk is
    left for later.  And the load does succeed in both cases: when the
    class name, the security key and the values list of the key load and
    the probe of the offset of the sub keys list does not fail, the load
    returns 1 whether the offset lies in a bin or not; an offset that lies
    in no bin does not fail the load. *)
Theorem C6_sub_keys_list_offset_probed_on_load :
  (forall hive_bins_list cells node c node_data_offset node_data_size
          node' c',
     serves hive_bins_list cells ->
     read_node_data hive_bins_list node c node_data_offset node_data_size
     = (Return 1, node', c') ->
     sub_nodes_data_range node = None ->
     exists nk k,
       decoded_named_key libregf_named_key_read_data hive_bins_list cells
         node_data_offset node_data_size = Some nk
       /\ node_value node' = Some k
       /\ sub_nodes node' = sub_nodes node
       /\ (0 < NamedKey.number_of_sub_keys nk ->
           (libregf_hive_bins_list_get_index_at_offset hive_bins_list
              (NamedKey.sub_keys_list_offset nk) = 0 ->
            is_corrupted k = true /\ sub_nodes_data_range node' = None)
           /\ (libregf_hive_bins_list_get_index_at_offset hive_bins_list
                 (NamedKey.sub_keys_list_offset nk) <> 0 ->
               sub_nodes_data_range node'
               = Some {| range_file_index := 0;
                         range_offset := NamedKey.sub_keys_list_offset nk;
                         range_size := 0; range_flags := 0 |})))
  /\ (forall hive_bins_list cells node c node_data_offset node_data_size nk,
        serves hive_bins_list cells ->
        node_data_accepted node_data_offset node_data_size ->
        decoded_named_key libregf_named_key_read_data hive_bins_list cells
          node_data_offset node_data_size = Some nk ->
        0 < NamedKey.number_of_sub_keys nk ->
        sub_nodes_data_range node = None ->
        class_name_loads cells nk ->
        security_key_loads libregf_security_key_read_data
          libregf_security_key_free cells nk ->
        values_list_loads hive_bins_list cells nk ->
        libregf_hive_bins_list_get_index_at_offset hive_bins_list
          (NamedKey.sub_keys_list_offset nk) <> -1 ->
        exists k node' c',
          read_node_data hive_bins_list node c node_data_offset
            node_data_size = (Return 1, node', c')
          /\ node_value node' = Some k
          /\ sub_nodes node' = sub_nodes node
          /\ (libregf_hive_bins_list_get_index_at_offset hive_bins_list
                (NamedKey.sub_keys_list_offset nk) = 0 ->
              is_corrupted k = true /\ sub_nodes_data_range node' = None)
          /\ (libregf_hive_bins_list_get_index_at_offset hive_bins_list
                (NamedKey.sub_keys_list_offset nk) <> 0 ->
              sub_nodes_data_range node'
              = Some {| range_file_index := 0;
                        range_offset := NamedKey.sub_keys_list_offset nk;
                        range_size := 0; range_flags := 0 |})).
Proof.
  assert (Hloaded :
    forall hive_bins_list cells node c node_data_offset node_data_size
           node' c',
      serves hive_bins_list cells ->
      read_node_data hive_bins_list node c node_data_offset node_data_size
      = (Return 1, node', c') ->
      sub_nodes_data_range node = None ->
      exists nk k,
        decoded_named_key libregf_named_key_read_data hive_bins_list cells
          node_data_offset node_data_size = Some nk
        /\ node_value node' = Some k
        /\ sub_nodes node' = sub_nodes node
        /\ (0 < NamedKey.number_of_sub_keys nk ->
            (libregf_hive_bins_list_get_index_at_offset hive_bins_list
               (NamedKey.sub_keys_list_offset nk) = 0 ->
             is_corrupted k = true /\ sub_nodes_data_range node' = None)
            /\ (libregf_hive_bins_list_get_index_at_offset hive_bins_list
                  (NamedKey.sub_keys_list_offset nk) <> 0 ->
                sub_nodes_data_range node'
                = Some {| range_file_index := 0;
                          range_offset := NamedKey.sub_keys_list_offset nk;
                          range_size := 0; range_flags := 0 |}))).
  { intros B cells node c off size node' c' Hs Hload Hrange.
    destruct (read_node_data_returns_1 _ _ _ _ _ _ _ _ Hs Hload)
      as (nk & k & k2 & k3 & _ & Hd & Hv & Hsn & _ & _ & _ & _ & _ & _ & _
          & _ & Hsub & _).
    exists nk, k. repeat (split; [assumption|]).
    intros Hn. split.
    - intros Hz.
      destruct Hsub as [(_ & _ & _ & ? & ?)|[(_ & _ & Hnz & _)|([?|?] & _)]];
        [auto | contradiction | lia | contradiction].
    - intros Hnz.
      destruct Hsub as [(_ & _ & Hz & _)|[(_ & _ & _ & ?)|([?|?] & _)]];
        [contradiction | assumption | lia | contradiction]. }
  split; [exact Hloaded|].
  intros B cells node c off size nk Hs Hacc Hd Hn Hrange Hclass Hsecurity
    Hvalues Hprobe.
  destruct (read_node_data_loads B cells node c off size nk Hs Hacc Hd
              Hclass Hsecurity
              (or_intror (or_intror Hprobe)) Hvalues)
    as (node' & c' & Hload).
  destruct (Hloaded B cells node c off size node' c' Hs Hload Hrange)
    as (nk' & k & Hd' & Hv & Hsn & Hsub).
  rewrite Hd in Hd'. injection Hd' as <-.
  exists k, node', c'.
  split; [exact Hload|]. split; [exact Hv|]. split; [exact Hsn|].
  exact (Hsub Hn).
Qed.

(** C7.  After a load that succeeds the key item has a class name exactly
    when the offset of the class name is neither 0 nor 0xffffffff and its
    size is above 0 and at most the size of the payload of the cell at that
    offset; the class name is then the leading bytes of that payload.  The
    offset 0xffffffff, and the offset 0 with the size 0, leave the key item
    as it is and return 1; the offset 0 with another size is an error and
    fails the load. *)
Theorem C7_class_name_of_loaded_key :
  forall hive_bins_list cells,
    serves hive_bins_list cells ->
    (forall node c node_data_offset node_data_size node' c',
       read_node_data hive_bins_list node c node_data_offset node_data_size
       = (Return 1, node', c') ->
       exists nk k,
         decoded_named_key libregf_named_key_read_data hive_bins_list cells
           node_data_offset node_data_size = Some nk
         /\ node_value node' = Some k
         /\ (0 <= NamedKey.class_name_size nk ->
             (class_name k <> None <->
              NamedKey.class_name_offset nk <> 0
              /\ NamedKey.class_name_offset nk <> 0xffffffff
              /\ exists payload,
                   cells (NamedKey.class_name_offset nk) = Some payload
                   /\ 0 < NamedKey.class_name_size nk
                      <= Z.of_nat (length payload))
             /\ (forall bytes,
                   class_name k = Some bytes ->
                   exists payload,
                     cells (NamedKey.class_name_offset nk) = Some payload
                     /\ bytes
                        = firstn (Z.to_nat (NamedKey.class_name_size nk))
                            payload
                     /\ class_name_size k = NamedKey.class_name_size nk)))
    /\ (forall k c size,
          class_name k = None ->
          libregf_key_item_read_class_name hive_bins_list k c 0xffffffff size
          = (1, k, c))
    /\ (forall k c,
          class_name k = None ->
          libregf_key_item_read_class_name hive_bins_list k c 0 0 = (1, k, c))
    /\ (forall k c size,
          size <> 0 ->
          fst (fst (libregf_key_item_read_class_name hive_bins_list k c 0
                      size)) = -1)
    /\ (forall node c node_data_offset node_data_size nk,
          decoded_named_key libregf_named_key_read_data hive_bins_list cells
            node_data_offset node_data_size = Some nk ->
          NamedKey.class_name_offset nk = 0 ->
          NamedKey.class_name_size nk <> 0 ->
          fst (observable
                 (read_node_data hive_bins_list node c node_data_offset
                    node_data_size))
          = Return (-1)).
Proof.
  intros B cells Hs.
  assert (Herr : forall k c size,
            size <> 0 ->
            fst (fst (libregf_key_item_read_class_name B k c 0 size)) = -1).
  { intros k c size Hsize. unfold libregf_key_item_read_class_name.
    destruct (class_name k); [reflexivity|].
    destruct (Z.eqb_spec size 0); [contradiction|]. reflexivity. }
  split; [|split; [|split; [|split]]].
  - intros node c off size node' c' Hload.
    destruct (read_node_data_returns_1 _ _ _ _ _ _ _ _ Hs Hload)
      as (nk & k & k2 & k3 & _ & Hd & Hv & _ & _ & (c1 & c2 & Hcls) & Hcn
          & Hcs & _).
    exists nk, k. split; [exact Hd|]. split; [exact Hv|].
    intros Hsize.
    destruct (read_class_name_returns_1 _ _ _ _ _ _ _ _ Hs Hsize Hcls)
      as (_ & [(Hnoop & ->)|(Hf & H0 & payload & Hcell & Hbounds & ->)]).
    + cbn [class_name set_named_key zeroed_key_item] in Hcn.
      split.
      * split; [intros H; rewrite Hcn in H; contradiction|].
        intros (H0 & Hf & payload & _ & Hbounds).
        destruct Hnoop as [?|(? & ?)]; [contradiction|contradiction].
      * intros bytes Hb. rewrite Hcn in Hb. discriminate.
    + cbn [class_name class_name_size set_class_name] in Hcn, Hcs.
      split.
      * split; [|intros _; rewrite Hcn; discriminate].
        intros _. split; [exact H0|]. split; [exact Hf|].
        exists payload. auto.
      * intros bytes Hb. rewrite Hcn in Hb. injection Hb as <-.
        exists payload. auto.
  - intros k c size Hcn. unfold libregf_key_item_read_class_name.
    rewrite Hcn. reflexivity.
  - intros k c Hcn. unfold libregf_key_item_read_class_name.
    rewrite Hcn. reflexivity.
  - exact Herr.
  - intros node c off size nk Hd H0 Hsize.
    eapply read_node_data_class_name_fails; [exact Hs|exact Hd|].
    intros k c1. rewrite H0, Herr by exact Hsize. discriminate.
Qed.

(** C8.  A key whose security key offset is 0xffffffff loads without a
    security descriptor; the step adds no error (the load returns 1 when
    the other steps go through) and no flag (a corrupted flag after a load
    always comes from the offset of the sub keys list, the offset of the
    values list or an offset in the values list).  For any other offset the
    security cell is fetched and decoded and the descriptor of the security
    key becomes that of the key item; the offset 0, a cell that cannot be
    fetched and a cell that cannot be decoded fail the whole load. *)
Theorem C8_security_key_of_loaded_key :
  forall hive_bins_list cells,
    serves hive_bins_list cells ->
    (forall node c node_data_offset node_data_size node' c',
       read_node_data hive_bins_list node c node_data_offset node_data_size
       = (Return 1, node', c') ->
       exists nk k,
         decoded_named_key libregf_named_key_read_data hive_bins_list cells
           node_data_offset node_data_size = Some nk
         /\ node_value node' = Some k
         /\ (NamedKey.security_key_offset nk = 0xffffffff ->
             security_descriptor k = None)
         /\ (NamedKey.security_key_offset nk <> 0xffffffff ->
             NamedKey.security_key_offset nk <> 0
             /\ exists payload security_key,
                  cells (NamedKey.security_key_offset nk) = Some payload
                  /\ libregf_security_key_read_data payload
                     = Some security_key
                  /\ security_descriptor k
                     = SecurityKey.security_descriptor security_key
                  /\ security_descriptor_size k
                     = SecurityKey.security_descriptor_size security_key)
         /\ (is_corrupted k = true ->
             (0 < NamedKey.number_of_sub_keys nk
              /\ sub_nodes_data_range node = None
              /\ libregf_hive_bins_list_get_index_at_offset hive_bins_list
                   (NamedKey.sub_keys_list_offset nk) = 0)
             \/ libregf_hive_bins_list_get_index_at_offset hive_bins_list
                  (NamedKey.values_list_offset nk) = 0
             \/ exists data e,
                  cells (NamedKey.values_list_offset nk) = Some data
                  /\ In e (uint32_elements
                             (Z.to_nat (NamedKey.number_of_values nk)) data)
                  /\ libregf_hive_bins_list_get_index_at_offset
                       hive_bins_list e = 0))
    /\ (forall node c node_data_offset node_data_size nk,
          node_data_accepted node_data_offset node_data_size ->
          decoded_named_key libregf_named_key_read_data hive_bins_list cells
            node_data_offset node_data_size = Some nk ->
          NamedKey.security_key_offset nk = 0xffffffff ->
          class_name_loads cells nk ->
          sub_keys_step_passes hive_bins_list node nk ->
          values_list_loads hive_bins_list cells nk ->
          exists node' c',
            read_node_data hive_bins_list node c node_data_offset
              node_data_size = (Return 1, node', c'))
    /\ (forall node c node_data_offset node_data_size nk,
          decoded_named_key libregf_named_key_read_data hive_bins_list cells
            node_data_offset node_data_size = Some nk ->
          NamedKey.security_key_offset nk <> 0xffffffff ->
          NamedKey.security_key_offset nk = 0
          \/ cells (NamedKey.security_key_offset nk) = None
          \/ (exists payload,
                cells (NamedKey.security_key_offset nk) = Some payload
                /\ libregf_security_key_read_data payload = None) ->
          fst (observable
                 (read_node_data hive_bins_list node c node_data_offset
                    node_data_size))
          = Return (-1)).
Proof.
  intros B cells Hs. split; [|split].
  - intros node c off size node' c' Hload.
    destruct (read_node_data_returns_1 _ _ _ _ _ _ _ _ Hs Hload)
      as (nk & k & k2 & k3 & _ & Hd & Hv & _ & _ & _ & _ & _ & Hsec & Hsd2
          & Hsd & Hss & _ & _ & Hflag).
    exists nk, k. split; [exact Hd|]. split; [exact Hv|].
    split; [|split; [|exact Hflag]].
    + intros Hsentinel.
      destruct Hsec as [(_ & ->)|(? & _)]; [|contradiction].
      rewrite Hsd. exact Hsd2.
    + intros Hdue.
      destruct Hsec as [(? & _)|(_ & c2 & c3 & Hsec)]; [contradiction|].
      destruct (read_security_key_returns_1 _ _ _ _ _ _ _ Hs Hsec)
        as (_ & H0 & _ & payload & sk & Hcell & Hdecode & ->).
      split; [exact H0|]. exists payload, sk.
      cbn [security_descriptor security_descriptor_size
           set_security_descriptor] in Hsd, Hss.
      auto.
  - intros node c off size nk Hacc Hd Hsentinel Hclass Hsub Hvalues.
    eapply read_node_data_loads_without_security_key; eassumption.
  - intros node c off size nk Hd Hdue Hbad.
    eapply read_node_data_security_key_fails; [exact Hs|exact Hd|exact Hdue|].
    intros k2 c2.
    rewrite (read_security_key_fails B cells k2 c2 _ Hs).
    + discriminate.
    + destruct Hbad as [?|[?|?]]; auto.
Qed.

(** A load from the store that records its fetches fetches the cell of the
    key, and the cells of the class name and of the security key at most;
    with no values nothing else is fetched. *)
Lemma recording_read_class_name codepage cells index k c offset size
    r k' c' :
  libregf_key_item_read_class_name (recording codepage cells index) k c
    offset size = (r, k', c') ->
  c' = c \/ c' = offset :: c.
Proof.
  unfold libregf_key_item_read_class_name.
  cbn [libregf_hive_bins_list_get_cell_at_offset recording].
  intros H. repeat break_match_in H; try discriminate;
    injection H as <- <- <-; auto.
Qed.

Lemma recording_read_security_key codepage cells index k c offset r k' c' :
  read_security_key (recording codepage cells index) k c offset
  = (r, k', c') ->
  c' = c \/ c' = offset :: c.
Proof.
  unfold read_security_key, libregf_key_item_read_security_key.
  cbn [libregf_hive_bins_list_get_cell_at_offset recording].
  intros H. repeat break_match_in H; try discriminate;
    injection H as <- <- <-; auto.
Qed.

Lemma read_values_list_of_none hive_bins_list k c offset :
  libregf_key_item_read_values_list hive_bins_list k c offset 0
  = (Return 1, k, c).
Proof. reflexivity. Qed.

Lemma recording_read_node_data_fetches codepage cells index node log
    node_data_offset node_data_size nk :
  decoded_named_key libregf_named_key_read_data
    (recording codepage cells index) cells node_data_offset node_data_size
  = Some nk ->
  NamedKey.number_of_values nk = 0 ->
  forall o,
    In o (snd (read_node_data (recording codepage cells index) node log
                 node_data_offset node_data_size)) ->
    In o log
    \/ o = uint32 node_data_offset
    \/ o = NamedKey.class_name_offset nk
    \/ o = NamedKey.security_key_offset nk.
Proof.
  intros Hd Hn.
  unfold decoded_named_key in Hd. cbn [io_handle recording] in Hd.
  destruct codepage as [cp|]; [|discriminate].
  destruct (cells (uint32 node_data_offset)) as [data|] eqn:Hcell;
    [|discriminate].
  assert (Hsteps :
    forall P : list Z -> Prop,
      P log ->
      P (uint32 node_data_offset :: log) ->
      P (NamedKey.class_name_offset nk :: uint32 node_data_offset :: log) ->
      P (NamedKey.security_key_offset nk :: uint32 node_data_offset :: log) ->
      P (NamedKey.security_key_offset nk :: NamedKey.class_name_offset nk
         :: uint32 node_data_offset :: log) ->
      P (snd (read_node_data (recording (Some cp) cells index) node log
                node_data_offset node_data_size))).
  { intros P P0 P1 P2 P3 P4.
    unfold read_node_data, libregf_key_item_read_node_data.
    cbn [libregf_key_item_initialize].
    destruct (node_data_size >? UINT32_MAX); [exact P0|].
    unfold libregf_key_item_read_named_key.
    cbn [named_key zeroed_key_item io_handle recording
         libregf_hive_bins_list_get_cell_at_offset hive_bin_cell_data].
    destruct ((node_data_offset =? 0) || (node_data_offset >=? 0xffffffff));
      [exact P0|].
    rewrite Hcell, Hd. cbv zeta.
    destruct (libregf_key_item_read_class_name
                (recording (Some cp) cells index)
                (set_named_key zeroed_key_item (Some nk))
                (uint32 node_data_offset :: log)
                (NamedKey.class_name_offset nk)
                (NamedKey.class_name_size nk)) as [[r2 k2] c2] eqn:Hcls.
    apply recording_read_class_name in Hcls.
    destruct (negb (r2 =? 1));
      [destruct Hcls as [-> | ->]; cbn [snd]; assumption|].
    destruct (if negb (NamedKey.security_key_offset nk =? 0xffffffff)
              then
                libregf_key_item_read_security_key
                  libregf_security_key_read_data libregf_security_key_free
                  (recording (Some cp) cells index) k2 c2
                  (NamedKey.security_key_offset nk)
              else (1, k2, c2)) as [[r3 k3] c3] eqn:Hsec.
    assert (Hc3 : c3 = c2 \/ c3 = NamedKey.security_key_offset nk :: c2).
    { destruct (negb (NamedKey.security_key_offset nk =? 0xffffffff)).
      - apply recording_read_security_key in Hsec. exact Hsec.
      - injection Hsec as <- <- <-. auto. }
    clear Hsec.
    assert (Hend : P c3).
    { destruct Hcls as [-> | ->], Hc3 as [-> | ->]; assumption. }
    rewrite Hn.
    repeat first
      [ rewrite read_values_list_of_none
      | match goal with
        | |- context [match ?x with _ => _ end] =>
            lazymatch x with
            | context [match _ with _ => _ end] => fail
            | _ => destruct x
            end
        end ];
      cbn [snd]; exact Hend. }
  intros o.
  apply (Hsteps (fun l =>
                   In o l ->
                   In o log
                   \/ o = uint32 node_data_offset
                   \/ o = NamedKey.class_name_offset nk
                   \/ o = NamedKey.security_key_offset nk));
    cbn [In]; intuition auto.
Qed.

(** C9.  With no values the values list returns 1 at once, whatever the
    offset, and leaves the key item and the cache of the store as they
    are; a load that succeeds for a key without values leaves the values
    list empty, and the only cells that such a load fetches are those of
    the key, of the class name and of the security key. *)
Theorem C9_no_values_no_fetch :
  (forall hive_bins_list k c values_list_offset,
     libregf_key_item_read_values_list hive_bins_list k c values_list_offset
       0 = (Return 1, k, c))
  /\ (forall hive_bins_list cells node c node_data_offset node_data_size
             node' c',
        serves hive_bins_list cells ->
        read_node_data hive_bins_list node c node_data_offset node_data_size
        = (Return 1, node', c') ->
        exists nk k,
          decoded_named_key libregf_named_key_read_data hive_bins_list cells
            node_data_offset node_data_size = Some nk
          /\ node_value node' = Some k
          /\ (NamedKey.number_of_values nk = 0 -> values_list k = Some []))
  /\ (forall codepage cells index node log node_data_offset node_data_size
             nk,
        decoded_named_key libregf_named_key_read_data
          (recording codepage cells index) cells node_data_offset
          node_data_size = Some nk ->
        NamedKey.number_of_values nk = 0 ->
        forall o,
          In o (snd (read_node_data (recording codepage cells index) node log
                       node_data_offset node_data_size)) ->
          In o log
          \/ o = uint32 node_data_offset
          \/ o = NamedKey.class_name_offset nk
          \/ o = NamedKey.security_key_offset nk).
Proof.
  split; [|split].
  - intros. apply read_values_list_of_none.
  - intros B cells node c off size node' c' Hs Hload.
    destruct (read_node_data_returns_1 _ _ _ _ _ _ _ _ Hs Hload)
      as (nk & k & k2 & k3 & _ & Hd & Hv & _ & _ & _ & _ & _ & _ & _ & _ & _
          & _ & Hvalues & _).
    exists nk, k. split; [exact Hd|]. split; [exact Hv|].
    intros Hn.
    destruct Hvalues as [(_ & ? & _)|(_ & _ & k5 & c3 & Hvl & Hr)];
      [assumption|].
    rewrite Hn, read_values_list_of_none in Hr.
    injection Hr as <- _. exact Hvl.
  - apply recording_read_node_data_fetches.
Qed.

End Load.

(** ** Freeing a key item *)

(** C10.  Freeing through a pointer whose target is NULL returns 1 and
    changes nothing; a free through a valid pointer leaves the target NULL,
    whatever the free functions of the sub objects return; so a second free
    of the same pointer variable returns 1 and leaves it as the first free
    left it. *)
Theorem C10_free_is_idempotent :
  forall (libregf_named_key_free : NamedKey.t -> Z)
         (libfdata_list_free : libfdata_list -> Z)
         (libfcache_cache_free : Z -> Z),
    let free :=
      libregf_key_item_free libregf_named_key_free libfdata_list_free
        libfcache_cache_free in
    free (Some None) = (1, Some None)
    /\ (forall target, snd (free (Some target)) = Some None)
    /\ (forall target,
          free (snd (free (Some target)))
          = (1, snd (free (Some target)))).
Proof.
  intros nk_free list_free cache_free free.
  assert (Hnull : forall target, snd (free (Some target)) = Some None).
  { intros [item|]; reflexivity. }
  split; [reflexivity|]. split; [exact Hnull|].
  intros target. rewrite Hnull. reflexivity.
Qed.

Example free_reports_a_failing_sub_free :
  libregf_key_item_free (fun _ => -1) Fixture.free_succeeds
    Fixture.free_succeeds
    (Some (Some (set_named_key zeroed_key_item
                   (Some Fixture.parent_named_key))))
  = (-1, Some None).
Proof. reflexivity. Qed.

(** ** The theorems on the load, on the small hives *)

(** C6 on the key at 32 with its sub keys list at 400.  With an index of
    bins that does not know the offset 400 the load returns 1, the key item
    is marked as corrupted and the node has neither a range nor a sub node;
    with an index that knows 400 the load returns 1 and the node gets the
    range at 400. *)
Lemma C6_sub_keys_list_offset_witness :
  (let loaded :=
     libregf_key_item_read_node_data Fixture.read_full_named_key
       Fixture.whole_cell_security_key Fixture.free_succeeds 8
       (never_evicting (Some 1252) Fixture.full_cells
          (Fixture.index_of [32; 200; 300; 500; 600]))
       Fixture.empty_node tt 32 0 in
   fst (fst loaded) = Return 1
   /\ sub_nodes (snd (fst loaded)) = []
   /\ sub_nodes_data_range (snd (fst loaded)) = None
   /\ exists k,
        node_value (snd (fst loaded)) = Some k /\ is_corrupted k = true)
  /\ (let loaded :=
        libregf_key_item_read_node_data Fixture.read_full_named_key
          Fixture.whole_cell_security_key Fixture.free_succeeds 8
          (never_evicting (Some 1252) Fixture.full_cells
             (Fixture.index_of Fixture.known_offsets))
          Fixture.empty_node tt 32 0 in
      fst (fst loaded) = Return 1
      /\ sub_nodes (snd (fst loaded)) = []
      /\ sub_nodes_data_range (snd (fst loaded))
         = Some {| range_file_index := 0; range_offset := 400;
                   range_size := 0; range_flags := 0 |}).
Proof.
  assert (Hclass : class_name_loads Fixture.full_cells
                     Fixture.full_named_key).
  { right. right. split; [discriminate|]. split; [discriminate|].
    exists ["C"; "0"; "l"; "0"; "s"; "0"]%byte.
    split; [reflexivity|]. split; [cbn; lia|]. vm_compute. discriminate. }
  assert (Hsecurity : security_key_loads Fixture.whole_cell_security_key
                        Fixture.free_succeeds Fixture.full_cells
                        Fixture.full_named_key).
  { right. split; [discriminate|].
    eexists _, _. split; [reflexivity|]. split; reflexivity. }
  cbv zeta. split.
  - destruct (proj2 (C6_sub_keys_list_offset_probed_on_load
                       Fixture.read_full_named_key
                       Fixture.whole_cell_security_key
                       Fixture.free_succeeds 8)
                (never_evicting (Some 1252) Fixture.full_cells
                   (Fixture.index_of [32; 200; 300; 500; 600]))
                Fixture.full_cells Fixture.empty_node tt 32 0
                Fixture.full_named_key)
      as (k & node' & c' & Hload & Hv & Hnodes & Hunknown & _).
    + apply never_evicting_serves.
    + split; [discriminate|]. split; [reflexivity|].
      vm_compute. discriminate.
    + reflexivity.
    + reflexivity.
    + reflexivity.
    + exact Hclass.
    + exact Hsecurity.
    + right. split; [vm_compute; discriminate|]. right.
      split; [reflexivity|]. split; [discriminate|]. split; [discriminate|].
      exists (Fixture.u32 300 ++ Fixture.u32 0xdeadbeef).
      split; [reflexivity|]. split; [vm_compute; discriminate|].
      intros e He. vm_compute in He.
      destruct He as [<-|[<-|[]]]; vm_compute; discriminate.
    + vm_compute. discriminate.
    + rewrite Hload. cbn [fst snd].
      destruct (Hunknown eq_refl) as (Hcorrupted & Hrange).
      split; [reflexivity|]. split; [exact Hnodes|]. split; [exact Hrange|].
      exists k. split; [exact Hv|exact Hcorrupted].
  - destruct (proj2 (C6_sub_keys_list_offset_probed_on_load
                       Fixture.read_full_named_key
                       Fixture.whole_cell_security_key
                       Fixture.free_succeeds 8)
                (never_evicting (Some 1252) Fixture.full_cells
                   (Fixture.index_of Fixture.known_offsets))
                Fixture.full_cells Fixture.empty_node tt 32 0
                Fixture.full_named_key)
      as (k & node' & c' & Hload & Hv & Hnodes & _ & Hknown).
    + apply never_evicting_serves.
    + split; [discriminate|]. split; [reflexivity|].
      vm_compute. discriminate.
    + reflexivity.
    + reflexivity.
    + reflexivity.
    + exact Hclass.
    + exact Hsecurity.
    + right. split; [vm_compute; discriminate|]. right.
      split; [reflexivity|]. split; [discriminate|]. split; [discriminate|].
      exists (Fixture.u32 300 ++ Fixture.u32 0xdeadbeef).
      split; [reflexivity|]. split; [vm_compute; discriminate|].
      intros e He. vm_compute in He.
      destruct He as [<-|[<-|[]]]; vm_compute; discriminate.
    + vm_compute. discriminate.
    + rewrite Hload. cbn [fst snd].
      split; [reflexivity|]. split; [exact Hnodes|].
      apply Hknown. vm_compute. discriminate.
Defined.

(** C7 on the key at 32 with its class name of 4 bytes in the cell of 6
    bytes at 500. *)
Lemma C7_class_name_witness :
  let hive_bins_list :=
    single_slot (Some 1252) Fixture.full_cells
      (Fixture.index_of Fixture.known_offsets) in
  let loaded :=
    snd (fst (libregf_key_item_read_node_data Fixture.read_full_named_key
                Fixture.whole_cell_security_key Fixture.free_succeeds 8
                hive_bins_list Fixture.empty_node [] 32 0)) in
  exists k,
    node_value loaded = Some k
    /\ class_name k = Some ["C"; "0"; "l"; "0"]%byte.
Proof.
  cbv zeta.
  destruct (proj1 (C7_class_name_of_loaded_key
                     Fixture.read_full_named_key
                     Fixture.whole_cell_security_key
                     Fixture.free_succeeds 8
                     (single_slot (Some 1252) Fixture.full_cells
                        (Fixture.index_of Fixture.known_offsets))
                     Fixture.full_cells (single_slot_serves _ _ _))
              Fixture.empty_node [] 32 0
              (snd (fst (libregf_key_item_read_node_data
                           Fixture.read_full_named_key
                           Fixture.whole_cell_security_key
                           Fixture.free_succeeds 8
                           (single_slot (Some 1252) Fixture.full_cells
                              (Fixture.index_of Fixture.known_offsets))
                           Fixture.empty_node [] 32 0)))
              (snd (libregf_key_item_read_node_data
                      Fixture.read_full_named_key
                      Fixture.whole_cell_security_key
                      Fixture.free_succeeds 8
                      (single_slot (Some 1252) Fixture.full_cells
                         (Fixture.index_of Fixture.known_offsets))
                      Fixture.empty_node [] 32 0)))
    as (nk & k & Hd & Hv & Hclass).
  - vm_compute. reflexivity.
  - vm_compute in Hd. injection Hd as <-.
    exists k. split; [exact Hv|].
    destruct Hclass as (Hpresent & Hbytes); [vm_compute; discriminate|].
    destruct (class_name k) as [bytes|].
    + destruct (Hbytes bytes eq_refl) as (payload & Hcell & -> & _).
      vm_compute in Hcell. injection Hcell as <-. reflexivity.
    + exfalso. apply (proj2 Hpresent); [|reflexivity].
      split; [vm_compute; discriminate|].
      split; [vm_compute; discriminate|].
      eexists. split; [vm_compute; reflexivity|].
      vm_compute. split; [reflexivity|discriminate].
Defined.

(** C8 on the small hives: the key with the security key at 600 gets the
    cell as its descriptor; the key without security key loads; the key
    whose security cell cannot be decoded does not load. *)
Lemma C8_security_key_witness :
  (exists k,
     node_value
       (snd (fst (libregf_key_item_read_node_data
                    Fixture.read_full_named_key
                    Fixture.whole_cell_security_key Fixture.free_succeeds 8
                    (never_evicting (Some 1252) Fixture.full_cells
                       (Fixture.index_of Fixture.known_offsets))
                    Fixture.empty_node tt 32 0)))
     = Some k
     /\ security_descriptor k = Some ["s"; "k"; "1"; "2"]%byte)
  /\ (exists node' c',
        libregf_key_item_read_node_data Fixture.read_parent_named_key
          Fixture.no_security_key Fixture.free_succeeds 8
          (never_evicting (Some 1252) Fixture.parent_cells
             (Fixture.index_of Fixture.known_offsets))
          Fixture.empty_node tt 32 0
        = (Return 1, node', c'))
  /\ fst (observable
            (libregf_key_item_read_node_data Fixture.read_full_named_key
               Fixture.no_security_key Fixture.free_succeeds 8
               (never_evicting (Some 1252) Fixture.full_cells
                  (Fixture.index_of Fixture.known_offsets))
               Fixture.empty_node tt 32 0))
     = Return (-1).
Proof.
  split; [|split].
  - destruct (proj1 (C8_security_key_of_loaded_key
                       Fixture.read_full_named_key
                       Fixture.whole_cell_security_key
                       Fixture.free_succeeds 8
                       (never_evicting (Some 1252) Fixture.full_cells
                          (Fixture.index_of Fixture.known_offsets))
                       Fixture.full_cells (never_evicting_serves _ _ _))
                Fixture.empty_node tt 32 0
                (snd (fst (libregf_key_item_read_node_data
                             Fixture.read_full_named_key
                             Fixture.whole_cell_security_key
                             Fixture.free_succeeds 8
                             (never_evicting (Some 1252) Fixture.full_cells
                                (Fixture.index_of Fixture.known_offsets))
                             Fixture.empty_node tt 32 0)))
                tt)
      as (nk & k & Hd & Hv & _ & Hdue & _).
    + vm_compute. reflexivity.
    + vm_compute in Hd. injection Hd as <-.
      exists k. split; [exact Hv|].
      destruct Hdue as (_ & payload & sk & Hcell & Hdecode & Hsd & _);
        [vm_compute; discriminate|].
      vm_compute in Hcell. injection Hcell as <-.
      vm_compute in Hdecode. injection Hdecode as <-.
      exact Hsd.
  - apply (proj1 (proj2 (C8_security_key_of_loaded_key
                           Fixture.read_parent_named_key
                           Fixture.no_security_key
                           Fixture.free_succeeds 8
                           (never_evicting (Some 1252) Fixture.parent_cells
                              (Fixture.index_of Fixture.known_offsets))
                           Fixture.parent_cells
                           (never_evicting_serves _ _ _)))
             Fixture.empty_node tt 32 0 Fixture.parent_named_key).
    + unfold node_data_accepted, UINT32_MAX. lia.
    + reflexivity.
    + reflexivity.
    + left. reflexivity.
    + right. right. vm_compute. discriminate.
    + right. split; [vm_compute; discriminate|]. left. reflexivity.
  - apply (proj2 (proj2 (C8_security_key_of_loaded_key
                           Fixture.read_full_named_key
                           Fixture.no_security_key
                           Fixture.free_succeeds 8
                           (never_evicting (Some 1252) Fixture.full_cells
                              (Fixture.index_of Fixture.known_offsets))
                           Fixture.full_cells
                           (never_evicting_serves _ _ _)))
             Fixture.empty_node tt 32 0 Fixture.full_named_key).
    + reflexivity.
    + vm_compute. discriminate.
    + right. right. eexists. split; reflexivity.
Defined.

(** C9 on the key at 32 without values: the values list is empty, and the
    store that records its fetches has fetched nothing but the cell of the
    key (the offsets of the class name and of the security key are
    0xffffffff). *)
Lemma C9_no_values_witness :
  (exists k,
     node_value
       (snd (fst (libregf_key_item_read_node_data
                    Fixture.read_parent_named_key Fixture.no_security_key
                    Fixture.free_succeeds 8
                    (recording (Some 1252) Fixture.parent_cells
                       (Fixture.index_of Fixture.known_offsets))
                    Fixture.empty_node [] 32 0)))
     = Some k
     /\ values_list k = Some [])
  /\ forall o,
       In o (snd (libregf_key_item_read_node_data
                    Fixture.read_parent_named_key Fixture.no_security_key
                    Fixture.free_succeeds 8
                    (recording (Some 1252) Fixture.parent_cells
                       (Fixture.index_of Fixture.known_offsets))
                    Fixture.empty_node [] 32 0)) ->
       o <> 200.
Proof.
  split.
  - destruct (proj1 (proj2 (C9_no_values_no_fetch
                              Fixture.read_parent_named_key
                              Fixture.no_security_key
                              Fixture.free_succeeds 8))
                (recording (Some 1252) Fixture.parent_cells
                   (Fixture.index_of Fixture.known_offsets))
                Fixture.parent_cells Fixture.empty_node [] 32 0
                (snd (fst (libregf_key_item_read_node_data
                             Fixture.read_parent_named_key
                             Fixture.no_security_key
                             Fixture.free_succeeds 8
                             (recording (Some 1252) Fixture.parent_cells
                                (Fixture.index_of Fixture.known_offsets))
                             Fixture.empty_node [] 32 0)))
                [32])
      as (nk & k & Hd & Hv & Hempty).
    + apply recording_serves.
    + vm_compute. reflexivity.
    + vm_compute in Hd. injection Hd as <-.
      exists k. split; [exact Hv|]. apply Hempty. reflexivity.
  - intros o Hin.
    destruct (proj2 (proj2 (C9_no_values_no_fetch
                              Fixture.read_parent_named_key
                              Fixture.no_security_key
                              Fixture.free_succeeds 8))
                (Some 1252) Fixture.parent_cells
                (Fixture.index_of Fixture.known_offsets)
                Fixture.empty_node [] 32 0 Fixture.parent_named_key
                eq_refl eq_refl o Hin)
      as [[]|[-> | [-> | ->]]]; vm_compute; discriminate.
Defined.

(** ** The depth bound of the walk

    The bound on the nesting is an artefact of the model: once a walk ends
    within a bound, every larger bound gives the same result. *)

Lemma read_sub_keys_list_elements_deeper hive_bins_list read1 read2 :
  (forall node c offset,
     fst (fst (read1 node c offset)) <> DepthExhausted ->
     read2 node c offset = read1 node c offset) ->
  forall element_size at_leaf_level remaining data corruption node c,
    fst (fst (read_sub_keys_list_elements hive_bins_list read1 element_size
                at_leaf_level remaining data corruption node c))
    <> DepthExhausted ->
    read_sub_keys_list_elements hive_bins_list read2 element_size
      at_leaf_level remaining data corruption node c
    = read_sub_keys_list_elements hive_bins_list read1 element_size
        at_leaf_level remaining data corruption node c.
Proof.
  intros Hread element_size at_leaf_level.
  induction remaining as [|remaining IH]; intros data corruption node c Hend;
    [reflexivity|].
  cbn [read_sub_keys_list_elements] in *.
  destruct (read_uint32_little_endian data) as [[offset data1]|];
    [|reflexivity].
  destruct (if element_size =? 8 then read_uint32_little_endian data1
            else Some (0, data1)) as [[hash data2]|]; [|reflexivity].
  destruct (libregf_hive_bins_list_get_index_at_offset hive_bins_list offset
            =? -1); [reflexivity|].
  destruct (negb (libregf_hive_bins_list_get_index_at_offset hive_bins_list
                    offset =? 0)); [|apply IH; exact Hend].
  destruct (negb (at_leaf_level =? 0)); [apply IH; exact Hend|].
  specialize (Hread node c offset).
  destruct (read1 node c offset) as [[o n1] c1] eqn:E1.
  destruct o as [result| |].
  - rewrite Hread by discriminate.
    destruct (result =? -1); [reflexivity|]. apply IH. exact Hend.
  - rewrite Hread by discriminate. reflexivity.
  - exfalso. apply Hend. reflexivity.
Qed.

Lemma read_sub_keys_list_deeper hive_bins_list :
  forall depth node c offset,
    fst (fst (libregf_key_item_read_sub_keys_list depth hive_bins_list node c
                offset)) <> DepthExhausted ->
    libregf_key_item_read_sub_keys_list (S depth) hive_bins_list node c offset
    = libregf_key_item_read_sub_keys_list depth hive_bins_list node c offset.
Proof.
  induction depth as [|depth IH]; intros node c offset Hend.
  { exfalso. apply Hend. reflexivity. }
  remember (S depth) as depth1 eqn:Hdepth1.
  cbn [libregf_key_item_read_sub_keys_list].
  rewrite Hdepth1 in *.
  cbn [libregf_key_item_read_sub_keys_list] in Hend |- *.
  destruct ((offset =? 0) || (offset =? 0xffffffff)); [reflexivity|].
  destruct (libregf_hive_bins_list_get_cell_at_offset hive_bins_list c
              (uint32 offset)) as [[cell|] c']; [|reflexivity].
  cbv zeta in Hend |- *.
  destruct (_ <? sizeof_regf_sub_key_list_t); [reflexivity|].
  repeat (destruct (_ && _);
          [destruct (_ <? _);
           [reflexivity
           |apply read_sub_keys_list_elements_deeper;
            [exact IH|exact Hend]]|]).
  reflexivity.
Qed.

(** * Further properties of the code *)

(** ** The walk over the sub keys lists *)

Lemma read_uint32_little_endian_bounds data value rest :
  read_uint32_little_endian data = Some (value, rest) ->
  0 <= value <= UINT32_MAX /\ (length data = 4 + length rest)%nat.
Proof.
  destruct data as [|b0 [|b1 [|b2 [|b3 data]]]]; try discriminate.
  cbn [read_uint32_little_endian]. intros H. injection H as <- <-.
  unfold byte_stream_copy_to_uint32_little_endian, UINT32_MAX.
  pose proof (le_combine_bound [b0; b1; b2; b3]) as Hb.
  cbn [length] in Hb |- *.
  change (2 ^ (8 * Z.of_nat 4)) with 4294967296 in Hb. lia.
Qed.

Lemma number_of_elements_in_bounds data element_size :
  element_size = 4 \/ element_size = 8 ->
  (Z.of_nat (length data) <? sizeof_regf_sub_key_list_t) = false ->
  (Z.of_nat (length data) - sizeof_regf_sub_key_list_t
   <? byte_stream_copy_to_uint16_little_endian
        (nth 2 data "000"%byte) (nth 3 data "000"%byte) * element_size)
  = false ->
  length
    (sub_keys_list_elements element_size
       (Z.to_nat
          (byte_stream_copy_to_uint16_little_endian
             (nth 2 data "000"%byte) (nth 3 data "000"%byte)))
       (skipn (Z.to_nat sizeof_regf_sub_key_list_t) data))
  = Z.to_nat
      (byte_stream_copy_to_uint16_little_endian
         (nth 2 data "000"%byte) (nth 3 data "000"%byte)).
Proof.
  intros Hes H4 Hn. change sizeof_regf_sub_key_list_t with 4 in *.
  apply Z.ltb_ge in H4, Hn.
  pose proof (le_combine_bound
                [nth 2 data "000"%byte; nth 3 data "000"%byte]) as Hb.
  unfold byte_stream_copy_to_uint16_little_endian in *.
  apply sub_keys_list_elements_length; [exact Hes|].
  rewrite length_skipn, Nat2Z.inj_sub, Z2Nat.id by lia.
  change (Z.of_nat (Z.to_nat 4)) with 4. lia.
Qed.

Lemma read_sub_keys_list_elements_outcome hive_bins_list read :
  (forall node c offset, walk_outcome (fst (fst (read node c offset)))) ->
  forall element_size at_leaf_level remaining data corruption node c,
    length (sub_keys_list_elements element_size remaining data) = remaining ->
    walk_outcome
      (fst (fst (read_sub_keys_list_elements hive_bins_list read element_size
                   at_leaf_level remaining data corruption node c))).
Proof.
  intros Hread element_size at_leaf_level.
  induction remaining as [|remaining IH];
    intros data corruption node c Hlen.
  - cbn. destruct (negb (corruption =? 0)); cbn; unfold walk_outcome; auto.
  - cbn [read_sub_keys_list_elements sub_keys_list_elements] in *.
    destruct (read_uint32_little_endian data) as [[offset data1]|];
      [|discriminate].
    destruct (if element_size =? 8 then read_uint32_little_endian data1
              else Some (0, data1)) as [[hash data2]|]; [|discriminate].
    cbn [length] in Hlen. injection Hlen as Hlen.
    destruct (libregf_hive_bins_list_get_index_at_offset hive_bins_list offset
              =? -1); [cbn; unfold walk_outcome; auto|].
    destruct (negb (libregf_hive_bins_list_get_index_at_offset hive_bins_list
                      offset =? 0)); [|apply IH; exact Hlen].
    destruct (negb (at_leaf_level =? 0)); [apply IH; exact Hlen|].
    specialize (Hread node c offset).
    destruct (read node c offset) as [[o n1] c1]. cbn [fst] in Hread.
    destruct o as [result| |].
    + destruct (result =? -1); [cbn; unfold walk_outcome; auto|].
      apply IH. exact Hlen.
    + destruct Hread as [H|[H|[H|H]]]; discriminate.
    + cbn. unfold walk_outcome. auto.
Qed.

Lemma read_sub_keys_list_outcome hive_bins_list :
  forall depth node c sub_keys_list_offset,
    walk_outcome
      (fst (fst (libregf_key_item_read_sub_keys_list depth hive_bins_list
                   node c sub_keys_list_offset))).
Proof.
  induction depth as [|depth IH]; intros node c offset.
  { cbn. unfold walk_outcome. auto. }
  cbn [libregf_key_item_read_sub_keys_list].
  destruct ((offset =? 0) || (offset =? 0xffffffff));
    [cbn; unfold walk_outcome; auto|].
  destruct (libregf_hive_bins_list_get_cell_at_offset hive_bins_list c
              (uint32 offset)) as [[cell|] c'];
    [|cbn; unfold walk_outcome; auto].
  cbv zeta.
  destruct (_ <? sizeof_regf_sub_key_list_t) eqn:H4;
    [cbn; unfold walk_outcome; auto|].
  apply Z.ltb_ge in H4.
  repeat (destruct (_ && _);
          [destruct (_ <? _) eqn:Hn;
           [cbn; unfold walk_outcome; auto
           |apply read_sub_keys_list_elements_outcome; [exact IH|];
            apply number_of_elements_in_bounds;
            [first [left; reflexivity | right; reflexivity]
            |apply Z.ltb_ge; exact H4|exact Hn]]|]).
  cbn. unfold walk_outcome. auto.
Qed.

(** X1.  Whatever the store and the cells hold, the walk over the sub keys
    lists never reads past the copy of a cell, and the [int] it returns is
    1, 0 or -1; the loader of the sub nodes turns this into 1 or -1. *)
Theorem X1_sub_keys_walk_stays_in_bounds :
  forall hive_bins_list depth node c sub_keys_list_offset,
    fst (fst (libregf_key_item_read_sub_keys_list depth hive_bins_list node c
                sub_keys_list_offset)) <> BufferOverread
    /\ (forall result,
          fst (fst (libregf_key_item_read_sub_keys_list depth hive_bins_list
                      node c sub_keys_list_offset)) = Return result ->
          result = 1 \/ result = 0 \/ result = -1)
    /\ fst (fst (libregf_key_item_read_sub_nodes depth hive_bins_list node c
                   sub_keys_list_offset)) <> BufferOverread
    /\ (forall result,
          fst (fst (libregf_key_item_read_sub_nodes depth hive_bins_list
                      node c sub_keys_list_offset)) = Return result ->
          result = 1 \/ result = -1).
Proof.
  intros B depth node c offset.
  pose proof (read_sub_keys_list_outcome B depth node c offset) as Hwalk.
  unfold libregf_key_item_read_sub_nodes.
  destruct (libregf_key_item_read_sub_keys_list depth B node c offset)
    as [[o n1] c1].
  cbn [fst] in *.
  destruct Hwalk as [-> | [-> | [-> | ->]]]; cbn;
    (split; [discriminate|]);
    (split; [intros r Hr;
             first [discriminate | injection Hr as <-; auto]|]);
    (split; [discriminate|]);
    intros r Hr; first [discriminate | injection Hr as <-; auto].
Qed.

Lemma append_sub_nodes_forall_app (P : data_range -> Prop) l1 l2 :
  Forall P l1 -> Forall P l2 -> Forall P (l1 ++ l2).
Proof. intros H1 H2. apply Forall_app. split; assumption. Qed.

Lemma read_sub_keys_list_elements_well_formed hive_bins_list read :
  (forall node c offset,
     appends_well_formed hive_bins_list node (read node c offset)) ->
  forall element_size at_leaf_level remaining data corruption node c,
    appends_well_formed hive_bins_list node
      (read_sub_keys_list_elements hive_bins_list read element_size
         at_leaf_level remaining data corruption node c).
Proof.
  intros Hread element_size at_leaf_level.
  assert (Hhere : forall node (c : cache hive_bins_list) (o : outcome),
            appends_well_formed hive_bins_list node (o, node, c)).
  { intros node c o. exists []. rewrite append_sub_nodes_nil.
    split; [reflexivity|constructor]. }
  induction remaining as [|remaining IH]; intros data corruption node c.
  - simpl. destruct (negb (corruption =? 0)); apply Hhere.
  - cbn [read_sub_keys_list_elements].
    destruct (read_uint32_little_endian data) as [[offset data1]|] eqn:Hoff;
      [|apply Hhere].
    apply read_uint32_little_endian_bounds in Hoff. destruct Hoff as [Hoff _].
    destruct (if element_size =? 8 then read_uint32_little_endian data1
              else Some (0, data1)) as [[hash data2]|] eqn:Hhash;
      [|apply Hhere].
    assert (Hh : 0 <= hash <= UINT32_MAX).
    { destruct (element_size =? 8).
      - apply read_uint32_little_endian_bounds in Hhash. tauto.
      - injection Hhash as <- _. unfold UINT32_MAX. lia. }
    destruct (Z.eqb_spec
                (libregf_hive_bins_list_get_index_at_offset hive_bins_list
                   offset) (-1)) as [|Hm]; [apply Hhere|].
    destruct (Z.eqb_spec
                (libregf_hive_bins_list_get_index_at_offset hive_bins_list
                   offset) 0) as [|Hz]; cbn [negb]; [apply IH|].
    destruct (negb (at_leaf_level =? 0)).
    + rewrite append_sub_node_as_nodes.
      destruct (IH data2 corruption
                  (append_sub_nodes node [sub_node_of_element (offset, hash)])
                  c) as (nodes & Hn & Hwf).
      eexists. rewrite Hn, append_sub_nodes_app. split; [reflexivity|].
      apply append_sub_nodes_forall_app; [|exact Hwf].
      constructor; [|constructor].
      unfold sub_node_well_formed, sub_node_of_element.
      cbn [range_file_index range_flags range_offset range_size fst snd].
      auto 10.
    + destruct (Hread node c offset) as (nodes1 & H1 & Hwf1).
      destruct (read node c offset) as [[o n1] c1]. simpl in H1. subst n1.
      destruct o as [result| |];
        try (exists nodes1; split; [reflexivity|exact Hwf1]).
      destruct (result =? -1);
        [exists nodes1; split; [reflexivity|exact Hwf1]|].
      destruct (IH data2 (if result =? 0 then 1 else corruption)
                  (append_sub_nodes node nodes1) c1) as (nodes2 & H2 & Hwf2).
      eexists. rewrite H2, append_sub_nodes_app. split; [reflexivity|].
      apply append_sub_nodes_forall_app; assumption.
Qed.

(** X2.  Whatever its outcome, the walk leaves the node as it was but for
    sub nodes appended at the end, and every sub node it appends has file
    index 0, flags 0, an offset of 32 bits that the index of bins knows and
    a hash of 32 bits in its size: the loader of the node value never turns
    such a sub node down for its size. *)
Theorem X2_sub_keys_walk_appends_well_formed_sub_nodes :
  forall hive_bins_list depth node c sub_keys_list_offset,
    exists nodes,
      snd (fst (libregf_key_item_read_sub_keys_list depth hive_bins_list node
                  c sub_keys_list_offset))
      = append_sub_nodes node nodes
      /\ Forall (sub_node_well_formed hive_bins_list) nodes
      /\ Forall (fun sub_node => (range_size sub_node >? UINT32_MAX) = false)
           nodes.
Proof.
  intros B.
  assert (Hwalk : forall depth node c offset,
            appends_well_formed B node
              (libregf_key_item_read_sub_keys_list depth B node c offset)).
  { assert (Hhere : forall node (c : cache B) (o : outcome),
              appends_well_formed B node (o, node, c)).
    { intros node c o. exists []. rewrite append_sub_nodes_nil.
      split; [reflexivity|constructor]. }
    induction depth as [|depth IH]; intros node c offset; [apply Hhere|].
    cbn [libregf_key_item_read_sub_keys_list].
    destruct ((offset =? 0) || (offset =? 0xffffffff)); [apply Hhere|].
    destruct (libregf_hive_bins_list_get_cell_at_offset B c (uint32 offset))
      as [[cell|] c']; [|apply Hhere].
    cbv zeta.
    destruct (_ <? sizeof_regf_sub_key_list_t); [apply Hhere|].
    repeat (destruct (_ && _);
            [destruct (_ <? _);
             [apply Hhere
             |apply read_sub_keys_list_elements_well_formed; exact IH]|]).
    apply Hhere. }
  intros depth node c offset.
  destruct (Hwalk depth node c offset) as (nodes & Hn & Hwf).
  exists nodes. split; [exact Hn|]. split; [exact Hwf|].
  eapply Forall_impl; [|exact Hwf].
  intros sn (_ & _ & _ & Hsize & _).
  destruct (Z.gtb_spec (range_size sn) UINT32_MAX); [lia|reflexivity].
Qed.

Lemma read_sub_keys_list_elements_returns_1 hive_bins_list read
    element_size at_leaf_level :
  forall remaining data corruption node c,
    fst (fst (read_sub_keys_list_elements hive_bins_list read element_size
                at_leaf_level remaining data corruption node c))
    = Return 1 ->
    corruption = 0
    /\ forall e,
         In e (sub_keys_list_elements element_size remaining data) ->
         offset_is_known hive_bins_list (fst e) = true
         /\ (at_leaf_level = 0 ->
             exists node0 c0 result,
               fst (fst (read node0 c0 (fst e))) = Return result
               /\ result <> 0 /\ result <> -1).
Proof.
  induction remaining as [|remaining IH];
    intros data corruption node c Hone.
  - cbn in Hone.
    destruct (Z.eqb_spec corruption 0) as [Hc|Hc]; [|discriminate].
    split; [exact Hc|]. intros e [].
  - cbn [read_sub_keys_list_elements sub_keys_list_elements] in *.
    destruct (read_uint32_little_endian data) as [[offset data1]|];
      [|discriminate].
    destruct (if element_size =? 8 then read_uint32_little_endian data1
              else Some (0, data1)) as [[hash data2]|]; [|discriminate].
    destruct (libregf_hive_bins_list_get_index_at_offset hive_bins_list offset
              =? -1); [discriminate|].
    destruct (Z.eqb_spec
                (libregf_hive_bins_list_get_index_at_offset hive_bins_list
                   offset) 0) as [Hz|Hz]; cbn [negb] in Hone.
    { apply IH in Hone. destruct Hone as [Hc _]. discriminate. }
    assert (Hknown : offset_is_known hive_bins_list offset = true).
    { unfold offset_is_known.
      destruct (Z.eqb_spec
                  (libregf_hive_bins_list_get_index_at_offset hive_bins_list
                     offset) 0) as [|_]; [contradiction|reflexivity]. }
    destruct (Z.eqb_spec at_leaf_level 0) as [Hleaf|Hleaf]; cbn [negb] in Hone.
    + destruct (read node c offset) as [[o n1] c1] eqn:Hread.
      destruct o as [result| |]; try discriminate.
      destruct (Z.eqb_spec result (-1)) as [|Hr1]; [discriminate|].
      apply IH in Hone. destruct Hone as [Hc Hrest].
      destruct (Z.eqb_spec result 0) as [|Hr0]; [discriminate|].
      split; [exact Hc|].
      intros e [<-|Hin]; [|apply Hrest; exact Hin].
      cbn [fst]. split; [exact Hknown|]. intros _.
      exists node, c, result. rewrite Hread. auto.
    + apply IH in Hone. destruct Hone as [Hc Hrest].
      destruct (Z.eqb_spec
                  (libregf_hive_bins_list_get_index_at_offset hive_bins_list
                     offset) 0) as [|_]; [contradiction|].
      split; [exact Hc|].
      intros e [<-|Hin]; [|apply Hrest; exact Hin].
      cbn [fst]. split; [exact Hknown|]. intros; contradiction.
Qed.

(** X3.  The walk returns 1 for a cell only when the header of the cell is
    sound and the index of bins knows the offset of every element of the
    cell; for a cell of further lists every nested walk returned 1 as well.
    An offset that lies in no bin is never passed over with the result
    1. *)
Theorem X3_sub_keys_walk_returns_1_only_without_unknown_offsets :
  forall hive_bins_list cells depth node c sub_keys_list_offset data,
    serves hive_bins_list cells ->
    sub_keys_list_offset <> 0 -> sub_keys_list_offset <> 0xffffffff ->
    cells (uint32 sub_keys_list_offset) = Some data ->
    fst (fst (libregf_key_item_read_sub_keys_list (S depth) hive_bins_list
                node c sub_keys_list_offset)) = Return 1 ->
    let s0 := nth 0 data "000"%byte in
    let s1 := nth 1 data "000"%byte in
    let number_of_elements :=
      byte_stream_copy_to_uint16_little_endian
        (nth 2 data "000"%byte) (nth 3 data "000"%byte) in
    ~ sub_keys_list_header_invalid data
    /\ forall e,
         In e (sub_keys_list_elements (element_size_of_signature s0 s1)
                 (Z.to_nat number_of_elements) (skipn 4 data)) ->
         offset_is_known hive_bins_list (fst e) = true
         /\ (signature_at_leaf_level s0 s1 = false ->
             exists node0 c0,
               fst (fst (libregf_key_item_read_sub_keys_list depth
                           hive_bins_list node0 c0 (fst e)))
               = Return 1).
Proof.
  intros B cells depth node c off data Hs H0 Hf Hcell Hone s0 s1 n.
  destruct (read_sub_keys_list_fetched B cells depth node c off data
              Hs H0 Hf Hcell) as [c' Hr].
  fold s0 s1 n in Hr. rewrite Hr in Hone. clear Hr.
  destruct (Z.ltb_spec (Z.of_nat (length data)) 4) as [|H4];
    [discriminate|].
  destruct (signature_is_known s0 s1) eqn:Hsig; [|discriminate].
  cbn [negb] in Hone.
  destruct (Z.ltb_spec (Z.of_nat (length data) - 4)
              (n * element_size_of_signature s0 s1)) as [|Hn];
    [discriminate|].
  split.
  - unfold sub_keys_list_header_invalid. fold s0 s1 n.
    intros [H|[H|H]]; [lia | congruence | lia].
  - apply read_sub_keys_list_elements_returns_1 in Hone.
    destruct Hone as [_ Hall].
    intros e Hin. destruct (Hall e Hin) as [Hknown Hnested].
    split; [exact Hknown|]. intros Hleaf. rewrite Hleaf in Hnested.
    destruct (Hnested eq_refl) as (node0 & c0 & result & Hres & Hr0 & Hr1).
    exists node0, c0.
    destruct (read_sub_keys_list_outcome B depth node0 c0 (fst e))
      as [H|[H|[H|H]]]; rewrite H in Hres |- *;
      [reflexivity | | | discriminate];
      injection Hres as <-; contradiction.
Qed.

(** X3 on the "ri" list over two "lh" lists: the walk returns 1, so both
    offsets of the cell at 400 lie in a bin and both nested walks returned
    1. *)
Lemma X3_sub_keys_walk_returns_1_witness :
  offset_is_known
    (never_evicting (Some 1252) Fixture.ri_over_two_lh
       (Fixture.index_of Fixture.known_offsets)) 700 = true
  /\ exists node0 c0,
       fst (fst (libregf_key_item_read_sub_keys_list 1
                   (never_evicting (Some 1252) Fixture.ri_over_two_lh
                      (Fixture.index_of Fixture.known_offsets))
                   node0 c0 700))
       = Return 1.
Proof.
  destruct (proj2 (X3_sub_keys_walk_returns_1_only_without_unknown_offsets
                     (never_evicting (Some 1252) Fixture.ri_over_two_lh
                        (Fixture.index_of Fixture.known_offsets))
                     Fixture.ri_over_two_lh 1%nat Fixture.empty_node tt 400
                     (["r"; "i"]%byte ++ Fixture.u16 2
                        ++ Fixture.u32 700 ++ Fixture.u32 800)
                     (never_evicting_serves _ _ _)
                     ltac:(lia) ltac:(lia) eq_refl eq_refl) (700, 0))
    as [Hknown Hnested].
  - vm_compute. left. reflexivity.
  - split; [exact Hknown|]. apply Hnested. reflexivity.
Defined.

(** ** The values list *)

Lemma read_values_list_elements_appends hive_bins_list :
  forall (m : nat) data n i k o k' l,
    n - i <= Z.of_nat m ->
    values_list k = Some l ->
    read_values_list_elements hive_bins_list data n i k = (o, k') ->
    exists added,
      values_list k' = Some (l ++ added)
      /\ Forall (list_element_well_formed hive_bins_list) added
      /\ (length added <= m)%nat.
Proof.
  induction m as [|m IH]; intros data n i k o k' l Hm Hl H.
  - rewrite read_values_list_elements_done in H by lia.
    injection H as <- <-. exists []. rewrite app_nil_r. auto.
  - destruct (Z.ltb_spec i n) as [Hlt|Hge].
    2:{ rewrite read_values_list_elements_done in H by lia.
        injection H as <- <-. exists []. rewrite app_nil_r.
        repeat split; [assumption|constructor|cbn; lia]. }
    assert (Hstop : forall o0, (o0, k) = (o, k') ->
              exists added,
                values_list k' = Some (l ++ added)
                /\ Forall (list_element_well_formed hive_bins_list) added
                /\ (length added <= S m)%nat).
    { intros o0 E. injection E as <- <-. exists []. rewrite app_nil_r.
      repeat split; [assumption|constructor|cbn; lia]. }
    destruct data as [|b0 [|b1 [|b2 [|b3 data]]]];
      cbn [read_values_list_elements] in H;
      destruct (Z.ltb_spec i n); try lia;
      try (eapply Hstop; exact H).
    set (e := byte_stream_copy_to_uint32_little_endian b0 b1 b2 b3) in *.
    assert (He : 0 <= e <= UINT32_MAX).
    { unfold e, byte_stream_copy_to_uint32_little_endian, UINT32_MAX.
      pose proof (le_combine_bound [b0; b1; b2; b3]) as Hb.
      cbn [length] in Hb.
      change (2 ^ (8 * Z.of_nat 4)) with 4294967296 in Hb. lia. }
    destruct (Z.eqb_spec
                (libregf_hive_bins_list_get_index_at_offset hive_bins_list e)
                (-1)) as [|Hm1]; [eapply Hstop; exact H|].
    destruct (Z.eqb_spec
                (libregf_hive_bins_list_get_index_at_offset hive_bins_list e)
                0) as [|Hz].
    + apply (IH _ _ _ _ _ _ l) in H; [|lia|exact Hl].
      destruct H as (added & Hv & Hwf & Hlen).
      exists added. repeat split; [assumption|assumption|lia].
    + rewrite Hl in H. cbn [libfdata_list_append_element] in H.
      apply (IH _ _ _ _ _ _ (l ++ [list_element_of_offset e])) in H;
        [|lia|reflexivity].
      destruct H as (added & Hv & Hwf & Hlen).
      exists (list_element_of_offset e :: added).
      rewrite Hv, <- app_assoc. split; [reflexivity|].
      split; [|cbn [length]; lia].
      constructor; [|exact Hwf].
      unfold list_element_well_formed, list_element_of_offset.
      cbn [range_file_index range_size range_flags range_offset].
      auto 10.
Qed.

(** X4.  Whatever its outcome, a read of the values list keeps the
    elements that the list had and appends at most [number_of_values]
    elements; every element it appends has file index, size and flags 0 and
    an offset of 32 bits that the index of bins knows. *)
Theorem X4_values_list_appends_well_formed_elements :
  forall hive_bins_list k c values_list_offset number_of_values o k' c' l,
    values_list k = Some l ->
    libregf_key_item_read_values_list hive_bins_list k c values_list_offset
      number_of_values = (o, k', c') ->
    exists added,
      values_list k' = Some (l ++ added)
      /\ Forall (list_element_well_formed hive_bins_list) added
      /\ Z.of_nat (length added) <= Z.max 0 number_of_values.
Proof.
  intros B k c off n o k' c' l Hl H.
  unfold libregf_key_item_read_values_list in H.
  assert (Hstop : forall (o0 : outcome) (c0 : cache B),
            (o0, k, c0) = (o, k', c') ->
            exists added,
              values_list k' = Some (l ++ added)
              /\ Forall (list_element_well_formed B) added
              /\ Z.of_nat (length added) <= Z.max 0 n).
  { intros o0 c0 E. injection E as <- <- <-. exists [].
    rewrite app_nil_r. repeat split; [assumption|constructor|cbn; lia]. }
  destruct (n =? 0); [eapply Hstop; exact H|].
  destruct ((off =? 0) || (off =? 0xffffffff)); [eapply Hstop; exact H|].
  destruct (libregf_hive_bins_list_get_cell_at_offset B c off)
    as [[cell|] c1]; [|eapply Hstop; exact H].
  cbv zeta in H.
  destruct (_ <? _); [eapply Hstop; exact H|].
  destruct (read_values_list_elements B (hive_bin_cell_data B c1 cell) n 0 k)
    as [o1 k1] eqn:Hloop.
  injection H as <- <- <-.
  apply (read_values_list_elements_appends B (Z.to_nat n) _ _ _ _ _ _ l)
    in Hloop; [|lia|exact Hl].
  destruct Hloop as (added & Hv & Hwf & Hlen).
  exists added. repeat split; [assumption|assumption|lia].
Qed.

(** X4 on the values list with the offsets 300 and 0xdeadbeef. *)
Lemma X4_values_list_appends_witness :
  exists added,
    values_list
      (snd (fst (libregf_key_item_read_values_list
                   (never_evicting (Some 1252)
                      Fixture.values_list_with_unknown_offset
                      (Fixture.index_of Fixture.known_offsets))
                   Fixture.key_item_with_empty_values_list tt 200 2)))
    = Some ([] ++ added)
    /\ Forall
         (list_element_well_formed
            (never_evicting (Some 1252)
               Fixture.values_list_with_unknown_offset
               (Fixture.index_of Fixture.known_offsets))) added
    /\ Z.of_nat (length added) <= Z.max 0 2.
Proof.
  eapply (X4_values_list_appends_well_formed_elements
            (never_evicting (Some 1252)
               Fixture.values_list_with_unknown_offset
               (Fixture.index_of Fixture.known_offsets))
            Fixture.key_item_with_empty_values_list tt 200 2).
  - reflexivity.
  - vm_compute. reflexivity.
Defined.

Lemma read_values_list_elements_in_bounds hive_bins_list :
  forall (m : nat) data n i k,
    n - i <= Z.of_nat m ->
    4 * (n - i) <= Z.of_nat (length data) ->
    fst (read_values_list_elements hive_bins_list data n i k) = Return 1
    \/ fst (read_values_list_elements hive_bins_list data n i k)
       = Return (-1).
Proof.
  induction m as [|m IH]; intros data n i k Hm Hlen.
  - rewrite read_values_list_elements_done by lia. auto.
  - destruct (Z.ltb_spec i n) as [Hlt|Hge].
    2:{ rewrite read_values_list_elements_done by lia. auto. }
    destruct data as [|b0 [|b1 [|b2 [|b3 data]]]];
      cbn [length] in Hlen; try lia.
    cbn [read_values_list_elements].
    destruct (Z.ltb_spec i n); [|lia].
    destruct (_ =? -1); [auto|].
    destruct (_ =? 0); [apply IH; lia|].
    destruct (libfdata_list_append_element _ _ _ _ _); [|auto].
    apply IH; lia.
Qed.

(** X5.  As long as [number_of_values * 4] fits in 32 bits the read of the
    values list stays inside the cell: it returns 1 or -1 and never reads
    past the payload. *)
Theorem X5_values_list_stays_in_bounds_below_2_pow_30 :
  forall hive_bins_list k c values_list_offset number_of_values,
    number_of_values * 4 < 2 ^ 32 ->
    fst (fst (libregf_key_item_read_values_list hive_bins_list k c
                values_list_offset number_of_values)) = Return 1
    \/ fst (fst (libregf_key_item_read_values_list hive_bins_list k c
                   values_list_offset number_of_values)) = Return (-1).
Proof.
  intros B k c off n Hn.
  unfold libregf_key_item_read_values_list.
  destruct (n =? 0); [auto|].
  destruct ((off =? 0) || (off =? 0xffffffff)); [auto|].
  destruct (libregf_hive_bins_list_get_cell_at_offset B c off)
    as [[cell|] c1]; [|auto].
  cbv zeta.
  destruct (Z.ltb_spec (Z.of_nat (length (hive_bin_cell_data B c1 cell)))
              (uint32 (n * 4))) as [|Hsize]; [auto|].
  pose proof (read_values_list_elements_in_bounds B (Z.to_nat n)
                (hive_bin_cell_data B c1 cell) n 0 k) as Hloop.
  destruct (read_values_list_elements B (hive_bin_cell_data B c1 cell) n 0 k)
    as [o1 k1].
  cbn [fst] in *. apply Hloop; [lia|].
  destruct (Z.le_gt_cases n 0); [lia|].
  unfold uint32 in Hsize. rewrite Z.mod_small in Hsize by lia. lia.
Qed.

(** X5 on the values list with two offsets. *)
Lemma X5_values_list_stays_in_bounds_witness :
  fst (fst (libregf_key_item_read_values_list
              (never_evicting (Some 1252)
                 Fixture.values_list_with_unknown_offset
                 (Fixture.index_of Fixture.known_offsets))
              Fixture.key_item_with_empty_values_list tt 200 2)) = Return 1
  \/ fst (fst (libregf_key_item_read_values_list
                 (never_evicting (Some 1252)
                    Fixture.values_list_with_unknown_offset
                    (Fixture.index_of Fixture.known_offsets))
                 Fixture.key_item_with_empty_values_list tt 200 2))
     = Return (-1).
Proof.
  apply (X5_values_list_stays_in_bounds_below_2_pow_30
           (never_evicting (Some 1252)
              Fixture.values_list_with_unknown_offset
              (Fixture.index_of Fixture.known_offsets))
           Fixture.key_item_with_empty_values_list tt 200 2).
  reflexivity.
Defined.

Lemma read_values_list_elements_never_exhausts hive_bins_list :
  forall (m : nat) data n i k,
    n - i <= Z.of_nat m ->
    fst (read_values_list_elements hive_bins_list data n i k)
    <> DepthExhausted.
Proof.
  induction m as [|m IH]; intros data n i k Hm.
  - rewrite read_values_list_elements_done by lia. discriminate.
  - destruct (Z.ltb_spec i n) as [Hlt|Hge].
    2:{ rewrite read_values_list_elements_done by lia. discriminate. }
    destruct data as [|b0 [|b1 [|b2 [|b3 data]]]];
      cbn [read_values_list_elements];
      destruct (Z.ltb_spec i n); try lia; try discriminate.
    destruct (_ =? -1); [discriminate|].
    destruct (_ =? 0); [apply IH; lia|].
    destruct (libfdata_list_append_element _ _ _ _ _); [|discriminate].
    apply IH; lia.
Qed.

Lemma read_values_list_never_exhausts hive_bins_list k c offset n :
  fst (fst (libregf_key_item_read_values_list hive_bins_list k c offset n))
  <> DepthExhausted.
Proof.
  unfold libregf_key_item_read_values_list.
  destruct (n =? 0); [discriminate|].
  destruct ((offset =? 0) || (offset =? 0xffffffff)); [discriminate|].
  destruct (libregf_hive_bins_list_get_cell_at_offset hive_bins_list c offset)
    as [[cell|] c1]; [|discriminate].
  cbv zeta. destruct (_ <? _); [discriminate|].
  pose proof (read_values_list_elements_never_exhausts hive_bins_list
                (Z.to_nat n) (hive_bin_cell_data hive_bins_list c1 cell)
                n 0 k) as Hloop.
  destruct (read_values_list_elements hive_bins_list
              (hive_bin_cell_data hive_bins_list c1 cell) n 0 k) as [o1 k1].
  cbn [fst] in *. apply Hloop. lia.
Qed.

(** ** The load of a key item, whatever its outcome *)

Section LoadOutcomes.

Variable libregf_named_key_read_data :
  list byte -> Z -> Z -> option NamedKey.t.
Variable libregf_security_key_read_data : list byte -> option SecurityKey.t.
Variable libregf_security_key_free : SecurityKey.t -> Z.
Variable LIBREGF_MAXIMUM_CACHE_ENTRIES_VALUES : Z.

Let read_named_key :=
  libregf_key_item_read_named_key libregf_named_key_read_data
    libregf_security_key_read_data libregf_security_key_free
    LIBREGF_MAXIMUM_CACHE_ENTRIES_VALUES.
Let read_node_data :=
  libregf_key_item_read_node_data libregf_named_key_read_data
    libregf_security_key_read_data libregf_security_key_free
    LIBREGF_MAXIMUM_CACHE_ENTRIES_VALUES.

(** Every way out of the load of the named key: what became of the node,
    and of the key item when the load failed; a read past a cell can only
    come from the values list. *)
Lemma read_named_key_outcomes hive_bins_list k node c offset hash
    o k' node' c' :
  read_named_key hive_bins_list k node c offset hash = (o, k', node', c') ->
  (node' = node
   \/ (sub_nodes_data_range node = None
       /\ exists sub_keys_list_offset,
            node' = libfdata_tree_node_set_sub_nodes_data_range node 0
                      sub_keys_list_offset 0 0))
  /\ (o = Return 1
      \/ (o = Return (-1)
          /\ ((k' = k /\ node' = node /\ c' = c)
              \/ (named_key k' = None /\ values_list k' = None
                  /\ values_cache k' = None)))
      \/ (o = BufferOverread
          /\ exists ascii_codepage cell c1 nk k5 c3,
               io_handle hive_bins_list = Some ascii_codepage
               /\ libregf_hive_bins_list_get_cell_at_offset hive_bins_list c
                    (uint32 offset) = (Some cell, c1)
               /\ libregf_named_key_read_data
                    (hive_bin_cell_data hive_bins_list c1 cell) hash
                    ascii_codepage = Some nk
               /\ fst (fst (libregf_key_item_read_values_list hive_bins_list
                              k5 c3 (NamedKey.values_list_offset nk)
                              (NamedKey.number_of_values nk)))
                  = BufferOverread)).
Proof.
  unfold read_named_key, libregf_key_item_read_named_key. intros H.
  assert (Hearly :
    (Return (-1), k, node, c) = (o, k', node', c') ->
    (node' = node
     \/ (sub_nodes_data_range node = None
         /\ exists so,
              node' = libfdata_tree_node_set_sub_nodes_data_range node 0
                        so 0 0))
    /\ (o = Return 1
        \/ (o = Return (-1)
            /\ ((k' = k /\ node' = node /\ c' = c)
                \/ (named_key k' = None /\ values_list k' = None
                    /\ values_cache k' = None)))
        \/ (o = BufferOverread
            /\ exists ascii_codepage cell c1 nk k5 c3,
                 io_handle hive_bins_list = Some ascii_codepage
                 /\ libregf_hive_bins_list_get_cell_at_offset hive_bins_list
                      c (uint32 offset) = (Some cell, c1)
                 /\ libregf_named_key_read_data
                      (hive_bin_cell_data hive_bins_list c1 cell) hash
                      ascii_codepage = Some nk
                 /\ fst (fst (libregf_key_item_read_values_list
                                hive_bins_list k5 c3
                                (NamedKey.values_list_offset nk)
                                (NamedKey.number_of_values nk)))
                    = BufferOverread))).
  { intros E. injection E as <- <- <- <-.
    split; [left; reflexivity|]. right. left. split; [reflexivity|].
    left. auto. }
  assert (Herror :
    forall kx nodex (cx : cache hive_bins_list),
      (nodex = node
       \/ (sub_nodes_data_range node = None
           /\ exists so,
                nodex = libfdata_tree_node_set_sub_nodes_data_range node 0
                          so 0 0)) ->
      (Return (-1), read_named_key_on_error kx, nodex, cx)
      = (o, k', node', c') ->
      (node' = node
       \/ (sub_nodes_data_range node = None
           /\ exists so,
                node' = libfdata_tree_node_set_sub_nodes_data_range node 0
                          so 0 0))
      /\ (o = Return 1
          \/ (o = Return (-1)
              /\ ((k' = k /\ node' = node /\ c' = c)
                  \/ (named_key k' = None /\ values_list k' = None
                      /\ values_cache k' = None)))
          \/ (o = BufferOverread
              /\ exists ascii_codepage cell c1 nk k5 c3,
                   io_handle hive_bins_list = Some ascii_codepage
                   /\ libregf_hive_bins_list_get_cell_at_offset
                        hive_bins_list c (uint32 offset) = (Some cell, c1)
                   /\ libregf_named_key_read_data
                        (hive_bin_cell_data hive_bins_list c1 cell) hash
                        ascii_codepage = Some nk
                   /\ fst (fst (libregf_key_item_read_values_list
                                  hive_bins_list k5 c3
                                  (NamedKey.values_list_offset nk)
                                  (NamedKey.number_of_values nk)))
                      = BufferOverread))).
  { intros kx nodex cx Hnode E. injection E as <- <- <- <-.
    split; [exact Hnode|]. right. left. split; [reflexivity|].
    right. repeat split. }
  destruct (named_key k) eqn:Hnk; [apply Hearly; exact H|].
  destruct (io_handle hive_bins_list) as [cp|] eqn:Hio;
    [|apply Hearly; exact H].
  destruct ((offset =? 0) || (offset >=? 0xffffffff));
    [apply Hearly; exact H|].
  destruct (libregf_hive_bins_list_get_cell_at_offset hive_bins_list c
              (uint32 offset)) as [[cell|] c1] eqn:Hfetch;
    [|eapply Herror; [left; reflexivity|exact H]].
  destruct (libregf_named_key_read_data _ hash cp) as [nk|] eqn:Hdecode;
    [|eapply Herror; [left; reflexivity|exact H]].
  cbv zeta in H.
  destruct (libregf_key_item_read_class_name hive_bins_list
              (set_named_key k (Some nk)) c1 (NamedKey.class_name_offset nk)
              (NamedKey.class_name_size nk)) as [[r2 k2] c2].
  destruct (negb (r2 =? 1));
    [eapply Herror; [left; reflexivity|exact H]|].
  destruct (if negb (NamedKey.security_key_offset nk =? 0xffffffff)
            then
              libregf_key_item_read_security_key
                libregf_security_key_read_data libregf_security_key_free
                hive_bins_list k2 c2 (NamedKey.security_key_offset nk)
            else (1, k2, c2)) as [[r3 k3] c3].
  destruct (negb (r3 =? 1));
    [eapply Herror; [left; reflexivity|exact H]|].
  match type of H with
  | match ?e with _ => _ end = _ =>
      destruct e as [[k4 node4]|] eqn:Hsub;
        [|eapply Herror; [left; reflexivity|exact H]]
  end.
  assert (Hnode4 :
    node4 = node
    \/ (sub_nodes_data_range node = None
        /\ exists so,
             node4 = libfdata_tree_node_set_sub_nodes_data_range node 0
                       so 0 0)).
  { destruct (NamedKey.number_of_sub_keys nk >? 0);
      [|injection Hsub as <- <-; left; reflexivity].
    unfold libfdata_tree_node_sub_nodes_data_range_is_set in Hsub.
    destruct (sub_nodes_data_range node) eqn:Hrange; cbn in Hsub;
      [injection Hsub as <- <-; left; reflexivity|].
    destruct (_ =? -1); [discriminate|].
    destruct (_ =? 0); injection Hsub as <- <-;
      [left; reflexivity|right; eauto]. }
  clear Hsub.
  destruct (libfdata_list_initialize (values_list k4));
    [|eapply Herror; [exact Hnode4|exact H]].
  destruct (libfcache_cache_initialize _ _);
    [|eapply Herror; [exact Hnode4|exact H]].
  destruct (_ =? -1); [eapply Herror; [exact Hnode4|exact H]|].
  destruct (_ =? 0).
  { injection H as <- <- <- <-. split; [exact Hnode4|left; reflexivity]. }
  match type of H with
  | context [libregf_key_item_read_values_list ?B ?k5 ?c5 ?vo ?vn] =>
      pose proof (read_values_list_never_exhausts B k5 c5 vo vn) as Hne;
      destruct (libregf_key_item_read_values_list B k5 c5 vo vn)
        as [[o5 k6] c6] eqn:Hvalues
  end.
  destruct o5 as [r5| |].
  - destruct (negb (r5 =? 1));
      [eapply Herror; [exact Hnode4|exact H]|].
    injection H as <- <- <- <-. split; [exact Hnode4|left; reflexivity].
  - injection H as <- <- <- <-. split; [exact Hnode4|].
    right. right. split; [reflexivity|].
    eexists cp, cell, c1, nk, _, _.
    repeat (split; [eassumption || reflexivity|]).
    rewrite Hvalues. reflexivity.
  - exfalso. apply Hne. reflexivity.
Qed.

(** The key item that a load of the named key hands over when it returns
    1: the named key, the values list and the values cache are there. *)
Lemma read_named_key_returns_1_sets hive_bins_list k node c offset hash
    k' node' c' :
  read_named_key hive_bins_list k node c offset hash
  = (Return 1, k', node', c') ->
  named_key k = None
  /\ named_key k' <> None
  /\ (exists l, values_list k' = Some l)
  /\ values_cache k' = Some LIBREGF_MAXIMUM_CACHE_ENTRIES_VALUES.
Proof.
  intros H. apply read_named_key_returns_1 in H.
  destruct H as (cp & cell & c1 & nk & k2 & c2 & k3 & c3 & k4
                 & Hnone & _ & _ & _ & _ & _ & Hcls & Hsec & Hsub & _ & _ & _
                 & Hvalues).
  split; [exact Hnone|].
  apply read_class_name_keeps in Hcls.
  destruct Hcls as (Hn2 & _).
  cbn [named_key set_named_key] in Hn2.
  assert (Hn3 : named_key k3 = Some nk).
  { destruct Hsec as [(_ & -> & _)|(_ & Hsec)]; [exact Hn2|].
    apply read_security_key_keeps in Hsec.
    destruct Hsec as (? & _). congruence. }
  assert (Hn4 : named_key k4 = Some nk).
  { destruct Hsub as [(_ & _ & _ & -> & _)|[(_ & _ & _ & _ & -> & _)
                                           |(_ & -> & _)]];
      unfold mark_corrupted; cbn [named_key set_item_flags]; exact Hn3. }
  destruct Hvalues as [(_ & -> & _)|(_ & Hvalues)].
  - unfold mark_corrupted.
    cbn [named_key values_list values_cache set_item_flags set_values_cache
         set_values_list].
    rewrite Hn4. repeat split; [discriminate|eauto].
  - pose proof (read_values_list_any _ _ _ _ _ _ _ _ Hvalues)
      as ((E1 & _ & _ & _ & _ & E6) & _).
    cbn [named_key values_cache set_values_cache set_values_list] in E1, E6.
    rewrite E1, Hn4, E6. repeat split; [discriminate|].
    unfold libregf_key_item_read_values_list in Hvalues.
    destruct (_ =? 0); [injection Hvalues as <- <-; cbn; eauto|].
    destruct (_ || _); [discriminate|].
    destruct (libregf_hive_bins_list_get_cell_at_offset _ _ _)
      as [[cell5|] c5]; [|discriminate].
    cbv zeta in Hvalues.
    destruct (_ <? _); [discriminate|].
    match type of Hvalues with
    | context [read_values_list_elements ?B ?d ?n 0 ?k5] =>
        destruct (read_values_list_elements B d n 0 k5) as [o1 k1] eqn:Hloop
    end.
    injection Hvalues as _ <- _.
    apply (read_values_list_elements_appends _ (Z.to_nat
             (NamedKey.number_of_values nk)) _ _ _ _ _ _ []) in Hloop;
      [|lia|reflexivity].
    destruct Hloop as (added & Hv & _). eauto.
Qed.

(** X6.  Whatever its outcome, the load of a key item returns 1 or -1 or
    reads past the values list cell; it appends no sub node, leaves a range
    of the sub nodes that is set alone and may set one that is not; a load
    that does not return 1 leaves the value of the node as it was, a size
    above 32 bits is turned down before anything is fetched, and a load
    that returns 1 installs a key item with its named key, values list and
    values cache. *)
Theorem X6_load_outcomes_and_node :
  forall hive_bins_list node c node_data_offset node_data_size o node' c',
    read_node_data hive_bins_list node c node_data_offset node_data_size
    = (o, node', c') ->
    (o = Return 1 \/ o = Return (-1) \/ o = BufferOverread)
    /\ sub_nodes node' = sub_nodes node
    /\ (sub_nodes_data_range node' = sub_nodes_data_range node
        \/ (sub_nodes_data_range node = None
            /\ exists sub_keys_list_offset,
                 sub_nodes_data_range node'
                 = Some {| range_file_index := 0;
                           range_offset := sub_keys_list_offset;
                           range_size := 0; range_flags := 0 |}))
    /\ (o <> Return 1 -> node_value node' = node_value node)
    /\ (UINT32_MAX < node_data_size ->
        o = Return (-1) /\ node' = node /\ c' = c)
    /\ (o = Return 1 ->
        exists k l,
          node_value node' = Some k
          /\ named_key k <> None
          /\ values_list k = Some l
          /\ values_cache k = Some LIBREGF_MAXIMUM_CACHE_ENTRIES_VALUES).
Proof.
  intros B node c off size o node' c'.
  unfold read_node_data, libregf_key_item_read_node_data.
  cbn [libregf_key_item_initialize]. intros H.
  destruct (Z.gtb_spec size UINT32_MAX) as [Hbig|Hsize].
  { injection H as <- <- <-.
    repeat split; auto; intros; discriminate. }
  destruct (libregf_key_item_read_named_key _ _ _ _ B zeroed_key_item node c
              off (uint32 size)) as [[[o1 k1] node1] c1] eqn:Hload.
  pose proof (read_named_key_outcomes _ _ _ _ _ _ _ _ _ _ Hload)
    as (Hnode & Ho).
  assert (Hsub : sub_nodes node1 = sub_nodes node).
  { destruct Hnode as [-> | (_ & so & ->)]; reflexivity. }
  assert (Hrange :
    sub_nodes_data_range node1 = sub_nodes_data_range node
    \/ (sub_nodes_data_range node = None
        /\ exists so,
             sub_nodes_data_range node1
             = Some {| range_file_index := 0; range_offset := so;
                       range_size := 0; range_flags := 0 |})).
  { destruct Hnode as [-> | (Hnone & so & ->)];
      [left; reflexivity|right; split; [exact Hnone|exists so; reflexivity]]. }
  assert (Hvalue : node_value node1 = node_value node).
  { destruct Hnode as [-> | (_ & so & ->)]; reflexivity. }
  destruct Ho as [-> | [(-> & _) | (-> & _)]].
  - cbn in H. injection H as <- <- <-.
    apply read_named_key_returns_1_sets in Hload.
    destruct Hload as (_ & Hn & (l & Hl) & Hc).
    split; [auto|]. split; [exact Hsub|]. split; [exact Hrange|].
    split; [intros Hne; contradiction|].
    split; [intros; lia|].
    intros _. exists k1, l. auto.
  - cbn in H. injection H as <- <- <-.
    split; [auto|]. split; [exact Hsub|]. split; [exact Hrange|].
    split; [intros _; exact Hvalue|].
    split; [intros; lia|discriminate].
  - injection H as <- <- <-.
    split; [auto|]. split; [exact Hsub|]. split; [exact Hrange|].
    split; [intros _; exact Hvalue|].
    split; [intros; lia|discriminate].
Qed.

Lemma read_values_list_in_bounds hive_bins_list k c offset n :
  n * 4 < 2 ^ 32 ->
  fst (fst (libregf_key_item_read_values_list hive_bins_list k c offset n))
  <> BufferOverread.
Proof.
  intros Hn. unfold libregf_key_item_read_values_list.
  destruct (n =? 0); [discriminate|].
  destruct ((offset =? 0) || (offset =? 0xffffffff)); [discriminate|].
  destruct (libregf_hive_bins_list_get_cell_at_offset hive_bins_list c offset)
    as [[cell|] c1]; [|discriminate].
  cbv zeta.
  destruct (Z.ltb_spec
              (Z.of_nat (length (hive_bin_cell_data hive_bins_list c1 cell)))
              (uint32 (n * 4))) as [|Hsize]; [discriminate|].
  pose proof (read_values_list_elements_in_bounds hive_bins_list (Z.to_nat n)
                (hive_bin_cell_data hive_bins_list c1 cell) n 0 k) as Hloop.
  destruct (read_values_list_elements hive_bins_list
              (hive_bin_cell_data hive_bins_list c1 cell) n 0 k) as [o1 k1].
  cbn [fst] in *.
  destruct Hloop as [-> | ->]; [lia| |discriminate|discriminate].
  destruct (Z.le_gt_cases n 0); [lia|].
  unfold uint32 in Hsize. rewrite Z.mod_small in Hsize by lia. lia.
Qed.

(** X7.  A load from a store that serves the hive never reads past a cell
    as long as the number of values of the key that it decodes, taken four
    times, fits in 32 bits: it returns 1 or -1. *)
Theorem X7_load_stays_in_bounds :
  forall hive_bins_list cells node c node_data_offset node_data_size,
    serves hive_bins_list cells ->
    (forall nk,
       decoded_named_key libregf_named_key_read_data hive_bins_list cells
         node_data_offset node_data_size = Some nk ->
       NamedKey.number_of_values nk * 4 < 2 ^ 32) ->
    fst (fst (read_node_data hive_bins_list node c node_data_offset
                node_data_size)) = Return 1
    \/ fst (fst (read_node_data hive_bins_list node c node_data_offset
                   node_data_size)) = Return (-1).
Proof.
  intros B cells node c off size Hs Hcount.
  unfold read_node_data, libregf_key_item_read_node_data.
  cbn [libregf_key_item_initialize].
  destruct (size >? UINT32_MAX); [right; reflexivity|].
  destruct (libregf_key_item_read_named_key _ _ _ _ B zeroed_key_item node c
              off (uint32 size)) as [[[o1 k1] node1] c1] eqn:Hload.
  pose proof (read_named_key_outcomes _ _ _ _ _ _ _ _ _ _ Hload)
    as (_ & [-> | [(-> & _) | (-> & Hover)]]).
  - left. reflexivity.
  - right. reflexivity.
  - exfalso.
    destruct Hover as (cp & cell & c1' & nk & k5 & c3 & Hio & Hfetch
                       & Hdecode & Hover).
    pose proof (serves_fetch_some _ _ _ _ _ _ Hs Hfetch) as Hcell.
    revert Hover. apply read_values_list_in_bounds.
    apply Hcount. unfold decoded_named_key. rewrite Hio, Hcell.
    exact Hdecode.
Qed.

(** X8.  A key item loads once: after a load of the named key that
    returned 1, a further load into the same key item returns -1 and
    changes neither the key item nor the node nor the cache, whatever the
    offset. *)
Theorem X8_named_key_loads_once :
  forall hive_bins_list k node c offset hash k' node' c',
    read_named_key hive_bins_list k node c offset hash
    = (Return 1, k', node', c') ->
    forall node2 c2 offset2 hash2,
      read_named_key hive_bins_list k' node2 c2 offset2 hash2
      = (Return (-1), k', node2, c2).
Proof.
  intros B k node c off hash k' node' c' H node2 c2 off2 hash2.
  apply read_named_key_returns_1_sets in H.
  destruct H as (_ & Hn & _).
  unfold read_named_key, libregf_key_item_read_named_key.
  destruct (named_key k'); [reflexivity|contradiction].
Qed.

End LoadOutcomes.

(** X7 on the key at 32 of the small hive, from the store with one slot. *)
Lemma X7_load_stays_in_bounds_witness :
  let loaded :=
    libregf_key_item_read_node_data Fixture.read_full_named_key
      Fixture.whole_cell_security_key Fixture.free_succeeds 8
      (single_slot (Some 1252) Fixture.full_cells
         (Fixture.index_of Fixture.known_offsets))
      Fixture.empty_node [] 32 0 in
  fst (fst loaded) = Return 1 \/ fst (fst loaded) = Return (-1).
Proof.
  cbv zeta.
  apply (X7_load_stays_in_bounds Fixture.read_full_named_key
           Fixture.whole_cell_security_key Fixture.free_succeeds 8
           (single_slot (Some 1252) Fixture.full_cells
              (Fixture.index_of Fixture.known_offsets))
           Fixture.full_cells Fixture.empty_node [] 32 0).
  - apply single_slot_serves.
  - intros nk Hd. vm_compute in Hd. injection Hd as <-. reflexivity.
Defined.

(** X8 on the key at 32 of the small hive: a second load at offset 32
    fails and leaves the key item as the first load left it. *)
Lemma X8_named_key_loads_once_witness :
  let hive_bins_list :=
    never_evicting (Some 1252) Fixture.full_cells
      (Fixture.index_of Fixture.known_offsets) in
  let first :=
    libregf_key_item_read_named_key Fixture.read_full_named_key
      Fixture.whole_cell_security_key Fixture.free_succeeds 8
      hive_bins_list zeroed_key_item Fixture.empty_node tt 32 0 in
  libregf_key_item_read_named_key Fixture.read_full_named_key
    Fixture.whole_cell_security_key Fixture.free_succeeds 8
    hive_bins_list (snd (fst (fst first))) Fixture.empty_node tt 32 0
  = (Return (-1), snd (fst (fst first)), Fixture.empty_node, tt).
Proof.
  cbv zeta.
  apply (X8_named_key_loads_once Fixture.read_full_named_key
           Fixture.whole_cell_security_key Fixture.free_succeeds 8
           (never_evicting (Some 1252) Fixture.full_cells
              (Fixture.index_of Fixture.known_offsets))
           zeroed_key_item Fixture.empty_node tt 32 0 _
           (snd (fst (libregf_key_item_read_named_key
                        Fixture.read_full_named_key
                        Fixture.whole_cell_security_key
                        Fixture.free_succeeds 8
                        (never_evicting (Some 1252) Fixture.full_cells
                           (Fixture.index_of Fixture.known_offsets))
                        zeroed_key_item Fixture.empty_node tt 32 0)))
           tt).
  vm_compute. reflexivity.
Defined.

(** X6 on the key at 32 of the small hive: the load returns 1, appends no
    sub node and installs a key item with a values cache of 8 entries. *)
Lemma X6_load_outcomes_witness :
  let loaded :=
    libregf_key_item_read_node_data Fixture.read_full_named_key
      Fixture.whole_cell_security_key Fixture.free_succeeds 8
      (never_evicting (Some 1252) Fixture.full_cells
         (Fixture.index_of Fixture.known_offsets))
      Fixture.empty_node tt 32 0 in
  sub_nodes (snd (fst loaded)) = sub_nodes Fixture.empty_node
  /\ exists k l,
       node_value (snd (fst loaded)) = Some k
       /\ values_list k = Some l
       /\ values_cache k = Some 8.
Proof.
  cbv zeta.
  destruct (X6_load_outcomes_and_node Fixture.read_full_named_key
              Fixture.whole_cell_security_key Fixture.free_succeeds 8
              (never_evicting (Some 1252) Fixture.full_cells
                 (Fixture.index_of Fixture.known_offsets))
              Fixture.empty_node tt 32 0 (Return 1)
              (snd (fst (libregf_key_item_read_node_data
                           Fixture.read_full_named_key
                           Fixture.whole_cell_security_key
                           Fixture.free_succeeds 8
                           (never_evicting (Some 1252) Fixture.full_cells
                              (Fixture.index_of Fixture.known_offsets))
                           Fixture.empty_node tt 32 0)))
              tt)
    as (_ & Hsub & _ & _ & _ & Hk).
  - vm_compute. reflexivity.
  - split; [exact Hsub|].
    destruct (Hk eq_refl) as (k & l & Hv & _ & Hl & Hc).
    exists k, l. auto.
Defined.

(** ** The cells that a load fetches *)

Lemma recording_read_values_list codepage cells index k c offset n o k' c' :
  libregf_key_item_read_values_list (recording codepage cells index) k c
    offset n = (o, k', c') ->
  c' = c \/ c' = offset :: c.
Proof.
  unfold libregf_key_item_read_values_list.
  cbn [libregf_hive_bins_list_get_cell_at_offset recording].
  intros H.
  destruct (n =? 0); [injection H as <- <- <-; auto|].
  destruct ((offset =? 0) || (offset =? 0xffffffff));
    [injection H as <- <- <-; auto|].
  destruct (cells offset) as [data|]; [|injection H as <- <- <-; auto].
  cbv zeta in H.
  destruct (_ <? _); [injection H as <- <- <-; auto|].
  destruct (read_values_list_elements _ _ n 0 k) as [o1 k1].
  injection H as <- <- <-. auto.
Qed.

Section LoadFetches.

Variable libregf_named_key_read_data :
  list byte -> Z -> Z -> option NamedKey.t.
Variable libregf_security_key_read_data : list byte -> option SecurityKey.t.
Variable libregf_security_key_free : SecurityKey.t -> Z.
Variable LIBREGF_MAXIMUM_CACHE_ENTRIES_VALUES : Z.

Let read_named_key :=
  libregf_key_item_read_named_key libregf_named_key_read_data
    libregf_security_key_read_data libregf_security_key_free
    LIBREGF_MAXIMUM_CACHE_ENTRIES_VALUES.
Let read_node_data :=
  libregf_key_item_read_node_data libregf_named_key_read_data
    libregf_security_key_read_data libregf_security_key_free
    LIBREGF_MAXIMUM_CACHE_ENTRIES_VALUES.

(** The log of the store after a load of the named key: nothing is
    fetched, or the cell of the key and then, for the named key [nk] that
    the cell decodes to, at most the cells of the class name, of the
    security key and of the values list, in this order. *)
Lemma recording_read_named_key_fetches codepage cells index k node log
    offset hash :
  let log' :=
    snd (read_named_key (recording codepage cells index) k node log offset
           hash) in
  log' = log
  \/ log' = uint32 offset :: log
  \/ exists ascii_codepage data nk class_name security_key values,
       codepage = Some ascii_codepage
       /\ cells (uint32 offset) = Some data
       /\ libregf_named_key_read_data data hash ascii_codepage = Some nk
       /\ (class_name = [] \/ class_name = [NamedKey.class_name_offset nk])
       /\ (security_key = []
           \/ security_key = [NamedKey.security_key_offset nk])
       /\ (values = [] \/ values = [NamedKey.values_list_offset nk])
       /\ log' = values ++ security_key ++ class_name
                 ++ uint32 offset :: log.
Proof.
  cbv zeta. unfold read_named_key, libregf_key_item_read_named_key.
  cbn [io_handle recording libregf_hive_bins_list_get_cell_at_offset
       hive_bin_cell_data libregf_hive_bins_list_get_index_at_offset].
  destruct (named_key k); [left; reflexivity|].
  destruct codepage as [cp|]; [|left; reflexivity].
  destruct ((offset =? 0) || (offset >=? 0xffffffff)); [left; reflexivity|].
  destruct (cells (uint32 offset)) as [data|] eqn:Hcell;
    [|right; left; reflexivity].
  destruct (libregf_named_key_read_data data hash cp) as [nk|] eqn:Hdecode;
    [|right; left; reflexivity].
  right. right. exists cp, data, nk. cbv zeta.
  destruct (libregf_key_item_read_class_name (recording (Some cp) cells index)
              (set_named_key k (Some nk)) (uint32 offset :: log)
              (NamedKey.class_name_offset nk) (NamedKey.class_name_size nk))
    as [[r2 k2] c2] eqn:Hcls.
  apply recording_read_class_name in Hcls.
  assert (Hc2 : exists class_name,
            (class_name = [] \/ class_name = [NamedKey.class_name_offset nk])
            /\ c2 = class_name ++ uint32 offset :: log).
  { destruct Hcls as [-> | ->]; [exists []|eexists [_]]; auto. }
  clear Hcls. destruct Hc2 as (cls & Hcls & ->).
  destruct (negb (r2 =? 1)).
  { exists cls, [], []. cbn [snd app]. auto 10. }
  match goal with
  | |- context [if negb (NamedKey.security_key_offset nk =? _)
                then ?a else ?b] =>
      destruct (if negb (NamedKey.security_key_offset nk =? 0xffffffff)
                then a else b) as [[r3 k3] c3] eqn:Hsec
  end.
  assert (Hc3 : exists security_key,
            (security_key = []
             \/ security_key = [NamedKey.security_key_offset nk])
            /\ c3 = security_key ++ cls ++ uint32 offset :: log).
  { destruct (negb (NamedKey.security_key_offset nk =? 0xffffffff)).
    - apply recording_read_security_key in Hsec.
      destruct Hsec as [-> | ->]; [exists []|eexists [_]]; auto.
    - injection Hsec as <- <- <-. exists []. auto. }
  clear Hsec. destruct Hc3 as (sec & Hsec & ->).
  assert (Hend : forall values,
            values = [] \/ values = [NamedKey.values_list_offset nk] ->
            exists class_name security_key values0,
              Some cp = Some cp /\ Some data = Some data
              /\ libregf_named_key_read_data data hash cp = Some nk
              /\ (class_name = []
                  \/ class_name = [NamedKey.class_name_offset nk])
              /\ (security_key = []
                  \/ security_key = [NamedKey.security_key_offset nk])
              /\ (values0 = []
                  \/ values0 = [NamedKey.values_list_offset nk])
              /\ values ++ sec ++ cls ++ uint32 offset :: log
                 = values0 ++ security_key ++ class_name
                   ++ uint32 offset :: log).
  { intros values Hvalues. exists cls, sec, values. auto 10. }
  destruct (negb (r3 =? 1)); [exact (Hend [] (or_introl eq_refl))|].
  match goal with
  | |- context [match ?e with Some _ => _ | None => _ end] =>
      destruct e as [[k4 node4]|]; [|exact (Hend [] (or_introl eq_refl))]
  end.
  destruct (libfdata_list_initialize (values_list k4));
    [|exact (Hend [] (or_introl eq_refl))].
  destruct (libfcache_cache_initialize _ _); [|exact (Hend [] (or_introl eq_refl))].
  destruct (_ =? -1); [exact (Hend [] (or_introl eq_refl))|].
  destruct (_ =? 0); [exact (Hend [] (or_introl eq_refl))|].
  match goal with
  | |- context [libregf_key_item_read_values_list ?B ?k5 ?c5 ?vo ?vn] =>
      destruct (libregf_key_item_read_values_list B k5 c5 vo vn)
        as [[o5 k6] c6] eqn:Hvalues
  end.
  apply recording_read_values_list in Hvalues.
  assert (Hc6 : exists values,
            (values = [] \/ values = [NamedKey.values_list_offset nk])
            /\ c6 = values ++ sec ++ cls ++ uint32 offset :: log).
  { destruct Hvalues as [-> | ->]; [exists []|eexists [_]]; auto. }
  destruct Hc6 as (values & Hv & ->).
  destruct o5 as [r5| |]; [destruct (negb (r5 =? 1))| |];
    exact (Hend values Hv).
Qed.

(** X9.  Whatever its outcome, a load of a key item fetches at most four
    cells: the cell of the key and, for the named key that this cell
    decodes to, the cells of the class name, of the security key and of the
    values list; no cell of a sub key and no cell of a value. *)
Theorem X9_load_fetches_at_most_four_cells :
  forall codepage cells index node log node_data_offset node_data_size,
    exists fetched,
      snd (read_node_data (recording codepage cells index) node log
             node_data_offset node_data_size) = fetched ++ log
      /\ (length fetched <= 4)%nat
      /\ forall o,
           In o fetched ->
           o = uint32 node_data_offset
           \/ exists nk,
                decoded_named_key libregf_named_key_read_data
                  (recording codepage cells index) cells node_data_offset
                  node_data_size = Some nk
                /\ (o = NamedKey.class_name_offset nk
                    \/ o = NamedKey.security_key_offset nk
                    \/ o = NamedKey.values_list_offset nk).
Proof.
  intros codepage cells index node log off size.
  unfold read_node_data, libregf_key_item_read_node_data.
  cbn [libregf_key_item_initialize].
  destruct (size >? UINT32_MAX).
  { exists []. split; [reflexivity|]. split; [cbn; lia|].
    intros o []. }
  pose proof (recording_read_named_key_fetches codepage cells index
                zeroed_key_item node log off (uint32 size)) as Hlog.
  cbv zeta in Hlog. unfold read_named_key in Hlog.
  destruct (libregf_key_item_read_named_key _ _ _ _
              (recording codepage cells index) zeroed_key_item node log off
              (uint32 size)) as [[[o1 k1] node1] c1].
  cbn [snd] in Hlog.
  assert (Hsnd :
    snd (match o1 with
         | Return result =>
             if negb (result =? 1) then (Return (-1), node1, c1)
             else (Return 1, libfdata_tree_node_set_node_value node1 k1, c1)
         | _ => (o1, node1, c1)
         end) = c1).
  { destruct o1 as [r| |]; [destruct (negb (r =? 1))| |]; reflexivity. }
  rewrite Hsnd. clear Hsnd.
  destruct Hlog as [-> | [-> | Hlog]].
  - exists []. split; [reflexivity|]. split; [cbn; lia|]. intros o [].
  - exists [uint32 off]. split; [reflexivity|]. split; [cbn; lia|].
    intros o [<- | []]. left. reflexivity.
  - destruct Hlog as (cp & data & nk & cls & sec & values & -> & Hcell
                      & Hdecode & Hcls & Hsec & Hvalues & ->).
    exists (values ++ sec ++ cls ++ [uint32 off]).
    split; [rewrite <- !app_assoc; reflexivity|].
    split.
    { destruct Hcls as [-> | ->], Hsec as [-> | ->], Hvalues as [-> | ->];
        cbn; lia. }
    intros o Hin.
    assert (Hd : decoded_named_key libregf_named_key_read_data
                   (recording (Some cp) cells index) cells off size
                 = Some nk).
    { unfold decoded_named_key. cbn [io_handle recording].
      rewrite Hcell. exact Hdecode. }
    rewrite !in_app_iff in Hin.
    destruct Hin as [Hin | [Hin | [Hin | [<- | []]]]];
      [right; exists nk; split; [exact Hd|]..|left; reflexivity].
    + destruct Hvalues as [-> | ->]; cbn [In] in Hin;
        [contradiction|destruct Hin as [<- | []]; auto].
    + destruct Hsec as [-> | ->]; cbn [In] in Hin;
        [contradiction|destruct Hin as [<- | []]; auto].
    + destruct Hcls as [-> | ->]; cbn [In] in Hin;
        [contradiction|destruct Hin as [<- | []]; auto].
Qed.

End LoadFetches.

(** ** The load of a key item from two stores of the same hive *)

Section TwoStoresLoad.

Variable libregf_named_key_read_data :
  list byte -> Z -> Z -> option NamedKey.t.
Variable libregf_security_key_read_data : list byte -> option SecurityKey.t.
Variable libregf_security_key_free : SecurityKey.t -> Z.
Variable LIBREGF_MAXIMUM_CACHE_ENTRIES_VALUES : Z.

Let read_security_key :=
  libregf_key_item_read_security_key libregf_security_key_read_data
    libregf_security_key_free.
Let read_named_key :=
  libregf_key_item_read_named_key libregf_named_key_read_data
    libregf_security_key_read_data libregf_security_key_free
    LIBREGF_MAXIMUM_CACHE_ENTRIES_VALUES.
Let read_node_data :=
  libregf_key_item_read_node_data libregf_named_key_read_data
    libregf_security_key_read_data libregf_security_key_free
    LIBREGF_MAXIMUM_CACHE_ENTRIES_VALUES.

Variables store1 store2 : libregf_hive_bins_list.
Variable cells : hive_cells.
Hypothesis serves1 : serves store1 cells.
Hypothesis serves2 : serves store2 cells.
Hypothesis same_index :
  forall offset,
    libregf_hive_bins_list_get_index_at_offset store1 offset
    = libregf_hive_bins_list_get_index_at_offset store2 offset.
Hypothesis same_io_handle : io_handle store1 = io_handle store2.

Lemma read_class_name_two_stores k c1 c2 offset size :
  fst (libregf_key_item_read_class_name store1 k c1 offset size)
  = fst (libregf_key_item_read_class_name store2 k c2 offset size).
Proof.
  unfold libregf_key_item_read_class_name.
  destruct (class_name k) eqn:Hclass; [reflexivity|].
  destruct (offset =? 0xffffffff); [reflexivity|].
  destruct ((offset =? 0) && (size =? 0)); [reflexivity|].
  destruct (offset =? 0); [reflexivity|].
  pose proof (serves1 c1 offset) as H1.
  pose proof (serves2 c2 offset) as H2.
  destruct (libregf_hive_bins_list_get_cell_at_offset store1 c1 offset)
    as [[cell1|] c1'];
    destruct (libregf_hive_bins_list_get_cell_at_offset store2 c2 offset)
      as [[cell2|] c2']; try congruence; [|reflexivity].
  assert (E : hive_bin_cell_data store1 c1' cell1
              = hive_bin_cell_data store2 c2' cell2) by congruence.
  rewrite E.
  destruct (libregf_key_item_read_class_name_data k _ size) as [r k'].
  destruct (negb (r =? 1)); reflexivity.
Qed.

Lemma read_security_key_two_stores k c1 c2 offset :
  fst (read_security_key store1 k c1 offset)
  = fst (read_security_key store2 k c2 offset).
Proof.
  unfold read_security_key, libregf_key_item_read_security_key.
  destruct (security_descriptor k); [reflexivity|].
  destruct ((offset =? 0) || (offset =? 0xffffffff)); [reflexivity|].
  pose proof (serves1 c1 offset) as H1.
  pose proof (serves2 c2 offset) as H2.
  destruct (libregf_hive_bins_list_get_cell_at_offset store1 c1 offset)
    as [[cell1|] c1'];
    destruct (libregf_hive_bins_list_get_cell_at_offset store2 c2 offset)
      as [[cell2|] c2']; try congruence; [|reflexivity].
  assert (E : hive_bin_cell_data store1 c1' cell1
              = hive_bin_cell_data store2 c2' cell2) by congruence.
  rewrite E.
  destruct (libregf_security_key_read_data _); [|reflexivity].
  destruct (negb (_ =? 1)); reflexivity.
Qed.

Lemma read_values_list_elements_two_stores :
  forall (m : nat) data n i k,
    n - i <= Z.of_nat m ->
    read_values_list_elements store1 data n i k
    = read_values_list_elements store2 data n i k.
Proof.
  induction m as [|m IH]; intros data n i k Hm.
  - rewrite !read_values_list_elements_done by lia. reflexivity.
  - destruct (Z.ltb_spec i n) as [Hlt|Hge].
    2:{ rewrite !read_values_list_elements_done by lia. reflexivity. }
    destruct data as [|b0 [|b1 [|b2 [|b3 data]]]];
      cbn [read_values_list_elements];
      destruct (Z.ltb_spec i n); try lia; try reflexivity.
    rewrite same_index.
    destruct (_ =? -1); [reflexivity|].
    destruct (_ =? 0); [apply IH; lia|].
    destruct (libfdata_list_append_element _ _ _ _ _); [|reflexivity].
    apply IH; lia.
Qed.

Lemma read_values_list_two_stores k c1 c2 offset n :
  fst (libregf_key_item_read_values_list store1 k c1 offset n)
  = fst (libregf_key_item_read_values_list store2 k c2 offset n).
Proof.
  unfold libregf_key_item_read_values_list.
  destruct (n =? 0); [reflexivity|].
  destruct ((offset =? 0) || (offset =? 0xffffffff)); [reflexivity|].
  pose proof (serves1 c1 offset) as H1.
  pose proof (serves2 c2 offset) as H2.
  destruct (libregf_hive_bins_list_get_cell_at_offset store1 c1 offset)
    as [[cell1|] c1'];
    destruct (libregf_hive_bins_list_get_cell_at_offset store2 c2 offset)
      as [[cell2|] c2']; try congruence; [|reflexivity].
  assert (E : hive_bin_cell_data store1 c1' cell1
              = hive_bin_cell_data store2 c2' cell2) by congruence.
  cbv zeta. rewrite E.
  destruct (_ <? _); [reflexivity|].
  rewrite (read_values_list_elements_two_stores (Z.to_nat n)) by lia.
  destruct (read_values_list_elements store2 _ n 0 k). reflexivity.
Qed.

Lemma read_named_key_two_stores k node c1 c2 offset hash :
  fst (read_named_key store1 k node c1 offset hash)
  = fst (read_named_key store2 k node c2 offset hash).
Proof.
  unfold read_named_key, libregf_key_item_read_named_key.
  rewrite <- same_io_handle.
  destruct (named_key k); [reflexivity|].
  destruct (io_handle store1) as [cp|]; [|reflexivity].
  destruct ((offset =? 0) || (offset >=? 0xffffffff)); [reflexivity|].
  pose proof (serves1 c1 (uint32 offset)) as H1.
  pose proof (serves2 c2 (uint32 offset)) as H2.
  destruct (libregf_hive_bins_list_get_cell_at_offset store1 c1
              (uint32 offset)) as [[cell1|] c1'];
    destruct (libregf_hive_bins_list_get_cell_at_offset store2 c2
                (uint32 offset)) as [[cell2|] c2'];
    try congruence; [|reflexivity].
  assert (E : hive_bin_cell_data store1 c1' cell1
              = hive_bin_cell_data store2 c2' cell2) by congruence.
  rewrite E. clear E H1 H2.
  destruct (libregf_named_key_read_data _ hash cp) as [nk|]; [|reflexivity].
  cbv zeta.
  pose proof (read_class_name_two_stores (set_named_key k (Some nk)) c1' c2'
                (NamedKey.class_name_offset nk)
                (NamedKey.class_name_size nk)) as Hcls.
  destruct (libregf_key_item_read_class_name store1 _ c1' _ _)
    as [[r2 k2] c2a].
  destruct (libregf_key_item_read_class_name store2 _ c2' _ _)
    as [[r2' k2'] c2b].
  cbn [fst] in Hcls. injection Hcls as -> ->.
  destruct (negb (r2' =? 1)); [reflexivity|].
  match goal with
  | |- context [if negb (NamedKey.security_key_offset nk =? ?s)
                then libregf_key_item_read_security_key ?d ?f store1 ?k2 ?ca
                       ?o
                else ?b1] =>
      match goal with
      | |- context [if negb (NamedKey.security_key_offset nk =? s)
                    then libregf_key_item_read_security_key d f store2 k2
                           ?cb o
                    else ?b2] =>
          assert (Hsec :
            fst (if negb (NamedKey.security_key_offset nk =? s)
                 then libregf_key_item_read_security_key d f store1 k2 ca o
                 else b1)
            = fst (if negb (NamedKey.security_key_offset nk =? s)
                   then libregf_key_item_read_security_key d f store2 k2 cb o
                   else b2))
            by (destruct (negb (NamedKey.security_key_offset nk =? s));
                [apply read_security_key_two_stores|reflexivity]);
          destruct (if negb (NamedKey.security_key_offset nk =? s)
                    then libregf_key_item_read_security_key d f store1 k2 ca o
                    else b1) as [[r3 k3] c3a];
          destruct (if negb (NamedKey.security_key_offset nk =? s)
                    then libregf_key_item_read_security_key d f store2 k2 cb o
                    else b2) as [[r3' k3'] c3b]
      end
  end.
  cbn [fst] in Hsec. injection Hsec as -> ->.
  destruct (negb (r3' =? 1)); [reflexivity|].
  rewrite !same_index.
  repeat first
    [ reflexivity
    | match goal with
      | |- context [libregf_key_item_read_values_list store1 ?k5 ?ca ?o ?n] =>
          let Hv := fresh "Hv" in
          pose proof (read_values_list_two_stores k5 ca c3b o n) as Hv;
          destruct (libregf_key_item_read_values_list store1 k5 ca o n)
            as [[? ?] ?];
          destruct (libregf_key_item_read_values_list store2 k5 c3b o n)
            as [[? ?] ?];
          cbn [fst] in Hv; injection Hv as -> ->
      end
    | match goal with
      | |- context [match ?x with _ => _ end] =>
          lazymatch x with
          | context [match _ with _ => _ end] => fail
          | context [libregf_key_item_read_values_list] => fail
          | _ => destruct x
          end
      end ].
Qed.

(** X10.  The load of a key item does not depend on the cache of the
    store: two stores that serve the same hive cells, with the same index
    of bins and the same codepage, give the same outcome and the same tree
    node, whatever the states of their caches. *)
Theorem X10_load_same_under_eviction :
  forall node c1 c2 node_data_offset node_data_size,
    observable (read_node_data store1 node c1 node_data_offset
                  node_data_size)
    = observable (read_node_data store2 node c2 node_data_offset
                    node_data_size).
Proof.
  intros node c1 c2 off size.
  unfold read_node_data, libregf_key_item_read_node_data.
  cbn [libregf_key_item_initialize].
  destruct (size >? UINT32_MAX); [reflexivity|].
  pose proof (read_named_key_two_stores zeroed_key_item node c1 c2 off
                (uint32 size)) as H.
  unfold read_named_key in H.
  destruct (libregf_key_item_read_named_key _ _ _ _ store1 _ _ c1 _ _)
    as [[[o1 k1] node1] c1'].
  destruct (libregf_key_item_read_named_key _ _ _ _ store2 _ _ c2 _ _)
    as [[[o2 k2] node2] c2'].
  cbn [fst] in H. injection H as -> -> ->.
  destruct o2 as [r| |]; [destruct (negb (r =? 1))| |]; reflexivity.
Qed.

End TwoStoresLoad.

(** X10 on the small hive: the store with one slot and the store that
    never evicts load the key at 32 alike. *)
Lemma X10_load_same_under_eviction_witness :
  observable
    (libregf_key_item_read_node_data Fixture.read_full_named_key
       Fixture.whole_cell_security_key Fixture.free_succeeds 8
       (single_slot (Some 1252) Fixture.full_cells
          (Fixture.index_of Fixture.known_offsets))
       Fixture.empty_node [] 32 0)
  = observable
      (libregf_key_item_read_node_data Fixture.read_full_named_key
         Fixture.whole_cell_security_key Fixture.free_succeeds 8
         (never_evicting (Some 1252) Fixture.full_cells
            (Fixture.index_of Fixture.known_offsets))
         Fixture.empty_node tt 32 0).
Proof.
  apply (X10_load_same_under_eviction Fixture.read_full_named_key
           Fixture.whole_cell_security_key Fixture.free_succeeds 8
           (single_slot (Some 1252) Fixture.full_cells
              (Fixture.index_of Fixture.known_offsets))
           (never_evicting (Some 1252) Fixture.full_cells
              (Fixture.index_of Fixture.known_offsets))
           Fixture.full_cells).
  - apply single_slot_serves.
  - apply never_evicting_serves.
  - intros offset. reflexivity.
  - reflexivity.
Defined.

(** ** The number of values of a loaded key *)

Lemma read_values_list_elements_returns_1_count hive_bins_list :
  forall (m : nat) data n i k k' l,
    n - i <= Z.of_nat m ->
    values_list k = Some l ->
    read_values_list_elements hive_bins_list data n i k = (Return 1, k') ->
    exists added,
      values_list k' = Some (l ++ added)
      /\ Z.of_nat (length added) <= Z.max 0 (n - i)
      /\ (is_corrupted k' = false ->
          Z.of_nat (length added) = Z.max 0 (n - i)).
Proof.
  induction m as [|m IH]; intros data n i k k' l Hm Hl H.
  - rewrite read_values_list_elements_done in H by lia.
    injection H as <-. exists []. rewrite app_nil_r.
    cbn [length]. repeat split; [assumption|lia|lia].
  - destruct (Z.ltb_spec i n) as [Hlt|Hge].
    2:{ rewrite read_values_list_elements_done in H by lia.
        injection H as <-. exists []. rewrite app_nil_r.
        cbn [length]. repeat split; [assumption|lia|lia]. }
    destruct data as [|b0 [|b1 [|b2 [|b3 data]]]];
      cbn [read_values_list_elements] in H;
      destruct (Z.ltb_spec i n); try lia; try discriminate.
    set (e := byte_stream_copy_to_uint32_little_endian b0 b1 b2 b3) in *.
    destruct (libregf_hive_bins_list_get_index_at_offset hive_bins_list e
              =? -1); [discriminate|].
    destruct (libregf_hive_bins_list_get_index_at_offset hive_bins_list e
              =? 0).
    + pose proof H as Hany.
      apply (read_values_list_elements_any hive_bins_list m) in Hany; [|lia].
      destruct Hany as (_ & Hflags).
      apply (IH _ _ _ _ _ l) in H; [|lia|exact Hl].
      destruct H as (added & Hv & Hlen & _).
      exists added. split; [exact Hv|]. split; [lia|].
      intros Hclean. exfalso. unfold is_corrupted in Hclean.
      unfold mark_corrupted in Hflags. cbn [item_flags set_item_flags] in Hflags.
      destruct Hflags as [Hf|[Hf _]]; rewrite Hf in Hclean.
      * rewrite lor_corrupted_testbit in Hclean. discriminate.
      * rewrite lor_corrupted_testbit in Hclean. discriminate.
    + rewrite Hl in H. cbn [libfdata_list_append_element] in H.
      apply (IH _ _ _ _ _ (l ++ [list_element_of_offset e])) in H;
        [|lia|reflexivity].
      destruct H as (added & Hv & Hlen & Hcount).
      exists (list_element_of_offset e :: added).
      rewrite Hv, <- app_assoc. split; [reflexivity|].
      cbn [length]. split; [lia|].
      intros Hclean. specialize (Hcount Hclean). lia.
Qed.

Lemma read_values_list_returns_1_count hive_bins_list k c offset n k' c' :
  values_list k = Some [] ->
  libregf_key_item_read_values_list hive_bins_list k c offset n
  = (Return 1, k', c') ->
  exists added,
    values_list k' = Some added
    /\ Z.of_nat (length added) <= Z.max 0 n
    /\ (is_corrupted k' = false -> Z.of_nat (length added) = Z.max 0 n).
Proof.
  intros Hl H. unfold libregf_key_item_read_values_list in H.
  destruct (Z.eqb_spec n 0) as [->|Hn].
  { injection H as <- <-. exists [].
    split; [exact Hl|]. split; [cbn; lia|]. intros _. reflexivity. }
  destruct ((offset =? 0) || (offset =? 0xffffffff)); [discriminate|].
  destruct (libregf_hive_bins_list_get_cell_at_offset hive_bins_list c offset)
    as [[cell|] c1]; [|discriminate].
  cbv zeta in H.
  destruct (_ <? _); [discriminate|].
  destruct (read_values_list_elements hive_bins_list
              (hive_bin_cell_data hive_bins_list c1 cell) n 0 k)
    as [o1 k1] eqn:Hloop.
  injection H as -> <- <-.
  apply (read_values_list_elements_returns_1_count hive_bins_list
           (Z.to_nat n) _ _ _ _ _ []) in Hloop; [|lia|exact Hl].
  rewrite Z.sub_0_r in Hloop. exact Hloop.
Qed.

Section NumberOfValues.

Variable libregf_named_key_read_data :
  list byte -> Z -> Z -> option NamedKey.t.
Variable libregf_security_key_read_data : list byte -> option SecurityKey.t.
Variable libregf_security_key_free : SecurityKey.t -> Z.
Variable LIBREGF_MAXIMUM_CACHE_ENTRIES_VALUES : Z.

Let read_node_data :=
  libregf_key_item_read_node_data libregf_named_key_read_data
    libregf_security_key_read_data libregf_security_key_free
    LIBREGF_MAXIMUM_CACHE_ENTRIES_VALUES.

(** X11.  After a load that returned 1 the number of values of the key
    item can always be asked for: the call returns 1 with a count that is
    at most the number of values of the named key, and that equals it
    unless the key item is flagged as corrupted. *)
Theorem X11_number_of_values_of_loaded_key :
  forall hive_bins_list cells node c node_data_offset node_data_size node' c',
    serves hive_bins_list cells ->
    read_node_data hive_bins_list node c node_data_offset node_data_size
    = (Return 1, node', c') ->
    exists nk k number_of_values,
      decoded_named_key libregf_named_key_read_data hive_bins_list cells
        node_data_offset node_data_size = Some nk
      /\ node_value node' = Some k
      /\ libregf_key_item_get_number_of_values k = (1, Some number_of_values)
      /\ 0 <= number_of_values <= Z.max 0 (NamedKey.number_of_values nk)
      /\ (is_corrupted k = false ->
          number_of_values = Z.max 0 (NamedKey.number_of_values nk)).
Proof.
  intros B cells node c off size node' c' Hs Hload.
  destruct (read_node_data_returns_1 _ _ _ _ _ _ _ _ _ _ _ _ Hs Hload)
    as (nk & k & k2 & k3 & _ & Hd & Hv & _ & _ & _ & _ & _ & _ & _ & _ & _
        & _ & Hvalues & _).
  exists nk, k.
  destruct Hvalues as [(_ & Hl & Hc)|(_ & _ & k5 & c3 & Hl & Hr)].
  - exists 0. unfold libregf_key_item_get_number_of_values. rewrite Hl.
    cbn [libfdata_list_get_number_of_elements length Z.of_nat].
    repeat split; [assumption|assumption|lia|lia|].
    intros Hclean. rewrite Hc in Hclean. discriminate.
  - apply read_values_list_returns_1_count in Hr; [|exact Hl].
    destruct Hr as (added & Hadded & Hlen & Hcount).
    exists (Z.of_nat (length added)).
    unfold libregf_key_item_get_number_of_values. rewrite Hadded.
    cbn [libfdata_list_get_number_of_elements].
    repeat split; [assumption|assumption|lia|assumption|assumption].
Qed.

End NumberOfValues.

(** X11 on the key at 32 of the small hive. *)
Lemma X11_number_of_values_witness :
  exists nk k number_of_values,
    decoded_named_key Fixture.read_full_named_key
      (never_evicting (Some 1252) Fixture.full_cells
         (Fixture.index_of Fixture.known_offsets))
      Fixture.full_cells 32 0 = Some nk
    /\ node_value
         (snd (fst (libregf_key_item_read_node_data
                      Fixture.read_full_named_key
                      Fixture.whole_cell_security_key Fixture.free_succeeds 8
                      (never_evicting (Some 1252) Fixture.full_cells
                         (Fixture.index_of Fixture.known_offsets))
                      Fixture.empty_node tt 32 0))) = Some k
    /\ libregf_key_item_get_number_of_values k = (1, Some number_of_values)
    /\ 0 <= number_of_values <= Z.max 0 (NamedKey.number_of_values nk)
    /\ (is_corrupted k = false ->
        number_of_values = Z.max 0 (NamedKey.number_of_values nk)).
Proof.
  apply (X11_number_of_values_of_loaded_key Fixture.read_full_named_key
           Fixture.whole_cell_security_key Fixture.free_succeeds 8
           (never_evicting (Some 1252) Fixture.full_cells
              (Fixture.index_of Fixture.known_offsets))
           Fixture.full_cells Fixture.empty_node tt 32 0 _ tt).
  - apply never_evicting_serves.
  - vm_compute. reflexivity.
Defined.

(** ** Creating and freeing a key item *)

(** X12.  The free of a key item returns 1 or -1, and it returns 1 exactly
    when every free function that it calls (for the named key, the values
    list and the values cache that the item holds) returns 1: a later free
    that succeeds does not hide an earlier one that failed. *)
Theorem X12_free_reports_every_failure :
  forall (libregf_named_key_free : NamedKey.t -> Z)
         (libfdata_list_free : libfdata_list -> Z)
         (libfcache_cache_free : Z -> Z) (item : libregf_key_item),
    let result :=
      fst (libregf_key_item_free libregf_named_key_free libfdata_list_free
             libfcache_cache_free (Some (Some item))) in
    (result = 1 \/ result = -1)
    /\ (result = 1 <->
        (forall nk, named_key item = Some nk -> libregf_named_key_free nk = 1)
        /\ (forall values,
              values_list item = Some values ->
              libfdata_list_free values = 1)
        /\ (forall entries,
              values_cache item = Some entries ->
              libfcache_cache_free entries = 1)).
Proof.
  intros nk_free list_free cache_free item.
  unfold libregf_key_item_free. cbn [fst].
  destruct (named_key item) as [nk|];
    [destruct (Z.eqb_spec (nk_free nk) 1) as [Hn|Hn]|];
    (destruct (values_list item) as [values|];
     [destruct (Z.eqb_spec (list_free values) 1) as [Hl|Hl]|]);
    (destruct (values_cache item) as [entries|];
     [destruct (Z.eqb_spec (cache_free entries) 1) as [Hc|Hc]|]);
    cbn [negb];
    (split; [auto|]);
    (split;
     [ intros Hr; try discriminate;
       repeat split; intros x Hx; first [discriminate|congruence]
     | intros (H1 & H2 & H3);
       first [ reflexivity
             | exfalso; first [ apply Hn; apply H1; reflexivity
                              | apply Hl; apply H2; reflexivity
                              | apply Hc; apply H3; reflexivity ] ] ]).
Qed.

(** X12 on a key item whose named key cannot be freed: the result is
    -1 although the other free functions succeed. *)
Lemma X12_free_reports_witness :
  fst (libregf_key_item_free (fun _ => -1) Fixture.free_succeeds
         Fixture.free_succeeds
         (Some (Some (set_named_key zeroed_key_item
                        (Some Fixture.parent_named_key))))) = -1.
Proof.
  destruct (X12_free_reports_every_failure (fun _ => -1)
              Fixture.free_succeeds Fixture.free_succeeds
              (set_named_key zeroed_key_item
                 (Some Fixture.parent_named_key))) as ([H|H] & Hiff).
  - exfalso. apply Hiff in H. destruct H as (H1 & _).
    specialize (H1 _ eq_refl). cbn in H1. discriminate.
  - exact H.
Defined.

(** X13.  Creating and freeing compose: whatever a free reports, the
    pointer variable that it leaves behind can be initialized again, to a
    key item with no field set; an initialize through a pointer whose
    target is set fails and leaves the target alone, so a second initialize
    after one that returned 1 fails; and the item that an initialize
    creates is freed without any free function of a sub object being
    called, with result 1. *)
Theorem X13_initialize_and_free_compose :
  forall (libregf_named_key_free : NamedKey.t -> Z)
         (libfdata_list_free : libfdata_list -> Z)
         (libfcache_cache_free : Z -> Z),
    let free :=
      libregf_key_item_free libregf_named_key_free libfdata_list_free
        libfcache_cache_free in
    (forall target,
       libregf_key_item_initialize (snd (free (Some target)))
       = (1, Some (Some zeroed_key_item)))
    /\ (forall target,
          fst (libregf_key_item_initialize (Some target)) = 1 ->
          libregf_key_item_initialize
            (snd (libregf_key_item_initialize (Some target)))
          = (-1, snd (libregf_key_item_initialize (Some target))))
    /\ (forall target,
          fst (libregf_key_item_initialize (Some target)) = 1 ->
          free (snd (libregf_key_item_initialize (Some target)))
          = (1, Some None)).
Proof.
  intros nk_free list_free cache_free free.
  split; [|split].
  - intros [item|]; reflexivity.
  - intros [item|] H; [discriminate|reflexivity].
  - intros [item|] H; [discriminate|reflexivity].
Qed.

(** X13 on a pointer whose target is NULL. *)
Lemma X13_initialize_and_free_witness :
  libregf_key_item_initialize
    (snd (libregf_key_item_initialize (Some None)))
  = (-1, snd (libregf_key_item_initialize (Some None)))
  /\ libregf_key_item_free (fun _ => -1) (fun _ => -1) (fun _ => -1)
       (snd (libregf_key_item_initialize (Some None)))
     = (1, Some None).
Proof.
  destruct (X13_initialize_and_free_compose (fun _ => -1) (fun _ => -1)
              (fun _ => -1)) as (_ & Htwice & Hfree).
  split; [apply Htwice; reflexivity|apply Hfree; reflexivity].
Defined.

(** ** The value types of the Python module *)

Lemma list_dict_get_set_same (dict : Pyregf.list_dict) name value dict' :
  Pyregf.list_dict_set dict name value = Some dict' ->
  Pyregf.list_dict_get dict' name = Some value.
Proof.
  intros H. injection H as <-. cbn [Pyregf.list_dict_get].
  rewrite String.eqb_refl. reflexivity.
Qed.

Lemma list_dict_get_set_other (dict : Pyregf.list_dict) name value dict'
    name' :
  Pyregf.list_dict_set dict name value = Some dict' ->
  name' <> name ->
  Pyregf.list_dict_get dict' name' = Pyregf.list_dict_get dict name'.
Proof.
  intros H Hne. injection H as <-. cbn [Pyregf.list_dict_get].
  destruct (String.eqb_spec name name') as [E|_]; [|reflexivity].
  exfalso. apply Hne. symmetry. exact E.
Qed.

Section ValueTypesTable.

Variable PyDict : Type.
Variable PyDict_New : option PyDict.
Variable PyDict_SetItemString :
  PyDict -> String.string -> Z -> option PyDict.
Variable PyDict_GetItemString : PyDict -> String.string -> option Z.

Variable LIBREGF_VALUE_TYPE_UNDEFINED : Z.
Variable LIBREGF_VALUE_TYPE_STRING : Z.
Variable LIBREGF_VALUE_TYPE_EXPANDABLE_STRING : Z.
Variable LIBREGF_VALUE_TYPE_BINARY_DATA : Z.
Variable LIBREGF_VALUE_TYPE_INTEGER_32BIT_LITTLE_ENDIAN : Z.
Variable LIBREGF_VALUE_TYPE_INTEGER_32BIT_BIG_ENDIAN : Z.
Variable LIBREGF_VALUE_TYPE_SYMBOLIC_LINK : Z.
Variable LIBREGF_VALUE_TYPE_MULTI_VALUE_STRING : Z.
Variable LIBREGF_VALUE_TYPE_RESOURCE_LIST : Z.
Variable LIBREGF_VALUE_TYPE_FULL_RESOURCE_DESCRIPTOR : Z.
Variable LIBREGF_VALUE_TYPE_RESOURCE_REQUIREMENTS_LIST : Z.

Let init_type :=
  Pyregf.pyregf_value_types_init_type PyDict PyDict_New PyDict_SetItemString
    LIBREGF_VALUE_TYPE_UNDEFINED LIBREGF_VALUE_TYPE_STRING
    LIBREGF_VALUE_TYPE_EXPANDABLE_STRING LIBREGF_VALUE_TYPE_BINARY_DATA
    LIBREGF_VALUE_TYPE_INTEGER_32BIT_LITTLE_ENDIAN
    LIBREGF_VALUE_TYPE_INTEGER_32BIT_BIG_ENDIAN
    LIBREGF_VALUE_TYPE_SYMBOLIC_LINK LIBREGF_VALUE_TYPE_MULTI_VALUE_STRING
    LIBREGF_VALUE_TYPE_RESOURCE_LIST
    LIBREGF_VALUE_TYPE_FULL_RESOURCE_DESCRIPTOR
    LIBREGF_VALUE_TYPE_RESOURCE_REQUIREMENTS_LIST.

(** X14.  The initialization of the value types is all or nothing: it
    returns 1 with a dictionary installed in the type object, or -1 with
    the dictionary of the type object NULL (or no type object at all); a
    dictionary that was filled in part is never left behind. *)
Theorem X14_init_type_is_all_or_nothing :
  forall type_object,
    (exists dict,
       init_type type_object
       = (1, Some {| Pyregf.tp_dict := Some dict |})
       /\ type_object <> None)
    \/ (init_type type_object = (-1, Some {| Pyregf.tp_dict := None |})
        /\ type_object <> None)
    \/ (init_type type_object = (-1, None) /\ type_object = None).
Proof.
  intros [t|]; [|right; right; split; reflexivity].
  unfold init_type, Pyregf.pyregf_value_types_init_type.
  destruct PyDict_New as [dict|];
    [|right; left; split; [reflexivity|discriminate]].
  repeat match goal with
         | |- context [PyDict_SetItemString ?d ?n ?v] =>
             destruct (PyDict_SetItemString d n v);
               [|right; left; split; [reflexivity|discriminate]]
         end.
  left. eexists. split; [reflexivity|discriminate].
Qed.

Hypothesis get_set_same :
  forall dict name value dict',
    PyDict_SetItemString dict name value = Some dict' ->
    PyDict_GetItemString dict' name = Some value.
Hypothesis get_set_other :
  forall dict name value dict' name',
    PyDict_SetItemString dict name value = Some dict' ->
    name' <> name ->
    PyDict_GetItemString dict' name' = PyDict_GetItemString dict name'.

Ltac dict_lookup :=
  match goal with
  | H : PyDict_SetItemString ?d ?n ?v = Some ?d'
    |- PyDict_GetItemString ?d' ?n = Some ?v =>
      exact (get_set_same d n v d' H)
  | H : PyDict_SetItemString ?d ?n ?v = Some ?d'
    |- PyDict_GetItemString ?d' ?n' = Some _ =>
      rewrite (get_set_other d n v d' n' H) by discriminate; dict_lookup
  end.

(** X15.  For a dictionary where a lookup gives the value set last for a
    name and setting one name leaves the others alone: after an
    initialization that returned 1 each of the twelve names has its value
    type; the names are distinct, so no item replaces another; the name
    INTEGER_64BIT_LITTLE_ENDIAN has the value of the 32-bit little-endian
    type, as the source sets it. *)
Theorem X15_init_type_table :
  forall type_object type_object',
    init_type type_object = (1, Some type_object') ->
    exists dict,
      Pyregf.tp_dict PyDict type_object' = Some dict
      /\ PyDict_GetItemString dict "UNDEFINED"%string
         = Some LIBREGF_VALUE_TYPE_UNDEFINED
      /\ PyDict_GetItemString dict "STRING"%string
         = Some LIBREGF_VALUE_TYPE_STRING
      /\ PyDict_GetItemString dict "EXPANDABLE_STRING"%string
         = Some LIBREGF_VALUE_TYPE_EXPANDABLE_STRING
      /\ PyDict_GetItemString dict "BINARY_DATA"%string
         = Some LIBREGF_VALUE_TYPE_BINARY_DATA
      /\ PyDict_GetItemString dict "INTEGER_32BIT_LITTLE_ENDIAN"%string
         = Some LIBREGF_VALUE_TYPE_INTEGER_32BIT_LITTLE_ENDIAN
      /\ PyDict_GetItemString dict "INTEGER_32BIT_BIG_ENDIAN"%string
         = Some LIBREGF_VALUE_TYPE_INTEGER_32BIT_BIG_ENDIAN
      /\ PyDict_GetItemString dict "SYMBOLIC_LINK"%string
         = Some LIBREGF_VALUE_TYPE_SYMBOLIC_LINK
      /\ PyDict_GetItemString dict "MULTI_VALUE_STRING"%string
         = Some LIBREGF_VALUE_TYPE_MULTI_VALUE_STRING
      /\ PyDict_GetItemString dict "RESOURCE_LIST"%string
         = Some LIBREGF_VALUE_TYPE_RESOURCE_LIST
      /\ PyDict_GetItemString dict "FULL_RESOURCE_DESCRIPTOR"%string
         = Some LIBREGF_VALUE_TYPE_FULL_RESOURCE_DESCRIPTOR
      /\ PyDict_GetItemString dict "RESOURCE_REQUIREMENTS_LIST"%string
         = Some LIBREGF_VALUE_TYPE_RESOURCE_REQUIREMENTS_LIST
      /\ PyDict_GetItemString dict "INTEGER_64BIT_LITTLE_ENDIAN"%string
         = Some LIBREGF_VALUE_TYPE_INTEGER_32BIT_LITTLE_ENDIAN.
Proof.
  intros [t|] t' H; [|discriminate].
  unfold init_type, Pyregf.pyregf_value_types_init_type in H.
  destruct PyDict_New as [dict0|]; [|discriminate].
  repeat match type of H with
         | context [PyDict_SetItemString ?d ?n ?v] =>
             let E := fresh "E" in
             destruct (PyDict_SetItemString d n v) eqn:E; [|discriminate]
         end.
  injection H as <-. eexists. split; [reflexivity|].
  repeat split; dict_lookup.
Qed.

End ValueTypesTable.

(** X15 on the dictionary kept as a list of items. *)
Lemma X15_init_type_table_witness :
  exists dict,
    Pyregf.list_dict_get dict "INTEGER_64BIT_LITTLE_ENDIAN"%string = Some 4
    /\ Pyregf.list_dict_get dict "INTEGER_32BIT_BIG_ENDIAN"%string = Some 5.
Proof.
  destruct (X15_init_type_table Pyregf.list_dict (Some [])
              Pyregf.list_dict_set Pyregf.list_dict_get 0 1 2 3 4 5 6 7 8 9
              10 list_dict_get_set_same list_dict_get_set_other
              (Some {| Pyregf.tp_dict := None |})
              {| Pyregf.tp_dict :=
                   Some [("INTEGER_64BIT_LITTLE_ENDIAN"%string, 4);
                         ("RESOURCE_REQUIREMENTS_LIST"%string, 10);
                         ("FULL_RESOURCE_DESCRIPTOR"%string, 9);
                         ("RESOURCE_LIST"%string, 8);
                         ("MULTI_VALUE_STRING"%string, 7);
                         ("SYMBOLIC_LINK"%string, 6);
                         ("INTEGER_32BIT_BIG_ENDIAN"%string, 5);
                         ("INTEGER_32BIT_LITTLE_ENDIAN"%string, 4);
                         ("BINARY_DATA"%string, 3);
                         ("EXPANDABLE_STRING"%string, 2);
                         ("STRING"%string, 1);
                         ("UNDEFINED"%string, 0)] |})
    as (dict & _ & _ & _ & _ & _ & _ & H5 & _ & _ & _ & _ & _ & H12).
  - vm_compute. reflexivity.
  - exists dict. split; [exact H12|exact H5].
Defined.

(** ** The cells that the walk fetches *)

Lemma recording_read_sub_keys_list_elements codepage cells index read
    element_size at_leaf_level :
  (forall node log offset,
     exists fetched,
       snd (read node log offset) = fetched ++ log
       /\ forall o,
            In o fetched -> o = uint32 offset \/ probed_offset index o) ->
  forall remaining data corruption node log,
    exists fetched,
      snd (read_sub_keys_list_elements (recording codepage cells index) read
             element_size at_leaf_level remaining data corruption node log)
      = fetched ++ log
      /\ (forall o, In o fetched -> probed_offset index o)
      /\ (at_leaf_level <> 0 -> fetched = []).
Proof.
  intros Hread.
  assert (Hhere : forall (o : outcome) (node0 : libfdata_tree_node)
                         (log : list Z),
            exists fetched,
              snd (o, node0, log) = fetched ++ log
              /\ (forall o, In o fetched -> probed_offset index o)
              /\ (at_leaf_level <> 0 -> fetched = [])).
  { intros o node0 log. exists [].
    split; [reflexivity|]. split; [intros x []|reflexivity]. }
  induction remaining as [|remaining IH]; intros data corruption node log.
  - cbn [read_sub_keys_list_elements].
    destruct (negb (corruption =? 0)); apply Hhere.
  - cbn [read_sub_keys_list_elements].
    destruct (read_uint32_little_endian data) as [[e data1]|] eqn:He;
      [|apply Hhere].
    apply read_uint32_little_endian_bounds in He. destruct He as [He _].
    destruct (if element_size =? 8 then read_uint32_little_endian data1
              else Some (0, data1)) as [[h data2]|]; [|apply Hhere].
    cbv zeta. cbn [libregf_hive_bins_list_get_index_at_offset recording].
    destruct (Z.eqb_spec (index e) (-1)) as [|Hm1]; [apply Hhere|].
    destruct (Z.eqb_spec (index e) 0) as [|Hz]; cbn [negb]; [apply IH|].
    destruct (Z.eqb_spec at_leaf_level 0) as [Hleaf|Hleaf]; cbn [negb];
      [|apply IH].
    destruct (Hread node log e) as (f1 & Hf1 & Hin1).
    destruct (read node log e) as [[o1 node1] c1].
    cbn [snd] in Hf1. subst c1.
    assert (Hknown : forall o, In o f1 -> probed_offset index o).
    { intros o Ho. destruct (Hin1 o Ho) as [-> | H]; [|exact H].
      unfold uint32, UINT32_MAX in *. rewrite Z.mod_small by lia.
      unfold probed_offset, UINT32_MAX. auto. }
    assert (Hstop : forall (o : outcome) (node0 : libfdata_tree_node),
              exists fetched,
                snd (o, node0, f1 ++ log) = fetched ++ log
                /\ (forall o, In o fetched -> probed_offset index o)
                /\ (at_leaf_level <> 0 -> fetched = [])).
    { intros o node0. exists f1. split; [reflexivity|].
      split; [exact Hknown|]. intros; contradiction. }
    destruct o1 as [r| |]; [|apply Hstop..].
    destruct (r =? -1); [apply Hstop|].
    destruct (IH data2 (if r =? 0 then 1 else corruption) node1 (f1 ++ log))
      as (f2 & Hf2 & Hin2 & _).
    exists (f2 ++ f1). rewrite Hf2, app_assoc. split; [reflexivity|].
    split; [|intros; contradiction].
    intros o Ho. apply in_app_iff in Ho. destruct Ho; auto.
Qed.

(** X16.  The walk fetches only list cells whose offset a probe has
    accepted: whatever its outcome, every cell it fetches is the cell at
    the offset it was called with, or a cell at an element offset of 32
    bits for which the probe of the index of bins returned neither 0 nor
    -1; and a walk over a cell that is not an "ri" list fetches that one
    cell and no other, so no cell of a sub key is read. *)
Theorem X16_sub_keys_walk_fetches_probed_offsets :
  forall codepage cells index depth node log sub_keys_list_offset,
    exists fetched,
      snd (libregf_key_item_read_sub_keys_list depth
             (recording codepage cells index) node log sub_keys_list_offset)
      = fetched ++ log
      /\ (forall o,
            In o fetched ->
            o = uint32 sub_keys_list_offset \/ probed_offset index o)
      /\ (forall data,
            cells (uint32 sub_keys_list_offset) = Some data ->
            Byte.eqb (nth 0 data "000"%byte) "r"
            && Byte.eqb (nth 1 data "000"%byte) "i" = false ->
            (length fetched <= 1)%nat).
Proof.
  intros codepage cells index.
  assert (Hhere : forall (o : outcome) (node : libfdata_tree_node)
                         (log : list Z) offset (cell : option (list byte)),
            exists fetched,
              snd (o, node, log) = fetched ++ log
              /\ (forall x,
                    In x fetched ->
                    x = uint32 offset \/ probed_offset index x)
              /\ (forall data,
                    cell = Some data ->
                    Byte.eqb (nth 0 data "000"%byte) "r"
                    && Byte.eqb (nth 1 data "000"%byte) "i" = false ->
                    (length fetched <= 1)%nat)).
  { intros o node log offset cell. exists [].
    split; [reflexivity|]. split; [intros x []|]. intros; cbn; lia. }
  assert (Hone : forall (o : outcome) (node : libfdata_tree_node)
                        (log : list Z) offset (cell : option (list byte)),
            exists fetched,
              snd (o, node, uint32 offset :: log) = fetched ++ log
              /\ (forall x,
                    In x fetched ->
                    x = uint32 offset \/ probed_offset index x)
              /\ (forall data,
                    cell = Some data ->
                    Byte.eqb (nth 0 data "000"%byte) "r"
                    && Byte.eqb (nth 1 data "000"%byte) "i" = false ->
                    (length fetched <= 1)%nat)).
  { intros o node log offset cell. exists [uint32 offset].
    split; [reflexivity|].
    split; [intros x [<- | []]; left; reflexivity|]. intros; cbn; lia. }
  induction depth as [|depth IH]; intros node log offset; [apply Hhere|].
  cbn [libregf_key_item_read_sub_keys_list].
  destruct ((offset =? 0) || (offset =? 0xffffffff)); [apply Hhere|].
  cbn [libregf_hive_bins_list_get_cell_at_offset recording
       hive_bin_cell_data].
  destruct (cells (uint32 offset)) as [data|] eqn:Hcell; [|apply Hone].
  cbv zeta.
  destruct (_ <? sizeof_regf_sub_key_list_t); [apply Hone|].
  assert (Hloop : forall element_size at_leaf_level remaining rest,
            ((Byte.eqb (nth 0 data "000"%byte) "r"
              && Byte.eqb (nth 1 data "000"%byte) "i" = false) ->
             at_leaf_level <> 0) ->
            exists fetched,
              snd (read_sub_keys_list_elements
                     (recording codepage cells index)
                     (libregf_key_item_read_sub_keys_list depth
                        (recording codepage cells index))
                     element_size at_leaf_level remaining rest 0 node
                     (uint32 offset :: log))
              = fetched ++ log
              /\ (forall x,
                    In x fetched ->
                    x = uint32 offset \/ probed_offset index x)
              /\ (forall data0,
                    Some data = Some data0 ->
                    Byte.eqb (nth 0 data0 "000"%byte) "r"
                    && Byte.eqb (nth 1 data0 "000"%byte) "i" = false ->
                    (length fetched <= 1)%nat)).
  { intros element_size at_leaf_level remaining rest Hleaf.
    destruct (recording_read_sub_keys_list_elements codepage cells index
                (libregf_key_item_read_sub_keys_list depth
                   (recording codepage cells index))
                element_size at_leaf_level
                ltac:(intros n l o;
                      destruct (IH n l o) as (f & Hf & Hin & _);
                      exists f; auto)
                remaining rest 0 node (uint32 offset :: log))
      as (f & Hf & Hin & Hnil).
    exists (f ++ [uint32 offset]). rewrite Hf, <- app_assoc.
    split; [reflexivity|]. split.
    - intros x Hx. apply in_app_iff in Hx.
      destruct Hx as [Hx | [<- | []]]; [right; auto|left; reflexivity].
    - intros data0 E Hri. injection E as <-.
      rewrite (Hnil (Hleaf Hri)). cbn. lia. }
  destruct (Byte.eqb (nth 0 data "000"%byte) "r"
            && Byte.eqb (nth 1 data "000"%byte) "i") eqn:Hri.
  { destruct (_ <? _); [apply Hone|].
    apply Hloop. intros; discriminate. }
  destruct (Byte.eqb (nth 0 data "000"%byte) "l"
            && Byte.eqb (nth 1 data "000"%byte) "i").
  { destruct (_ <? _); [apply Hone|].
    apply Hloop. intros _; discriminate. }
  destruct (Byte.eqb (nth 0 data "000"%byte) "l"
            && (Byte.eqb (nth 1 data "000"%byte) "f"
                || Byte.eqb (nth 1 data "000"%byte) "h")); [|apply Hone].
  destruct (_ <? _); [apply Hone|].
  apply Hloop. intros _; discriminate.
Qed.
